(** * Experiment-results evaluator: a shallow embedding

    The repository holds two variants of one analysis script:
    [Nicolaas/evaluator.py] (objective is minimised) and
    [Nicolaas/evaluator_v2.py] (objective is maximised).  Each loads a CSV
    of runs, prints a quality summary, an efficiency summary with a
    "first versus best" narrative, and draws bar charts.

    Numbers are IEEE-754 binary64 values, taken from the standard library's
    executable specification [SpecFloat] (one NaN, signed zeros and
    infinities, round-to-nearest-even).  A data frame is the list of its
    rows; a grouped summary is the list of its rows in index order.
    Printing and plotting are recorded as events of an output trace, and a
    Python exception is the left injection of the result. *)

From Stdlib Require Import ZArith List String Ascii Bool Lia.
From Stdlib Require Import Sorting.Sorted Sorting.Permutation.
From Stdlib Require Import Floats.SpecFloat.
Import ListNotations.

Local Open Scope string_scope.
Local Open Scope list_scope.

(** ** binary64 arithmetic *)

Module F64.

Definition float : Type := spec_float.

Definition prec : Z := 53.
Definition emax : Z := 1024.

Definition nan : float := S754_nan.
Definition zero : float := S754_zero false.

Definition add : float -> float -> float := SFadd prec emax.
Definition sub : float -> float -> float := SFsub prec emax.
Definition mul : float -> float -> float := SFmul prec emax.
Definition div : float -> float -> float := SFdiv prec emax.
Definition sqrt : float -> float := SFsqrt prec emax.
Definition abs : float -> float := SFabs.

Definition eqb : float -> float -> bool := SFeqb.
Definition ltb : float -> float -> bool := SFltb.
Definition leb : float -> float -> bool := SFleb.

(** [x != x], the test behind [pd.isna] on a float. *)
Definition isnan (x : float) : bool :=
  match x with
  | S754_nan => true
  | _ => false
  end.

(** Conversion of a Python [int] (exact below 2^53, rounded above). *)
Definition of_Z (z : Z) : float := binary_normalize prec emax z 0 false.

Definition of_nat (n : nat) : float := of_Z (Z.of_nat n).

(** The order embedding used to reason about comparisons: every value
    that is not NaN is sent to a triple of integers compared
    lexicographically. *)
Definition rank (x : float) : Z * Z * Z :=
  match x with
  | S754_infinity true => (-2, 0, 0)
  | S754_finite true m e => (-1, - e, Z.neg m)
  | S754_zero _ => (0, 0, 0)
  | S754_nan => (0, 0, 0)
  | S754_finite false m e => (1, e, Z.pos m)
  | S754_infinity false => (2, 0, 0)
  end%Z.

Definition lexcmp (p q : Z * Z * Z) : comparison :=
  let '(a, b, c) := p in
  let '(a', b', c') := q in
  match (a ?= a')%Z with
  | Eq => match (b ?= b')%Z with
          | Eq => (c ?= c')%Z
          | r => r
          end
  | r => r
  end.

(** The same order as a proposition over the integers. *)
Definition lexle (p q : Z * Z * Z) : Prop :=
  let '(a, b, c) := p in
  let '(a', b', c') := q in
  (a < a' \/ (a = a' /\ (b < b' \/ (b = b' /\ c <= c'))))%Z.

End F64.

Definition float : Type := F64.float.

(** ** Column reductions of pandas

    [mean], [std] and [count] are pandas reductions; their kernels are
    library code.  They are modelled after the pandas documentation:
    missing values are skipped, [mean] is the sum over the count, [std] is
    the sample standard deviation (one delta degree of freedom) and is
    missing when fewer than two values remain. *)

Module Agg.

Definition notna (xs : list float) : list float :=
  filter (fun x => negb (F64.isnan x)) xs.

Definition sum (xs : list float) : float :=
  fold_left F64.add xs F64.zero.

Definition mean (xs : list float) : float :=
  let v := notna xs in
  match v with
  | [] => F64.nan
  | _ => F64.div (sum v) (F64.of_nat (List.length v))
  end.

Definition sq_dev (m x : float) : float :=
  let d := F64.sub x m in F64.mul d d.

Definition std (xs : list float) : float :=
  let v := notna xs in
  let n := List.length v in
  if (n <=? 1)%nat then F64.nan
  else F64.sqrt (F64.div (sum (map (sq_dev (mean v)) v))
                         (F64.of_nat (n - 1))).

Definition count {A : Type} (xs : list (option A)) : nat :=
  List.length (filter (fun x => match x with Some _ => true | None => false end) xs).

End Agg.

(** ** Sorting and grouping *)

Section Sorting.
Context {A : Type}.
Variable le : A -> A -> bool.

Fixpoint insert (x : A) (l : list A) : list A :=
  match l with
  | [] => [x]
  | y :: t => if le x y then x :: y :: t else y :: insert x t
  end.

Fixpoint isort (l : list A) : list A :=
  match l with
  | [] => []
  | x :: t => insert x (isort t)
  end.
End Sorting.

(** [sort_values(by=col, ascending=...)]: rows ordered by one float
    column, missing values last in either direction (pandas'
    [na_position='last']).  The relative order of rows with equal keys is
    left open by pandas' default algorithm; the model keeps a fixed one. *)
Definition asc_le (a b : float) : bool :=
  if F64.isnan b then true
  else if F64.isnan a then false
  else F64.leb a b.

Definition desc_le (a b : float) : bool :=
  if F64.isnan b then true
  else if F64.isnan a then false
  else F64.leb b a.

Definition sort_values {R : Type} (by_ : R -> float) (ascending : bool)
    (t : list R) : list R :=
  isort (fun r1 r2 =>
           if ascending then asc_le (by_ r1) (by_ r2)
           else desc_le (by_ r1) (by_ r2)) t.

Section GroupBy.
Context {R K : Type}.
Variable key : R -> option K.    (* the index label of the row's group;
                                    [None]: a key column is missing *)
Variable keq : K -> K -> bool.   (* equality of group keys *)
Variable kle : K -> K -> bool.   (* order of the result index *)

Fixpoint keys (df : list R) : list K :=
  match df with
  | [] => []
  | r :: t => match key r with
              | Some k => k :: keys t
              | None => keys t
              end
  end.

(** The distinct labels, in order of first appearance. *)
Fixpoint uniques (ks : list K) : list K :=
  match ks with
  | [] => []
  | k :: t => k :: filter (fun k' => negb (keq k k')) (uniques t)
  end.

Definition in_group (k : K) (r : R) : bool :=
  match key r with
  | Some k' => keq k k'
  | None => false
  end.

(** The rows that [dropna=True] keeps. *)
Definition has_key (r : R) : bool :=
  match key r with
  | Some _ => true
  | None => false
  end.

(** [df.groupby(cols)]: rows with a missing key are left out
    ([dropna=True]), groups come in key order ([sort=True]) and keep the
    frame's row order inside. *)
Definition groupby (df : list R) : list (K * list R) :=
  map (fun k => (k, filter (in_group k) df)) (isort kle (uniques (keys df))).
End GroupBy.

(** ** The data model *)

(** One line of the CSV file as [pd.read_csv] delivers it.  An empty cell
    is a missing value: [None] in a text or integer column, NaN in a float
    column. *)
Module Csv.
Record row : Type := mk {
  strategy : option string;
  alpha : float;
  op_set : option string;
  seed : option Z;
  final_obj : float;
  total_time : float;
  iterations : float
}.
End Csv.

(** One row of the loaded frame: the CSV columns and [op_set_str]. *)
Record Run : Type := mkRun {
  strategy : option string;
  alpha : float;
  op_set : option string;
  seed : option Z;
  final_obj : float;
  total_time : float;
  iterations : float;
  op_set_str : string
}.

Definition Frame : Type := list Run.

(** [Series.astype(str)] on a text column: a missing cell becomes the
    three letters [nan] (pandas before 3.0). *)
Definition astype_str (c : option string) : string :=
  match c with
  | Some s => s
  | None => "nan"
  end.

(** A configuration: the index of the quality summary. *)
Definition config : Type := string * float * string.

Module Quality.
Record agg : Type := mkAgg {
  index : config;
  mean_obj : float;
  std_obj : float;
  mean_time : float;
  num_runs : nat
}.
Record row : Type := mk {
  cols : agg;
  CV_obj : float
}.
End Quality.

Module Efficiency.
Record agg : Type := mkAgg {
  index : string;
  mean_obj : float;
  mean_time : float;
  mean_iterations : float
}.
Record row : Type := mk {
  cols : agg;
  performance_metric : float
}.
End Efficiency.

Module OpSet.
Record row : Type := mk {
  index : string;
  mean_obj : float;
  mean_time : float
}.
End OpSet.

Module Vis.
Record row : Type := mk {
  strategy : string;
  alpha : float;
  mean_obj : float;
  mean_time : float;
  performance_metric : option float   (* a column of the second variant *)
}.
End Vis.

(** ** Output and exceptions *)

Inductive exn : Type :=
| KeyError (label : string)
| IndexError.

Inductive event : Type :=
| Say (text : string)
| SayLoaded (total_runs : nat)
| ShowQuality (t : list Quality.row) (decimals : nat)
| SayBestConfig (best_config : config)
| SayBestScores (mean_obj cv_obj : float)
| ShowEfficiency (t : list Efficiency.row) (decimals : nat)
| ShowOpSet (t : list OpSet.row) (decimals : nat)
| SayFaster (time_ratio : float)
| SaySacrifices (quality_diff : float)
| Barplot (data : list Vis.row) (x y hue : string)
| PltShow.

(** A computation prints a trace and then returns or raises. *)
Definition M (A : Type) : Type := list event * (exn + A).

Definition ret {A : Type} (a : A) : M A := ([], inr a).

Definition raise {A : Type} (e : exn) : M A := ([], inl e).

Definition print (e : event) : M unit := ([e], inr tt).

Definition bind {A B : Type} (m : M A) (f : A -> M B) : M B :=
  match m with
  | (t, inl e) => (t, inl e)
  | (t, inr a) => let '(t', r) := f a in (t ++ t', r)
  end.

Notation "x <- m ;; k" := (bind m (fun x => k))
  (at level 61, m at next level, right associativity).
Notation "m ;; k" := (bind m (fun _ => k))
  (at level 61, right associativity).

(** [try: body / except KeyError: pass]. *)
Definition except_KeyError_pass (body : M unit) : M unit :=
  match body with
  | (t, inl (KeyError _)) => (t, inr tt)
  | other => other
  end.

Definition trace {A : Type} (m : M A) : list event := fst m.
Definition outcome {A : Type} (m : M A) : exn + A := snd m.

(** ** Pieces shared by the two variants *)

(** The file system seen by [pd.read_csv]: [None] where no file exists. *)
Definition FileSystem : Type := string -> option (list Csv.row).

Definition RESULTS_FILE : string := "experiment_results_detailed.csv".

Definition nl : string := String (ascii_of_nat 10) EmptyString.

Definition rule : string := string_of_list_ascii (repeat "="%char 80).

(** [df['op_set_str'] = df['op_set'].astype(str)] on one row. *)
Definition with_op_set_str (r : Csv.row) : Run :=
  mkRun (Csv.strategy r) (Csv.alpha r) (Csv.op_set r) (Csv.seed r)
        (Csv.final_obj r) (Csv.total_time r) (Csv.iterations r)
        (astype_str (Csv.op_set r)).

(** The key cells of a row; a missing text cell or a NaN drops the row
    from the grouping. *)
Definition config_key (r : Run) : option config :=
  match strategy r with
  | None => None
  | Some s => if F64.isnan (alpha r) then None
              else Some (s, alpha r, op_set_str r)
  end.

Definition strategy_key (r : Run) : option string := strategy r.

Definition op_set_key (r : Run) : option string := Some (op_set_str r).

Definition strategy_alpha_key (r : Run) : option (string * float) :=
  match strategy r with
  | None => None
  | Some s => if F64.isnan (alpha r) then None else Some (s, alpha r)
  end.

(** Equality of keys: text by characters, alpha as a number (the two
    signed zeros are one key). *)
Definition config_eqb (k k' : config) : bool :=
  let '(s, a, o) := k in
  let '(s', a', o') := k' in
  String.eqb s s' && F64.eqb a a' && String.eqb o o'.

(** The order of a multi-column index: column by column. *)
Definition config_leb (k k' : config) : bool :=
  let '(s, a, o) := k in
  let '(s', a', o') := k' in
  match String.compare s s' with
  | Lt => true
  | Gt => false
  | Eq => if F64.ltb a a' then true
          else if F64.ltb a' a then false
          else String.leb o o'
  end.

Definition strategy_alpha_eqb (k k' : string * float) : bool :=
  String.eqb (fst k) (fst k') && F64.eqb (snd k) (snd k').

Definition strategy_alpha_leb (k k' : string * float) : bool :=
  match String.compare (fst k) (fst k') with
  | Lt => true
  | Gt => false
  | Eq => F64.leb (snd k) (snd k')
  end.

(** pandas factorizes every key column on its own, over the whole
    column: a float is represented in the result index by the first
    value of the column that equals it as a number, so that [0.0] and
    [-0.0] are shown as whichever of them the column holds first.  (The
    second branch is never taken for a value of the column itself.) *)
Definition alpha_level (df : Frame) (a : float) : float :=
  match find (fun x => F64.eqb x a) (map alpha df) with
  | Some x => x
  | None => a
  end.

(** The index label of the group of a row, within the table [df]. *)
Definition config_label (df : Frame) (r : Run) : option config :=
  match strategy r with
  | None => None
  | Some s => if F64.isnan (alpha r) then None
              else Some (s, alpha_level df (alpha r), op_set_str r)
  end.

Definition strategy_alpha_label (df : Frame) (r : Run)
    : option (string * float) :=
  match strategy r with
  | None => None
  | Some s => if F64.isnan (alpha r) then None
              else Some (s, alpha_level df (alpha r))
  end.

(** The named aggregations of one group. *)
Definition quality_agg (g : config * Frame) : Quality.agg :=
  Quality.mkAgg (fst g)
    (Agg.mean (map final_obj (snd g)))
    (Agg.std (map final_obj (snd g)))
    (Agg.mean (map total_time (snd g)))
    (Agg.count (map seed (snd g))).

Definition efficiency_agg (g : string * Frame) : Efficiency.agg :=
  Efficiency.mkAgg (fst g)
    (Agg.mean (map final_obj (snd g)))
    (Agg.mean (map total_time (snd g)))
    (Agg.mean (map iterations (snd g))).

Definition op_set_agg (g : string * Frame) : OpSet.row :=
  OpSet.mk (fst g)
    (Agg.mean (map final_obj (snd g)))
    (Agg.mean (map total_time (snd g))).

Definition strategy_alpha_agg (g : string * float * Frame) : Vis.row :=
  Vis.mk (fst (fst g)) (snd (fst g))
    (Agg.mean (map final_obj (snd g)))
    (Agg.mean (map total_time (snd g)))
    None.

(** The row of a frame indexed by strategy that carries [label]. *)
Definition lookup (t : list Efficiency.row) (label : string)
    : option Efficiency.row :=
  find (fun r => String.eqb (Efficiency.index (Efficiency.cols r)) label) t.

(** [t.loc[label, col]]: a label outside the index raises [KeyError]. *)
Definition loc (t : list Efficiency.row) (label : string)
    (col : Efficiency.row -> float) : M float :=
  match lookup t label with
  | Some r => ret (col r)
  | None => raise (KeyError label)
  end.

(** [t.index[0]] and [t.iloc[0]]. *)
Definition index0 (t : list Quality.row) : M config :=
  match t with
  | r :: _ => ret (Quality.index (Quality.cols r))
  | [] => raise IndexError
  end.

Definition iloc0 (t : list Quality.row) : M Quality.row :=
  match t with
  | r :: _ => ret r
  | [] => raise IndexError
  end.

Definition e_mean_obj (r : Efficiency.row) : float :=
  Efficiency.mean_obj (Efficiency.cols r).

Definition e_mean_time (r : Efficiency.row) : float :=
  Efficiency.mean_time (Efficiency.cols r).

Definition q_mean_obj (r : Quality.row) : float :=
  Quality.mean_obj (Quality.cols r).

Definition q_std_obj (r : Quality.row) : float :=
  Quality.std_obj (Quality.cols r).

Definition one : float := F64.of_Z 1.
Definition hundred : float := F64.of_Z 100.

(** ** [Nicolaas/evaluator.py]: the minimisation variant *)

Module Evaluator.

Definition load_and_prepare_data (fs : FileSystem) (file_path : string)
    : M (option Frame) :=
  print (Say ("Loading results from " ++ file_path ++ "..."));;
  match fs file_path with
  | None =>
      print (Say ("Error: File not found at " ++ file_path));;
      ret None
  | Some csv =>
      let df := map with_op_set_str csv in
      print (SayLoaded (List.length df));;
      ret (Some df)
  end.

(** Line 45: [(std_obj / mean_obj) * 100] on one row. *)
Definition with_CV_obj (r : Quality.agg) : Quality.row :=
  Quality.mk r
    (F64.mul (F64.div (Quality.std_obj r) (Quality.mean_obj r)) hundred).

(** Lines 37-45: the grouped frame, sorted, with its [CV_obj] column. *)
Definition quality_summary (df : Frame) : list Quality.row :=
  let quality_summary :=
    sort_values Quality.mean_obj true
      (map quality_agg (groupby (config_label df) config_eqb config_leb df)) in
  map with_CV_obj quality_summary.

Definition analyze_quality_and_robustness (df : Frame) : M (list Quality.row) :=
  print (Say (nl ++ rule));;
  print (Say "🏆 Step 1: Quality (Mean Objective) and Robustness (Std Dev)");;
  print (Say rule);;
  let quality_summary := quality_summary df in
  print (Say (nl ++ "--- Summary Ranked by Mean Final Objective (Lowest is Best) ---"));;
  print (ShowQuality (firstn 15 quality_summary) 2);;
  print (Say (nl ++ "--- Interpretation ---"));;
  best_config <- index0 quality_summary;;
  print (SayBestConfig best_config);;
  top <- iloc0 quality_summary;;
  print (SayBestScores (q_mean_obj top) (Quality.CV_obj top));;
  ret quality_summary.

(** Line 71: [mean_obj * mean_time] on one row. *)
Definition with_performance_metric (r : Efficiency.agg) : Efficiency.row :=
  Efficiency.mk r (F64.mul (Efficiency.mean_obj r) (Efficiency.mean_time r)).

(** Lines 64-71. *)
Definition efficiency_summary (df : Frame) : list Efficiency.row :=
  map with_performance_metric
    (map efficiency_agg (groupby strategy_key String.eqb String.leb df)).

(** Line 74: the frame handed to [print]. *)
Definition efficiency_report (df : Frame) : list Efficiency.row :=
  efficiency_summary df.

(** Lines 77-80. *)
Definition op_summary (df : Frame) : list OpSet.row :=
  sort_values OpSet.mean_time true
    (map op_set_agg (groupby op_set_key String.eqb String.leb df)).

(** Lines 84-90: the comparison of the two named strategies. *)
Definition interpretation (efficiency_summary : list Efficiency.row) : M unit :=
  first_time <- loc efficiency_summary "first" e_mean_time;;
  best_time <- loc efficiency_summary "best" e_mean_time;;
  if F64.ltb first_time best_time then
    first_obj <- loc efficiency_summary "first" e_mean_obj;;
    best_obj <- loc efficiency_summary "best" e_mean_obj;;
    let quality_diff := F64.mul (F64.sub (F64.div first_obj best_obj) one) hundred in
    best_time <- loc efficiency_summary "best" e_mean_time;;
    first_time <- loc efficiency_summary "first" e_mean_time;;
    let time_ratio := F64.div best_time first_time in
    print (SayFaster time_ratio);;
    print (SaySacrifices quality_diff);;
    print (Say "Decide if the speed gain is worth the small loss in quality.")
  else ret tt.

Definition analyze_efficiency_and_tradeoff (df : Frame) : M unit :=
  print (Say (nl ++ rule));;
  print (Say "⚡ Step 2: Efficiency (Time) and Quality/Time Trade-off");;
  print (Say rule);;
  let efficiency_summary := efficiency_summary df in
  print (Say (nl ++ "--- Strategy Efficiency Summary ---"));;
  print (ShowEfficiency (efficiency_report df) 2);;
  print (Say (nl ++ "--- Operator Set Efficiency ---"));;
  let op_summary := op_summary df in
  print (ShowOpSet op_summary 2);;
  print (Say (nl ++ "--- Interpretation ---"));;
  interpretation efficiency_summary.

(** Lines 99-102. *)
Definition df_agg (df : Frame) : list Vis.row :=
  map strategy_alpha_agg
    (groupby (strategy_alpha_label df) strategy_alpha_eqb strategy_alpha_leb df).

Definition visualize_results (df : Frame) : M unit :=
  print (Say (nl ++ rule));;
  print (Say "📈 Step 3: Visualization");;
  print (Say rule);;
  let df_agg := df_agg df in
  print (Barplot df_agg "alpha" "mean_obj" "strategy");;
  print (Barplot df_agg "alpha" "mean_time" "strategy");;
  print PltShow;;
  print (Say "Visualization plots generated.").

Definition main_analysis (fs : FileSystem) : M unit :=
  df <- load_and_prepare_data fs RESULTS_FILE;;
  match df with
  | None => ret tt
  | Some df =>
      analyze_quality_and_robustness df;;
      analyze_efficiency_and_tradeoff df;;
      visualize_results df;;
      print (Say (nl ++ rule));;
      print (Say "✅ Analysis Complete.");;
      print (Say "For comparison to published results, calculate the % deviation: (Your Result - Published Result) / Published Result");;
      print (Say "Use the 'mean_obj' of the best configuration identified above.");;
      print (Say rule)
  end.

End Evaluator.

(** ** [Nicolaas/evaluator_v2.py]: the maximisation variant *)

Module EvaluatorV2.

Definition load_and_prepare_data (fs : FileSystem) (file_path : string)
    : M (option Frame) :=
  print (Say ("Loading results from " ++ file_path ++ "..."));;
  match fs file_path with
  | None =>
      print (Say ("Error: File not found at " ++ file_path));;
      ret None
  | Some csv =>
      let df := map with_op_set_str csv in
      print (SayLoaded (List.length df));;
      ret (Some df)
  end.

(** Line 40: [(std_obj / np.abs(mean_obj)) * 100] on one row. *)
Definition with_CV_obj (r : Quality.agg) : Quality.row :=
  Quality.mk r
    (F64.mul (F64.div (Quality.std_obj r) (F64.abs (Quality.mean_obj r)))
             hundred).

(** Lines 33-40. *)
Definition quality_summary (df : Frame) : list Quality.row :=
  let quality_summary :=
    sort_values Quality.mean_obj false
      (map quality_agg (groupby (config_label df) config_eqb config_leb df)) in
  map with_CV_obj quality_summary.

Definition analyze_quality_and_robustness (df : Frame) : M (list Quality.row) :=
  print (Say (nl ++ rule));;
  print (Say "🏆 Step 1: Quality (Mean Objective - Higher is Better) and Robustness (Std Dev)");;
  print (Say rule);;
  let quality_summary := quality_summary df in
  print (Say (nl ++ "--- Summary Ranked by Mean Final Objective (Highest is Best) ---"));;
  print (ShowQuality (firstn 15 quality_summary) 2);;
  print (Say (nl ++ "--- Interpretation ---"));;
  best_config <- index0 quality_summary;;
  print (SayBestConfig best_config);;
  top <- iloc0 quality_summary;;
  print (SayBestScores (q_mean_obj top) (Quality.CV_obj top));;
  ret quality_summary.

(** Line 66: [mean_obj / mean_time] on one row. *)
Definition with_performance_metric (r : Efficiency.agg) : Efficiency.row :=
  Efficiency.mk r (F64.div (Efficiency.mean_obj r) (Efficiency.mean_time r)).

(** Lines 59-66. *)
Definition efficiency_summary (df : Frame) : list Efficiency.row :=
  map with_performance_metric
    (map efficiency_agg (groupby strategy_key String.eqb String.leb df)).

(** Line 69: the frame handed to [print]. *)
Definition efficiency_report (df : Frame) : list Efficiency.row :=
  sort_values Efficiency.performance_metric false (efficiency_summary df).

(** Lines 72-75. *)
Definition op_summary (df : Frame) : list OpSet.row :=
  sort_values OpSet.mean_time true
    (map op_set_agg (groupby op_set_key String.eqb String.leb df)).

(** Lines 80-86: the body of the [try]. *)
Definition interpretation (efficiency_summary : list Efficiency.row) : M unit :=
  first_time <- loc efficiency_summary "first" e_mean_time;;
  best_time <- loc efficiency_summary "best" e_mean_time;;
  if F64.ltb first_time best_time then
    best_obj <- loc efficiency_summary "best" e_mean_obj;;
    first_obj <- loc efficiency_summary "first" e_mean_obj;;
    let quality_diff := F64.mul (F64.sub (F64.div best_obj first_obj) one) hundred in
    best_time <- loc efficiency_summary "best" e_mean_time;;
    first_time <- loc efficiency_summary "first" e_mean_time;;
    let time_ratio := F64.div best_time first_time in
    print (SayFaster time_ratio);;
    print (SaySacrifices quality_diff);;
    print (Say "Decide if the speed gain is worth the small loss in quality.")
  else ret tt.

Definition analyze_efficiency_and_tradeoff (df : Frame) : M unit :=
  print (Say (nl ++ rule));;
  print (Say "⚡ Step 2: Efficiency (Time) and Quality/Time Trade-off");;
  print (Say rule);;
  let efficiency_summary := efficiency_summary df in
  print (Say (nl ++ "--- Strategy Efficiency Summary ---"));;
  print (ShowEfficiency (efficiency_report df) 2);;
  print (Say (nl ++ "--- Operator Set Efficiency ---"));;
  let op_summary := op_summary df in
  print (ShowOpSet op_summary 2);;
  print (Say (nl ++ "--- Interpretation ---"));;
  except_KeyError_pass (interpretation efficiency_summary).

(** Line 102: [mean_obj / mean_time] at the finer grain. *)
Definition with_vis_metric (r : Vis.row) : Vis.row :=
  Vis.mk (Vis.strategy r) (Vis.alpha r) (Vis.mean_obj r) (Vis.mean_time r)
         (Some (F64.div (Vis.mean_obj r) (Vis.mean_time r))).

(** Lines 96-102. *)
Definition df_agg (df : Frame) : list Vis.row :=
  map with_vis_metric
    (map strategy_alpha_agg
       (groupby (strategy_alpha_label df) strategy_alpha_eqb
          strategy_alpha_leb df)).

Definition v_performance_metric (r : Vis.row) : float :=
  match Vis.performance_metric r with
  | Some x => x
  | None => F64.nan
  end.

Definition visualize_results (df : Frame) : M unit :=
  print (Say (nl ++ rule));;
  print (Say "📈 Step 3: Visualization");;
  print (Say rule);;
  let df_agg := df_agg df in
  print (Barplot df_agg "alpha" "mean_obj" "strategy");;
  print (Barplot df_agg "alpha" "mean_time" "strategy");;
  let df_ranked := sort_values v_performance_metric false df_agg in
  print (Barplot df_ranked "performance_metric" "strategy" "alpha");;
  print PltShow;;
  print (Say "Visualization plots generated.").

Definition main_analysis (fs : FileSystem) : M unit :=
  df <- load_and_prepare_data fs RESULTS_FILE;;
  match df with
  | None => ret tt
  | Some df =>
      analyze_quality_and_robustness df;;
      analyze_efficiency_and_tradeoff df;;
      visualize_results df;;
      print (Say (nl ++ rule));;
      print (Say "✅ Analysis Complete.");;
      print (Say "For comparison to published results, calculate the % deviation: (Your Result - Published Result) / Published Result");;
      print (Say "Use the 'mean_obj' or 'performance_metric' of the best configuration identified above.");;
      print (Say rule)
  end.

End EvaluatorV2.

(** ** Vocabulary of the statements *)

Definition has_strategy (r : Run) : bool :=
  match strategy r with
  | Some _ => true
  | None => false
  end.

Definition has_alpha (r : Run) : bool := negb (F64.isnan (alpha r)).

Definition has_seed (r : Run) : bool :=
  match seed r with
  | Some _ => true
  | None => false
  end.

(** The source rows that carry the configuration [k]. *)
Definition carrying (k : config) (df : Frame) : Frame :=
  filter (in_group config_key config_eqb k) df.

(** Ascending and descending order of a float column, undefined values
    last. *)
Definition ascending (a b : float) : Prop :=
  F64.isnan b = true \/ (F64.isnan a = false /\ F64.leb a b = true).

Definition descending (a b : float) : Prop :=
  F64.isnan b = true \/ (F64.isnan a = false /\ F64.leb b a = true).

(** The source rows of strategy [s]. *)
Definition of_strategy (s : string) (df : Frame) : Frame :=
  filter (in_group strategy_key String.eqb s) df.

(** The source rows whose [op_set_str] is [o]. *)
Definition of_op_set (o : string) (df : Frame) : Frame :=
  filter (in_group op_set_key String.eqb o) df.

(** The means of one strategy over its source rows. *)
Definition strategy_mean_time (s : string) (df : Frame) : float :=
  Agg.mean (map total_time (of_strategy s df)).

Definition strategy_mean_obj (s : string) (df : Frame) : float :=
  Agg.mean (map final_obj (of_strategy s df)).

(** The CSV columns of a loaded row. *)
Definition to_csv (r : Run) : Csv.row :=
  Csv.mk (strategy r) (alpha r) (op_set r) (seed r)
         (final_obj r) (total_time r) (iterations r).

(** The three lines of the "first versus best" narrative. *)
Definition is_narrative (e : event) : bool :=
  match e with
  | SayFaster _ => true
  | SaySacrifices _ => true
  | Say text =>
      String.eqb text "Decide if the speed gain is worth the small loss in quality."
  | _ => false
  end.

(** The triple of a source row as the table shows it, missing strategy
    included. *)
Definition source_triple (r : Run) : option string * float * string :=
  (strategy r, alpha r, op_set_str r).

Definition summary_triple (row : Quality.row) : option string * float * string :=
  let '(s, a, o) := Quality.index (Quality.cols row) in (Some s, a, o).

(** ** Sample tables *)

Definition csv_run (s : option string) (a : float) (o : option string)
    (sd : option Z) (obj time : Z) : Csv.row :=
  Csv.mk s a o sd (F64.of_Z obj) (F64.of_Z time) (F64.of_Z 10).

Definition run (s : option string) (a : float) (o : option string)
    (sd : option Z) (obj time : Z) : Run :=
  with_op_set_str (csv_run s a o sd obj time).

(** Three seeds of one configuration with objectives -10, -20, -30. *)
Definition negative_table : Frame :=
  [ run (Some "X") one (Some "[a]") (Some 1%Z) (-10) 1;
    run (Some "X") one (Some "[a]") (Some 2%Z) (-20) 1;
    run (Some "X") one (Some "[a]") (Some 3%Z) (-30) 1 ].

(** Scenario A: three seeds of one configuration with objectives 10, 20,
    30. *)
Definition scenario_A : Frame :=
  [ run (Some "X") one (Some "[a]") (Some 1%Z) 10 1;
    run (Some "X") one (Some "[a]") (Some 2%Z) 20 1;
    run (Some "X") one (Some "[a]") (Some 3%Z) 30 1 ].

(** Scenario B: "first" takes 1 s for objective 100, "best" 5 s for 90. *)
Definition scenario_B : Frame :=
  [ run (Some "first") one (Some "[a]") (Some 1%Z) 100 1;
    run (Some "best") one (Some "[a]") (Some 1%Z) 90 5 ].

(** Scenario C: no row of strategy "best". *)
Definition scenario_C : Frame :=
  [ run (Some "first") one (Some "[a]") (Some 1%Z) 100 1 ].

(** "first" is the slower strategy here. *)
Definition slow_first : Frame :=
  [ run (Some "first") one (Some "[a]") (Some 1%Z) 100 5;
    run (Some "best") one (Some "[a]") (Some 1%Z) 90 1 ].

(** Two strategies whose label order is the reverse of a descending
    performance metric. *)
Definition two_strategies : Frame :=
  [ run (Some "a") one (Some "[a]") (Some 1%Z) 1 1;
    run (Some "b") one (Some "[a]") (Some 1%Z) 2 1 ].


Definition missing_strategy : Frame :=
  [ run None one (Some "[a]") (Some 1%Z) 10 1 ].

Definition missing_alpha : Frame :=
  [ run (Some "X") F64.nan (Some "[a]") (Some 1%Z) 10 1 ].


Definition missing_op_set : Frame :=
  [ run (Some "X") one None (Some 1%Z) 10 1 ].

Definition no_file : FileSystem := fun _ => None.

Definition one_file : FileSystem :=
  fun path =>
    if String.eqb path RESULTS_FILE
    then Some [csv_run (Some "X") one None (Some 1%Z) 10 1]
    else None.

(** [(100 / 90 - 1) * 100] and the decimal 11.11 in binary64. *)
Definition quality_diff_B : float :=
  F64.mul (F64.sub (F64.div (F64.of_Z 100) (F64.of_Z 90)) one) hundred.

Definition dec_11_11 : float := F64.div (F64.of_Z 1111) (F64.of_Z 100).

Definition half_cent : float := F64.div (F64.of_Z 5) (F64.of_Z 1000).

(** ** Vocabulary of the further properties *)

(** A row that the three-column and the two-column grouping keep. *)
Definition keyed (r : Run) : bool := has_strategy r && has_alpha r.

(** Sign change of a binary64 value. *)
Definition fopp : float -> float := SFopp.

(** The source rows of one (strategy, alpha) pair, all operator sets
    together. *)
Definition of_pair (k : string * float) (df : Frame) : Frame :=
  filter (in_group strategy_alpha_key strategy_alpha_eqb k) df.

Definition vis_key (row : Vis.row) : string * float :=
  (Vis.strategy row, Vis.alpha row).

(** The [final_obj] cells of a group that are not missing. *)
Definition objectives (g : Frame) : list float :=
  Agg.notna (map final_obj g).

Definition is_plot (e : event) : bool :=
  match e with
  | Barplot _ _ _ _ => true
  | PltShow => true
  | _ => false
  end.

(** The line that announces the end of a complete run. *)
Definition is_completion (e : event) : bool :=
  match e with
  | Say text => String.eqb text "✅ Analysis Complete."
  | _ => false
  end.

(** The closing lines of [main_analysis] in each file. *)
Definition closing_v1 : list event :=
  [ Say (nl ++ rule);
    Say "✅ Analysis Complete.";
    Say "For comparison to published results, calculate the % deviation: (Your Result - Published Result) / Published Result";
    Say "Use the 'mean_obj' of the best configuration identified above.";
    Say rule ].

Definition closing_v2 : list event :=
  [ Say (nl ++ rule);
    Say "✅ Analysis Complete.";
    Say "For comparison to published results, calculate the % deviation: (Your Result - Published Result) / Published Result";
    Say "Use the 'mean_obj' or 'performance_metric' of the best configuration identified above.";
    Say rule ].

(** ** Further sample tables *)

Definition csv_B : list Csv.row :=
  [ csv_run (Some "first") one (Some "[a]") (Some 1%Z) 100 1;
    csv_run (Some "best") one (Some "[a]") (Some 1%Z) 90 5 ].

Definition csv_C : list Csv.row :=
  [ csv_run (Some "first") one (Some "[a]") (Some 1%Z) 100 1 ].

Definition csv_keyless : list Csv.row :=
  [ csv_run None one (Some "[a]") (Some 1%Z) 10 1 ].

Definition file_of (csv : list Csv.row) : FileSystem :=
  fun path => if String.eqb path RESULTS_FILE then Some csv else None.

(** Two seeds of one configuration, the objective of the second
    missing. *)
Definition half_missing : Frame :=
  [ run (Some "X") one (Some "[a]") (Some 1%Z) 10 1;
    with_op_set_str
      (Csv.mk (Some "X") one (Some "[a]") (Some 2%Z) F64.nan (F64.of_Z 1)
              (F64.of_Z 10)) ].

(** "first" has no recorded time. *)
Definition untimed_first : Frame :=
  [ with_op_set_str
      (Csv.mk (Some "first") one (Some "[a]") (Some 1%Z) (F64.of_Z 100) F64.nan
              (F64.of_Z 10));
    run (Some "best") one (Some "[a]") (Some 1%Z) 90 5 ].

(** One configuration measured under two operator sets. *)
Definition two_op_sets : Frame :=
  [ run (Some "X") one (Some "[a]") (Some 1%Z) 10 1;
    run (Some "X") one (Some "[b]") (Some 1%Z) 30 3 ].

(** ** Rows that agree up to the spelling of alpha *)

(** Two aggregated rows with equal columns and the same configuration,
    alpha compared as a number. *)
Definition same_agg (a a' : Quality.agg) : Prop :=
  config_eqb (Quality.index a) (Quality.index a') = true
  /\ Quality.mean_obj a = Quality.mean_obj a'
  /\ Quality.std_obj a = Quality.std_obj a'
  /\ Quality.mean_time a = Quality.mean_time a'
  /\ Quality.num_runs a = Quality.num_runs a'.

Definition same_quality_row (r r' : Quality.row) : Prop :=
  same_agg (Quality.cols r) (Quality.cols r')
  /\ Quality.CV_obj r = Quality.CV_obj r'.

Definition same_vis_row (r r' : Vis.row) : Prop :=
  strategy_alpha_eqb (vis_key r) (vis_key r') = true
  /\ Vis.mean_obj r = Vis.mean_obj r'
  /\ Vis.mean_time r = Vis.mean_time r'
  /\ Vis.performance_metric r = Vis.performance_metric r'.

(** Signed zeros: strategy "A" spells alpha [0.0], strategy "B" after
    it spells alpha [-0.0]. *)
Definition signed_zeros : Frame :=
  [ run (Some "A") F64.zero (Some "[a]") (Some 1%Z) 10 1;
    run (Some "B") (S754_zero true) (Some "[a]") (Some 2%Z) 20 2 ].

(** A row without strategy that spells alpha [0.0], followed by a row
    of strategy "B" that spells it [-0.0]. *)
Definition unlabelled_zero : Frame :=
  [ run None F64.zero (Some "[a]") (Some 1%Z) 10 1;
    run (Some "B") (S754_zero true) (Some "[a]") (Some 2%Z) 20 2 ].

(** * Properties *)

(** ** Comparison of binary64 values *)

Section FloatOrder.

Lemma lexcmp_refl (p : Z * Z * Z) : F64.lexcmp p p = Eq.
Proof.
  destruct p as [[a b] c]; unfold F64.lexcmp.
  now rewrite !Z.compare_refl.
Qed.

Lemma lexcmp_antisym (p q : Z * Z * Z) :
  F64.lexcmp q p = CompOpp (F64.lexcmp p q).
Proof.
  destruct p as [[a b] c], q as [[a' b'] c']; unfold F64.lexcmp.
  rewrite (Z.compare_antisym a a'), (Z.compare_antisym b b'),
    (Z.compare_antisym c c').
  destruct (a ?= a')%Z, (b ?= b')%Z, (c ?= c')%Z; reflexivity.
Qed.

Lemma lexcmp_le (p q : Z * Z * Z) :
  F64.lexcmp p q <> Gt <-> F64.lexle p q.
Proof.
  destruct p as [[a b] c], q as [[a' b'] c']; unfold F64.lexcmp, F64.lexle.
  destruct (Z.compare_spec a a') as [Ha | Ha | Ha],
    (Z.compare_spec b b') as [Hb | Hb | Hb],
    (Z.compare_spec c c') as [Hc | Hc | Hc];
    split; intros H; try lia; try discriminate;
    try (exfalso; apply H; reflexivity).
Qed.

Lemma lexcmp_eq (p q : Z * Z * Z) : F64.lexcmp p q = Eq <-> p = q.
Proof.
  destruct p as [[a b] c], q as [[a' b'] c']; unfold F64.lexcmp.
  destruct (Z.compare_spec a a') as [Ha | Ha | Ha],
    (Z.compare_spec b b') as [Hb | Hb | Hb],
    (Z.compare_spec c c') as [Hc | Hc | Hc];
    split; intros H; try discriminate; try reflexivity;
    try (inversion H; lia); subst; reflexivity.
Qed.

Lemma lexle_trans (p q r : Z * Z * Z) : F64.lexle p q -> F64.lexle q r -> F64.lexle p r.
Proof.
  destruct p as [[a b] c], q as [[a' b'] c'], r as [[a'' b''] c''].
  unfold F64.lexle; lia.
Qed.

Lemma lexle_total (p q : Z * Z * Z) : F64.lexle p q \/ F64.lexle q p.
Proof.
  destruct p as [[a b] c], q as [[a' b'] c']; unfold F64.lexle; lia.
Qed.

(** On values other than NaN, the IEEE comparison is the lexicographic
    comparison of ranks. *)
Lemma compare_rank (x y : float) :
  F64.isnan x = false -> F64.isnan y = false ->
  SFcompare x y = Some (F64.lexcmp (F64.rank x) (F64.rank y)).
Proof.
  destruct x as [sx | sx | | sx mx ex], y as [sy | sy | | sy my ey];
    try discriminate; intros _ _;
    try (destruct sx, sy; reflexivity);
    try (destruct sx; reflexivity);
    try (destruct sy; reflexivity).
  destruct sx, sy; cbn [SFcompare F64.rank F64.lexcmp]; try reflexivity.
  rewrite Z.compare_opp, (Z.compare_antisym ey ex).
  change (Z.neg mx ?= Z.neg my)%Z with (CompOpp (mx ?= my)%positive).
  unfold Pos.compare.
  destruct (ey ?= ex)%Z; reflexivity.
Qed.

Lemma leb_rank (x y : float) :
  F64.isnan x = false -> F64.isnan y = false ->
  F64.leb x y = true <-> F64.lexle (F64.rank x) (F64.rank y).
Proof.
  intros Hx Hy. unfold F64.leb, SFleb.
  rewrite (compare_rank x y Hx Hy), <- lexcmp_le.
  destruct (F64.lexcmp (F64.rank x) (F64.rank y));
    split; intros H; try reflexivity; try discriminate.
  exfalso; apply H; reflexivity.
Qed.

Lemma leb_nan_l (y : float) : F64.leb F64.nan y = false.
Proof. destruct y; reflexivity. Qed.

Lemma leb_nan_r (x : float) : F64.leb x F64.nan = false.
Proof. destruct x; reflexivity. Qed.

Lemma isnan_true (x : float) : F64.isnan x = true -> x = F64.nan.
Proof. destruct x; try discriminate; reflexivity. Qed.

Lemma leb_trans (x y z : float) :
  F64.leb x y = true -> F64.leb y z = true -> F64.leb x z = true.
Proof.
  intros Hxy Hyz.
  destruct (F64.isnan x) eqn:Hx.
  { apply isnan_true in Hx; subst; now rewrite leb_nan_l in Hxy. }
  destruct (F64.isnan y) eqn:Hy.
  { apply isnan_true in Hy; subst; now rewrite leb_nan_r in Hxy. }
  destruct (F64.isnan z) eqn:Hz.
  { apply isnan_true in Hz; subst; now rewrite leb_nan_r in Hyz. }
  apply leb_rank in Hxy; auto. apply leb_rank in Hyz; auto.
  apply leb_rank; eauto using lexle_trans.
Qed.

Lemma leb_total (x y : float) :
  F64.isnan x = false -> F64.isnan y = false ->
  F64.leb x y = true \/ F64.leb y x = true.
Proof.
  intros Hx Hy.
  destruct (lexle_total (F64.rank x) (F64.rank y)); [left | right];
    apply leb_rank; auto.
Qed.

Lemma ltb_not_leb (x y : float) :
  F64.isnan x = false -> F64.isnan y = false ->
  F64.ltb x y = negb (F64.leb y x).
Proof.
  intros Hx Hy. unfold F64.ltb, F64.leb, SFltb, SFleb.
  rewrite (compare_rank x y Hx Hy), (compare_rank y x Hy Hx),
    (lexcmp_antisym (F64.rank x) (F64.rank y)).
  destruct (F64.lexcmp (F64.rank x) (F64.rank y)); reflexivity.
Qed.

Lemma ltb_nan_l (y : float) : F64.ltb F64.nan y = false.
Proof. destruct y; reflexivity. Qed.

Lemma ltb_nan_r (x : float) : F64.ltb x F64.nan = false.
Proof. destruct x; reflexivity. Qed.

(** [first < best] is false as soon as [best <= first]. *)
Lemma leb_not_ltb (x y : float) : F64.leb y x = true -> F64.ltb x y = false.
Proof.
  intros H.
  destruct (F64.isnan x) eqn:Hx.
  { apply isnan_true in Hx; subst; apply ltb_nan_l. }
  destruct (F64.isnan y) eqn:Hy.
  { apply isnan_true in Hy; subst; apply ltb_nan_r. }
  rewrite ltb_not_leb, H; auto.
Qed.

Lemma eqb_rank (x y : float) :
  F64.isnan x = false -> F64.isnan y = false ->
  F64.eqb x y = true <-> F64.rank x = F64.rank y.
Proof.
  intros Hx Hy. unfold F64.eqb, SFeqb.
  rewrite (compare_rank x y Hx Hy), <- lexcmp_eq.
  destruct (F64.lexcmp (F64.rank x) (F64.rank y));
    split; intros H; try reflexivity; discriminate.
Qed.

Lemma eqb_notnan (x y : float) :
  F64.eqb x y = true -> F64.isnan x = false /\ F64.isnan y = false.
Proof. destruct x, y; try discriminate; split; reflexivity. Qed.

Lemma eqb_refl (x : float) : F64.isnan x = false -> F64.eqb x x = true.
Proof. intros Hx; apply eqb_rank; auto. Qed.

Lemma eqb_sym (x y : float) : F64.eqb x y = true -> F64.eqb y x = true.
Proof.
  intros H; destruct (eqb_notnan _ _ H) as [Hx Hy].
  apply eqb_rank; auto; symmetry; apply eqb_rank; auto.
Qed.

Lemma eqb_trans (x y z : float) :
  F64.eqb x y = true -> F64.eqb y z = true -> F64.eqb x z = true.
Proof.
  intros H1 H2.
  destruct (eqb_notnan _ _ H1) as [Hx Hy], (eqb_notnan _ _ H2) as [_ Hz].
  apply eqb_rank; auto.
  transitivity (F64.rank y); apply eqb_rank; auto.
Qed.

(** NaN propagates through the arithmetic of the CV formula. *)
Lemma div_nan_l (y : float) : F64.div F64.nan y = F64.nan.
Proof. destruct y; reflexivity. Qed.

Lemma mul_nan_l (y : float) : F64.mul F64.nan y = F64.nan.
Proof. destruct y; reflexivity. Qed.

End FloatOrder.

(** ** Insertion sort *)

Section SortFacts.
Context {A : Type}.
Variable le : A -> A -> bool.

Lemma insert_perm (x : A) (l : list A) : Permutation (insert le x l) (x :: l).
Proof.
  induction l as [| y t IH]; simpl.
  - apply Permutation_refl.
  - destruct (le x y).
    + apply Permutation_refl.
    + eapply perm_trans; [apply perm_skip, IH | apply perm_swap].
Qed.

Lemma isort_perm (l : list A) : Permutation (isort le l) l.
Proof.
  induction l as [| x t IH]; simpl.
  - apply perm_nil.
  - eapply perm_trans; [apply insert_perm | apply perm_skip, IH].
Qed.

Lemma isort_In (x : A) (l : list A) : In x (isort le l) <-> In x l.
Proof.
  split; apply Permutation_in;
    [apply isort_perm | apply Permutation_sym, isort_perm].
Qed.

Hypothesis le_total : forall x y, le x y = true \/ le y x = true.

Lemma insert_HdRel (x a : A) (l : list A) :
  le a x = true -> HdRel (fun u v => le u v = true) a l ->
  HdRel (fun u v => le u v = true) a (insert le x l).
Proof.
  intros Hax Hl. destruct l as [| y t]; simpl.
  - constructor; exact Hax.
  - destruct (le x y); constructor; [exact Hax |].
    inversion Hl; assumption.
Qed.

Lemma insert_Sorted (x : A) (l : list A) :
  Sorted (fun u v => le u v = true) l ->
  Sorted (fun u v => le u v = true) (insert le x l).
Proof.
  induction 1 as [| y t Ht IH Hd]; simpl.
  - repeat constructor.
  - destruct (le x y) eqn:Hxy.
    + constructor; [constructor; assumption | constructor; exact Hxy].
    + constructor; [exact IH |].
      apply insert_HdRel; [| exact Hd].
      destruct (le_total x y) as [H | H]; [congruence | exact H].
Qed.

Lemma isort_Sorted (l : list A) : Sorted (fun u v => le u v = true) (isort le l).
Proof.
  induction l as [| x t IH]; simpl.
  - constructor.
  - apply insert_Sorted, IH.
Qed.

Hypothesis le_trans : forall x y z, le x y = true -> le y z = true -> le x z = true.

Lemma isort_StronglySorted (l : list A) :
  StronglySorted (fun u v => le u v = true) (isort le l).
Proof.
  apply Sorted_StronglySorted; [| apply isort_Sorted].
  intros x y z; apply le_trans.
Qed.

End SortFacts.

(** Sortedness is kept when a column-preserving function is mapped. *)
Lemma StronglySorted_map {A B : Type} (f : A -> B)
    (R : A -> A -> Prop) (S : B -> B -> Prop) (l : list A) :
  (forall x y, R x y -> S (f x) (f y)) ->
  StronglySorted R l -> StronglySorted S (map f l).
Proof.
  intros HRS; induction 1 as [| x t Ht IH Hall]; simpl; constructor.
  - exact IH.
  - rewrite Forall_forall in *; intros y Hy.
    apply in_map_iff in Hy; destruct Hy as [z [<- Hz]]; auto.
Qed.

Lemma Sorted_map {A B : Type} (f : A -> B)
    (R : A -> A -> Prop) (S : B -> B -> Prop) (l : list A) :
  (forall x y, R x y -> S (f x) (f y)) ->
  Sorted R l -> Sorted S (map f l).
Proof.
  intros HRS; induction 1 as [| x t Ht IH Hd]; simpl; constructor.
  - exact IH.
  - destruct Hd; simpl; constructor; auto.
Qed.

(** ** The order of [sort_values] *)

Lemma asc_le_total (a b : float) : asc_le a b = true \/ asc_le b a = true.
Proof.
  unfold asc_le.
  destruct (F64.isnan b) eqn:Hb; [left; reflexivity |].
  destruct (F64.isnan a) eqn:Ha; [right; reflexivity |].
  apply leb_total; assumption.
Qed.

Lemma asc_le_trans (a b c : float) :
  asc_le a b = true -> asc_le b c = true -> asc_le a c = true.
Proof.
  unfold asc_le.
  destruct (F64.isnan c) eqn:Hc; [reflexivity |].
  destruct (F64.isnan b) eqn:Hb; [discriminate |].
  destruct (F64.isnan a) eqn:Ha; [discriminate |].
  apply leb_trans.
Qed.

Lemma desc_le_total (a b : float) : desc_le a b = true \/ desc_le b a = true.
Proof.
  unfold desc_le.
  destruct (F64.isnan b) eqn:Hb; [left; reflexivity |].
  destruct (F64.isnan a) eqn:Ha; [right; reflexivity |].
  apply or_comm, leb_total; assumption.
Qed.

Lemma desc_le_trans (a b c : float) :
  desc_le a b = true -> desc_le b c = true -> desc_le a c = true.
Proof.
  unfold desc_le.
  destruct (F64.isnan c) eqn:Hc; [reflexivity |].
  destruct (F64.isnan b) eqn:Hb; [discriminate |].
  destruct (F64.isnan a) eqn:Ha; [discriminate |].
  intros H1 H2; eapply leb_trans; eassumption.
Qed.

Lemma sort_values_perm {R : Type} (by_ : R -> float) (asc : bool) (t : list R) :
  Permutation (sort_values by_ asc t) t.
Proof. apply isort_perm. Qed.

Lemma sort_values_In {R : Type} (by_ : R -> float) (asc : bool) (t : list R) (r : R) :
  In r (sort_values by_ asc t) <-> In r t.
Proof. apply isort_In. Qed.

Lemma sort_values_ascending {R : Type} (by_ : R -> float) (t : list R) :
  StronglySorted (fun r1 r2 => asc_le (by_ r1) (by_ r2) = true)
    (sort_values by_ true t).
Proof.
  apply (isort_StronglySorted (fun r1 r2 => asc_le (by_ r1) (by_ r2))).
  - intros x y; apply asc_le_total.
  - intros x y z; apply asc_le_trans.
Qed.

Lemma sort_values_descending {R : Type} (by_ : R -> float) (t : list R) :
  StronglySorted (fun r1 r2 => desc_le (by_ r1) (by_ r2) = true)
    (sort_values by_ false t).
Proof.
  apply (isort_StronglySorted (fun r1 r2 => desc_le (by_ r1) (by_ r2))).
  - intros x y; apply desc_le_total.
  - intros x y z; apply desc_le_trans.
Qed.

(** ** Grouping *)

Section GroupFacts.
Context {R K : Type}.
Variable key : R -> option K.
Variable keq : K -> K -> bool.
Variable kle : K -> K -> bool.

Lemma keys_In (k : K) (df : list R) :
  In k (keys key df) <-> exists r, In r df /\ key r = Some k.
Proof.
  induction df as [| r t IH]; simpl.
  - split; [intros [] | intros [r [[] _]]].
  - destruct (key r) as [k0 |] eqn:Hk; simpl; rewrite IH; split.
    + intros [<- | [r' [Hin Hr']]]; eauto.
    + intros [r' [[<- | Hin] Hr']]; [left; congruence | right; eauto].
    + intros [r' [Hin Hr']]; eauto.
    + intros [r' [[<- | Hin] Hr']]; [congruence | eauto].
Qed.

Lemma uniques_incl (k : K) (ks : list K) : In k (uniques keq ks) -> In k ks.
Proof using Type.
  induction ks as [| k0 t IH]; simpl.
  - intros [].
  - intros [-> | Hin]; [now left | right].
    apply filter_In in Hin. apply IH, Hin.
Qed.

Hypothesis keq_trans :
  forall a b c, keq a b = true -> keq b c = true -> keq a c = true.

Lemma uniques_cover (k : K) (ks : list K) :
  In k ks -> keq k k = true ->
  exists k', In k' (uniques keq ks) /\ keq k' k = true.
Proof using keq_trans.
  intros Hin Hrefl. induction ks as [| k0 t IH]; simpl in Hin |- *.
  { destruct Hin. }
  destruct Hin as [-> | Hin].
  - exists k; auto.
  - destruct (IH Hin) as [k' [Hk' Heq]].
    destruct (keq k0 k') eqn:H0.
    + exists k0; split; [now left | eauto].
    + exists k'; split; [right | exact Heq].
      apply filter_In; split; [exact Hk' | now rewrite H0].
Qed.

(** No representative is equal to an earlier one. *)
Lemma uniques_distinct (ks : list K) :
  ForallOrdPairs (fun a b => keq a b = false) (uniques keq ks).
Proof.
  induction ks as [| k0 t IH]; simpl; constructor.
  - apply Forall_forall; intros k' Hk'.
    apply filter_In in Hk'; destruct Hk' as [_ Hk'].
    now destruct (keq k0 k').
  - clear - IH. induction IH as [| a l Ha Hl IHl]; simpl; [constructor |].
    destruct (negb (keq k0 a)); [| exact IHl].
    constructor; [| exact IHl].
    rewrite Forall_forall in *. intros x Hx.
    apply filter_In in Hx. apply Ha; tauto.
Qed.

Lemma groupby_In (g : K * list R) (df : list R) :
  In g (groupby key keq kle df) <->
  exists k, In k (uniques keq (keys key df)) /\
            g = (k, filter (in_group key keq k) df).
Proof.
  unfold groupby. rewrite in_map_iff. split.
  - intros [k [<- Hk]]. exists k; split; [| reflexivity].
    now apply isort_In in Hk.
  - intros [k [Hk ->]]. exists k; split; [reflexivity |].
    now apply isort_In.
Qed.

Lemma groupby_keys (df : list R) :
  map fst (groupby key keq kle df) = isort kle (uniques keq (keys key df)).
Proof.
  unfold groupby. rewrite map_map. simpl. apply map_id.
Qed.

(** Rows without a key play no part: [dropna=True]. *)
Lemma keys_dropna (df : list R) : keys key (filter (has_key key) df) = keys key df.
Proof.
  induction df as [| r t IH]; simpl; [reflexivity |].
  unfold has_key at 1. destruct (key r) eqn:Hk; simpl; rewrite ?Hk, IH; reflexivity.
Qed.

Lemma in_group_dropna (k : K) (df : list R) :
  filter (in_group key keq k) (filter (has_key key) df) =
  filter (in_group key keq k) df.
Proof.
  induction df as [| r t IH]; simpl; [reflexivity |].
  unfold has_key at 1, in_group at 2.
  destruct (key r) eqn:Hk; simpl.
  - unfold in_group at 1. rewrite Hk, IH. reflexivity.
  - exact IH.
Qed.

Lemma groupby_dropna (df : list R) :
  groupby key keq kle (filter (has_key key) df) = groupby key keq kle df.
Proof.
  unfold groupby. rewrite keys_dropna.
  apply map_ext; intros k. now rewrite in_group_dropna.
Qed.

End GroupFacts.

(** ** Group keys of the evaluator *)

Lemma config_eqb_trans (a b c : config) :
  config_eqb a b = true -> config_eqb b c = true -> config_eqb a c = true.
Proof.
  destruct a as [[s1 a1] o1], b as [[s2 a2] o2], c as [[s3 a3] o3].
  unfold config_eqb. rewrite !andb_true_iff, !String.eqb_eq.
  intros [[-> H12] ->] [[-> H23] ->]. repeat split; try reflexivity.
  eapply eqb_trans; eassumption.
Qed.

Lemma config_eqb_symm (a b : config) :
  config_eqb a b = true -> config_eqb b a = true.
Proof.
  destruct a as [[s1 a1] o1], b as [[s2 a2] o2].
  unfold config_eqb. rewrite !andb_true_iff, !String.eqb_eq.
  intros [[-> H] ->]. repeat split; try reflexivity. now apply eqb_sym.
Qed.

Lemma config_key_refl (r : Run) (k : config) :
  config_key r = Some k -> config_eqb k k = true.
Proof.
  unfold config_key. destruct (strategy r) as [s |]; [| discriminate].
  destruct (F64.isnan (alpha r)) eqn:Ha; [discriminate |].
  intros [= <-]. unfold config_eqb.
  now rewrite !String.eqb_refl, (eqb_refl _ Ha).
Qed.

Lemma has_key_config (r : Run) :
  has_key config_key r = has_strategy r && has_alpha r.
Proof.
  unfold has_key, config_key, has_strategy, has_alpha.
  destruct (strategy r); [| reflexivity].
  destruct (F64.isnan (alpha r)); reflexivity.
Qed.

Lemma has_key_strategy_alpha (r : Run) :
  has_key strategy_alpha_key r = has_strategy r && has_alpha r.
Proof.
  unfold has_key, strategy_alpha_key, has_strategy, has_alpha.
  destruct (strategy r); [| reflexivity].
  destruct (F64.isnan (alpha r)); reflexivity.
Qed.

Lemma has_key_strategy (r : Run) : has_key strategy_key r = has_strategy r.
Proof. reflexivity. Qed.

Lemma count_seed (g : Frame) :
  Agg.count (map seed g) = List.length (filter has_seed g).
Proof.
  unfold Agg.count. induction g as [| r t IH]; simpl; [reflexivity |].
  unfold has_seed at 1. destruct (seed r); simpl; rewrite IH; reflexivity.
Qed.

Lemma filter_filter {A : Type} (f g : A -> bool) (l : list A) :
  filter g (filter f l) = filter (fun x => f x && g x) l.
Proof.
  induction l as [| x t IH]; simpl; [reflexivity |].
  destruct (f x); simpl; [destruct (g x) |]; rewrite IH; reflexivity.
Qed.

(** ** Index labels *)

(** Numerically equal values are interchangeable in a comparison. *)
Lemma eqb_congr (x x' y y' : float) :
  F64.eqb x x' = true -> F64.eqb y y' = true -> F64.eqb x y = F64.eqb x' y'.
Proof.
  intros Hx Hy.
  destruct (F64.eqb x y) eqn:H1, (F64.eqb x' y') eqn:H2; try reflexivity.
  - rewrite <- H2. symmetry.
    eapply eqb_trans; [apply eqb_sym, Hx |].
    eapply eqb_trans; [exact H1 | exact Hy].
  - rewrite <- H1.
    eapply eqb_trans; [exact Hx |].
    eapply eqb_trans; [exact H2 | apply eqb_sym, Hy].
Qed.

Lemma ltb_congr (x x' y y' : float) :
  F64.eqb x x' = true -> F64.eqb y y' = true -> F64.ltb x y = F64.ltb x' y'.
Proof.
  intros Hx Hy.
  destruct (eqb_notnan _ _ Hx) as [Nx Nx'], (eqb_notnan _ _ Hy) as [Ny Ny'].
  apply eqb_rank in Hx; auto. apply eqb_rank in Hy; auto.
  unfold F64.ltb, SFltb.
  now rewrite (compare_rank x y Nx Ny), (compare_rank x' y' Nx' Ny'), Hx, Hy.
Qed.

Lemma leb_congr (x x' y y' : float) :
  F64.eqb x x' = true -> F64.eqb y y' = true -> F64.leb x y = F64.leb x' y'.
Proof.
  intros Hx Hy.
  destruct (eqb_notnan _ _ Hx) as [Nx Nx'], (eqb_notnan _ _ Hy) as [Ny Ny'].
  apply eqb_rank in Hx; auto. apply eqb_rank in Hy; auto.
  unfold F64.leb, SFleb.
  now rewrite (compare_rank x y Nx Ny), (compare_rank x' y' Nx' Ny'), Hx, Hy.
Qed.

(** The label of a value equals it as a number. *)
Lemma alpha_level_eqb (df : Frame) (a : float) :
  F64.isnan a = false -> F64.eqb (alpha_level df a) a = true.
Proof.
  intros Ha. unfold alpha_level.
  destruct (find (fun x => F64.eqb x a) (map alpha df)) as [x |] eqn:Hf.
  - now apply find_some in Hf.
  - now apply eqb_refl.
Qed.

(** Numerically equal values of the column have one label: all rows of
    a group are labelled alike. *)
Lemma alpha_level_congr (df : Frame) (a b : float) :
  F64.eqb a b = true -> In a (map alpha df) ->
  alpha_level df a = alpha_level df b.
Proof.
  intros Hab Hin. unfold alpha_level.
  assert (Hext : forall x, F64.eqb x a = F64.eqb x b).
  { intros x. destruct (F64.eqb x a) eqn:H1, (F64.eqb x b) eqn:H2;
      try reflexivity.
    - rewrite <- H2. symmetry. eapply eqb_trans; eassumption.
    - rewrite <- H1. eapply eqb_trans; [exact H2 | now apply eqb_sym]. }
  assert (Hfind : find (fun x => F64.eqb x a) (map alpha df)
                  = find (fun x => F64.eqb x b) (map alpha df)).
  { clear Hin. induction (map alpha df) as [| x t IH]; simpl; [reflexivity |].
    rewrite <- (Hext x), IH. reflexivity. }
  rewrite <- Hfind.
  destruct (find (fun x => F64.eqb x a) (map alpha df)) eqn:Hf; [reflexivity |].
  destruct (eqb_notnan _ _ Hab) as [Na _].
  pose proof (find_none _ _ Hf a Hin) as Hn. cbv beta in Hn.
  rewrite (eqb_refl _ Na) in Hn. discriminate.
Qed.

(** The label is the first value of the alpha column that equals the
    given one. *)
Lemma alpha_level_first (df : Frame) (a : float) :
  F64.isnan a = false ->
  (exists r, In r df /\ F64.eqb (alpha r) a = true) ->
  exists before r after,
    df = before ++ r :: after
    /\ alpha_level df a = alpha r
    /\ Forall (fun r' => F64.eqb (alpha r') a = false) before.
Proof.
  intros Ha. unfold alpha_level.
  induction df as [| r0 t IH]; intros [r [Hin Heq]].
  - destruct Hin.
  - simpl. destruct (F64.eqb (alpha r0) a) eqn:H0.
    + exists [], r0, t. repeat split. constructor.
    + destruct Hin as [-> | Hin]; [congruence |].
      destruct IH as [before [r1 [after [-> [Hl Hall]]]]]; [eauto |].
      exists (r0 :: before), r1, after. repeat split; auto.
Qed.

Lemma config_eqb_congr (x x' y y' : config) :
  config_eqb x x' = true -> config_eqb y y' = true ->
  config_eqb x y = config_eqb x' y'.
Proof.
  destruct x as [[s a] o], x' as [[s' a'] o'], y as [[t b] p], y' as [[t' b'] p'].
  unfold config_eqb. rewrite !andb_true_iff, !String.eqb_eq.
  intros [[-> Ha] ->] [[-> Hb] ->]. now rewrite (eqb_congr _ _ _ _ Ha Hb).
Qed.

Lemma config_leb_congr (x x' y y' : config) :
  config_eqb x x' = true -> config_eqb y y' = true ->
  config_leb x y = config_leb x' y'.
Proof.
  destruct x as [[s a] o], x' as [[s' a'] o'], y as [[t b] p], y' as [[t' b'] p'].
  unfold config_eqb, config_leb. rewrite !andb_true_iff, !String.eqb_eq.
  intros [[-> Ha] ->] [[-> Hb] ->].
  now rewrite (ltb_congr _ _ _ _ Ha Hb), (ltb_congr _ _ _ _ Hb Ha).
Qed.

Lemma config_label_key (df : Frame) (r : Run) :
  config_label df r =
  match config_key r with
  | Some (s, a, o) => Some (s, alpha_level df a, o)
  | None => None
  end.
Proof.
  unfold config_label, config_key. destruct (strategy r); [| reflexivity].
  destruct (F64.isnan (alpha r)); reflexivity.
Qed.

(** A label and the key cells of its row are the same configuration. *)
Lemma config_label_eqb (df : Frame) (r : Run) (l : config) :
  config_label df r = Some l ->
  exists k, config_key r = Some k /\ config_eqb l k = true.
Proof.
  unfold config_label, config_key. destruct (strategy r) as [s |]; [| discriminate].
  destruct (F64.isnan (alpha r)) eqn:Ha; [discriminate |].
  intros [= <-]. eexists; split; [reflexivity |].
  unfold config_eqb. now rewrite !String.eqb_refl, (alpha_level_eqb df _ Ha).
Qed.

Lemma config_key_label (df : Frame) (r : Run) (k : config) :
  config_key r = Some k ->
  exists l, config_label df r = Some l /\ config_eqb l k = true.
Proof.
  unfold config_label, config_key. destruct (strategy r) as [s |]; [| discriminate].
  destruct (F64.isnan (alpha r)) eqn:Ha; [discriminate |].
  intros [= <-]. eexists; split; [reflexivity |].
  unfold config_eqb. now rewrite !String.eqb_refl, (alpha_level_eqb df _ Ha).
Qed.

Lemma config_label_refl (df : Frame) (r : Run) (l : config) :
  config_label df r = Some l -> config_eqb l l = true.
Proof.
  intros H. destruct (config_label_eqb df r l H) as [k [_ Hk]].
  eapply config_eqb_trans; [exact Hk | now apply config_eqb_symm].
Qed.

Lemma has_key_label (df : Frame) (r : Run) :
  has_key (config_label df) r = has_key config_key r.
Proof.
  unfold has_key. rewrite config_label_key.
  destruct (config_key r) as [[[s a] o] |]; reflexivity.
Qed.

(** Labels do not change which rows a group holds. *)
Lemma in_group_label (df : Frame) (k : config) (r : Run) :
  in_group (config_label df) config_eqb k r
  = in_group config_key config_eqb k r.
Proof.
  unfold in_group.
  destruct (config_label df r) as [l |] eqn:Hl.
  - destruct (config_label_eqb df r l Hl) as [k' [-> Hk']].
    destruct (config_eqb k l) eqn:H1, (config_eqb k k') eqn:H2;
      try reflexivity.
    + rewrite <- H2. symmetry. eapply config_eqb_trans; eassumption.
    + rewrite <- H1. eapply config_eqb_trans; [exact H2 |].
      now apply config_eqb_symm.
  - rewrite config_label_key in Hl.
    destruct (config_key r) as [[[s a] o] |]; [discriminate | reflexivity].
Qed.

Lemma carrying_label (full rows : Frame) (k : config) :
  filter (in_group (config_label full) config_eqb k) rows = carrying k rows.
Proof. apply filter_ext. intros r. apply in_group_label. Qed.

Lemma carrying_congr (k k' : config) (rows : Frame) :
  config_eqb k k' = true -> carrying k rows = carrying k' rows.
Proof.
  intros H. apply filter_ext. intros r. unfold in_group.
  destruct (config_key r) as [kr |] eqn:Hk; [| reflexivity].
  apply config_eqb_congr; [exact H |]. eapply config_key_refl; eassumption.
Qed.

(** ** Lists related element by element *)

Section Related.
Context {A B : Type}.
Variable E : A -> B -> Prop.

Lemma filter_rel (f : A -> bool) (g : B -> bool) (l : list A) (l' : list B) :
  (forall x y, E x y -> f x = g y) ->
  Forall2 E l l' -> Forall2 E (filter f l) (filter g l').
Proof.
  intros Hfg. induction 1 as [| x y l l' Hxy _ IH]; simpl; [constructor |].
  rewrite (Hfg x y Hxy). destruct (g y); [constructor |]; assumption.
Qed.

Variable le : A -> A -> bool.
Variable le' : B -> B -> bool.
Hypothesis le_rel :
  forall x y x' y', E x x' -> E y y' -> le x y = le' x' y'.

Lemma insert_rel (x : A) (x' : B) (l : list A) (l' : list B) :
  E x x' -> Forall2 E l l' -> Forall2 E (insert le x l) (insert le' x' l').
Proof.
  intros Hx. induction 1 as [| y y' l l' Hy Hl IH]; simpl.
  - repeat constructor; assumption.
  - rewrite (le_rel x y x' y' Hx Hy).
    destruct (le' x' y'); repeat constructor; assumption.
Qed.

Lemma isort_rel (l : list A) (l' : list B) :
  Forall2 E l l' -> Forall2 E (isort le l) (isort le' l').
Proof.
  induction 1 as [| x y l l' Hxy _ IH]; simpl; [constructor |].
  now apply insert_rel.
Qed.

(** [uniques] with the order [le] read as the equality of keys. *)
Lemma uniques_rel (l : list A) (l' : list B) :
  Forall2 E l l' -> Forall2 E (uniques le l) (uniques le' l').
Proof.
  induction 1 as [| x y l l' Hxy _ IH]; simpl; constructor; [exact Hxy |].
  apply filter_rel; [| exact IH].
  intros u v Huv. now rewrite (le_rel x u y v Hxy Huv).
Qed.

End Related.

Lemma map_rel {A B C D : Type} (E : A -> B -> Prop) (F : C -> D -> Prop)
    (f : A -> C) (g : B -> D) (l : list A) (l' : list B) :
  (forall x y, E x y -> F (f x) (g y)) ->
  Forall2 E l l' -> Forall2 F (map f l) (map g l').
Proof.
  intros H. induction 1; simpl; constructor; auto.
Qed.

Lemma Forall2_diag {A : Type} (E : A -> A -> Prop) (l : list A) :
  Forall (fun x => E x x) l -> Forall2 E l l.
Proof. induction 1; constructor; assumption. Qed.

(** The labels two tables give to the same rows name the same
    configurations. *)
Lemma config_labels_rel (full full' rows : Frame) :
  Forall2 (fun k k' => config_eqb k k' = true)
    (keys (config_label full) rows) (keys (config_label full') rows).
Proof.
  induction rows as [| r t IH]; simpl; [constructor |].
  rewrite !config_label_key.
  destruct (config_key r) as [[[s a] o] |] eqn:Hk; [| exact IH].
  constructor; [| exact IH].
  assert (Ha : F64.isnan a = false).
  { unfold config_key in Hk. destruct (strategy r); [| discriminate].
    destruct (F64.isnan (alpha r)) eqn:Hn; [discriminate |].
    now injection Hk as _ <- _. }
  unfold config_eqb. rewrite !String.eqb_refl. simpl. rewrite andb_true_r.
  eapply eqb_trans; [apply alpha_level_eqb, Ha |].
  apply eqb_sym, alpha_level_eqb, Ha.
Qed.

(** ** Rows of the quality summary *)

Section QualityRows.
Variable with_cv : Quality.agg -> Quality.row.
Variable ascending : bool.

(** The common shape of lines 37-45 and 33-40, the labels taken from the
    table [full]. *)
Let summary_on (full rows : Frame) : list Quality.row :=
  map with_cv
    (sort_values Quality.mean_obj ascending
       (map quality_agg
          (groupby (config_label full) config_eqb config_leb rows))).

Let summary (df : Frame) : list Quality.row := summary_on df df.

Lemma summary_In (df : Frame) (row : Quality.row) :
  In row (summary df) <->
  exists k, In k (uniques config_eqb (keys (config_label df) df)) /\
            row = with_cv (quality_agg (k, carrying k df)).
Proof.
  unfold summary, summary_on. rewrite in_map_iff. split.
  - intros [a [<- Ha]]. apply sort_values_In, in_map_iff in Ha.
    destruct Ha as [g [<- Hg]]. apply groupby_In in Hg.
    destruct Hg as [k [Hk ->]]. exists k. rewrite carrying_label. auto.
  - intros [k [Hk ->]]. eexists; split; [reflexivity |].
    apply sort_values_In, in_map_iff.
    eexists; split; [reflexivity |]. apply groupby_In.
    exists k. rewrite carrying_label. auto.
Qed.

Hypothesis cols_with_cv : forall a, Quality.cols (with_cv a) = a.


Lemma summary_covers_source (df : Frame) (r : Run) (k : config) :
  In r df -> config_key r = Some k ->
  exists row, In row (summary df) /\
              config_eqb (Quality.index (Quality.cols row)) k = true.
Proof.
  intros Hr Hk.
  destruct (config_key_label df r k Hk) as [l [Hl Hlk]].
  destruct (uniques_cover config_eqb config_eqb_trans l
              (keys (config_label df) df)) as [k' [Hk' Heq]].
  - apply keys_In; eauto.
  - eapply config_label_refl; eassumption.
  - exists (with_cv (quality_agg (k', carrying k' df))). split.
    + apply summary_In; eauto.
    + rewrite cols_with_cv. simpl.
      eapply config_eqb_trans; eassumption.
Qed.



(** Rows without a key contribute no group and no value. *)
Lemma summary_on_dropna (full rows : Frame) :
  summary_on full (filter (fun r => has_strategy r && has_alpha r) rows)
  = summary_on full rows.
Proof.
  unfold summary_on.
  rewrite (filter_ext _ (has_key (config_label full))).
  - now rewrite groupby_dropna.
  - intros r. now rewrite has_key_label, has_key_config.
Qed.

Lemma summary_empty (df : Frame) :
  filter (fun r => has_strategy r && has_alpha r) df = [] -> summary df = [].
Proof.
  intros H. unfold summary. rewrite <- summary_on_dropna, H. reflexivity.
Qed.

Hypothesis with_cv_rel :
  forall a a', same_agg a a' -> same_quality_row (with_cv a) (with_cv a').

(** The table the labels are read from matters for their spelling
    only. *)
Lemma summary_on_levels (full full' rows : Frame) :
  Forall2 same_quality_row (summary_on full rows) (summary_on full' rows).
Proof.
  unfold summary_on.
  apply (map_rel same_agg); [exact with_cv_rel |].
  apply isort_rel.
  { intros x y x' y' [_ [Hx _]] [_ [Hy _]]. now rewrite Hx, Hy. }
  unfold groupby. rewrite !map_map.
  apply (map_rel (fun k k' => config_eqb k k' = true)).
  - intros k k' Hk. rewrite !carrying_label, (carrying_congr k k' rows Hk).
    unfold same_agg, quality_agg; simpl. auto.
  - apply isort_rel; [intros x y x' y'; apply config_leb_congr |].
    apply uniques_rel; [intros x y x' y'; apply config_eqb_congr |].
    apply config_labels_rel.
Qed.

(** Removing the rows without strategy or alpha leaves every row of the
    summary as it is, up to the spelling of its alpha label. *)
Lemma summary_excludes (df : Frame) :
  Forall2 same_quality_row
    (summary (filter (fun r => has_strategy r && has_alpha r) df))
    (summary df).
Proof.
  unfold summary.
  rewrite <- (summary_on_dropna df df).
  apply summary_on_levels.
Qed.

End QualityRows.

(** ** Rows of the chart aggregate *)

Lemma strategy_alpha_eqb_sym (a b : string * float) :
  strategy_alpha_eqb a b = true -> strategy_alpha_eqb b a = true.
Proof.
  unfold strategy_alpha_eqb. rewrite !andb_true_iff, !String.eqb_eq.
  intros [-> H]. split; [reflexivity | now apply eqb_sym].
Qed.

Lemma strategy_alpha_eqb_trans (a b c : string * float) :
  strategy_alpha_eqb a b = true -> strategy_alpha_eqb b c = true ->
  strategy_alpha_eqb a c = true.
Proof.
  unfold strategy_alpha_eqb. rewrite !andb_true_iff, !String.eqb_eq.
  intros [-> H1] [-> H2]. split; [reflexivity | eapply eqb_trans; eassumption].
Qed.

Lemma strategy_alpha_key_Some (r : Run) (k : string * float) :
  strategy_alpha_key r = Some k <->
  strategy r = Some (fst k) /\ alpha r = snd k /\ F64.isnan (snd k) = false.
Proof.
  unfold strategy_alpha_key. destruct k as [s a]; simpl.
  destruct (strategy r) as [s' |].
  - destruct (F64.isnan (alpha r)) eqn:Ha; split.
    + discriminate.
    + intros [_ [<- Hn]]. congruence.
    + intros [= <- <-]. auto.
    + intros [[= ->] [-> _]]. reflexivity.
  - split; [discriminate | intros [H _]; discriminate].
Qed.

Lemma strategy_alpha_key_refl (r : Run) (k : string * float) :
  strategy_alpha_key r = Some k -> strategy_alpha_eqb k k = true.
Proof.
  intros H. apply strategy_alpha_key_Some in H. destruct H as [_ [_ Hn]].
  unfold strategy_alpha_eqb. now rewrite String.eqb_refl, (eqb_refl _ Hn).
Qed.

Lemma strategy_alpha_eqb_congr (x x' y y' : string * float) :
  strategy_alpha_eqb x x' = true -> strategy_alpha_eqb y y' = true ->
  strategy_alpha_eqb x y = strategy_alpha_eqb x' y'.
Proof.
  destruct x as [s a], x' as [s' a'], y as [t b], y' as [t' b'].
  unfold strategy_alpha_eqb; simpl. rewrite !andb_true_iff, !String.eqb_eq.
  intros [-> Ha] [-> Hb]. now rewrite (eqb_congr _ _ _ _ Ha Hb).
Qed.

Lemma strategy_alpha_leb_congr (x x' y y' : string * float) :
  strategy_alpha_eqb x x' = true -> strategy_alpha_eqb y y' = true ->
  strategy_alpha_leb x y = strategy_alpha_leb x' y'.
Proof.
  destruct x as [s a], x' as [s' a'], y as [t b], y' as [t' b'].
  unfold strategy_alpha_eqb, strategy_alpha_leb; simpl.
  rewrite !andb_true_iff, !String.eqb_eq.
  intros [-> Ha] [-> Hb]. now rewrite (leb_congr _ _ _ _ Ha Hb).
Qed.

Lemma strategy_alpha_label_key (df : Frame) (r : Run) :
  strategy_alpha_label df r =
  match strategy_alpha_key r with
  | Some (s, a) => Some (s, alpha_level df a)
  | None => None
  end.
Proof.
  unfold strategy_alpha_label, strategy_alpha_key.
  destruct (strategy r); [| reflexivity].
  destruct (F64.isnan (alpha r)); reflexivity.
Qed.

(** A label and the key cells of its row are the same pair. *)
Lemma strategy_alpha_label_eqb (df : Frame) (r : Run) (l : string * float) :
  strategy_alpha_label df r = Some l ->
  exists k, strategy_alpha_key r = Some k /\ strategy_alpha_eqb l k = true.
Proof.
  unfold strategy_alpha_label, strategy_alpha_key.
  destruct (strategy r) as [s |]; [| discriminate].
  destruct (F64.isnan (alpha r)) eqn:Ha; [discriminate |].
  intros [= <-]. eexists; split; [reflexivity |].
  unfold strategy_alpha_eqb; simpl.
  now rewrite String.eqb_refl, (alpha_level_eqb df _ Ha).
Qed.

Lemma strategy_alpha_key_label (df : Frame) (r : Run) (k : string * float) :
  strategy_alpha_key r = Some k ->
  exists l, strategy_alpha_label df r = Some l
            /\ strategy_alpha_eqb l k = true.
Proof.
  unfold strategy_alpha_label, strategy_alpha_key.
  destruct (strategy r) as [s |]; [| discriminate].
  destruct (F64.isnan (alpha r)) eqn:Ha; [discriminate |].
  intros [= <-]. eexists; split; [reflexivity |].
  unfold strategy_alpha_eqb; simpl.
  now rewrite String.eqb_refl, (alpha_level_eqb df _ Ha).
Qed.

Lemma strategy_alpha_label_refl (df : Frame) (r : Run) (l : string * float) :
  strategy_alpha_label df r = Some l -> strategy_alpha_eqb l l = true.
Proof.
  intros H. destruct (strategy_alpha_label_eqb df r l H) as [k [_ Hk]].
  eapply strategy_alpha_eqb_trans; [exact Hk | now apply strategy_alpha_eqb_sym].
Qed.

Lemma has_key_strategy_alpha_label (df : Frame) (r : Run) :
  has_key (strategy_alpha_label df) r = has_key strategy_alpha_key r.
Proof.
  unfold has_key. rewrite strategy_alpha_label_key.
  destruct (strategy_alpha_key r) as [[s a] |]; reflexivity.
Qed.

(** Labels do not change which rows a pair holds. *)
Lemma of_pair_label (full rows : Frame) (k : string * float) :
  filter (in_group (strategy_alpha_label full) strategy_alpha_eqb k) rows
  = of_pair k rows.
Proof.
  apply filter_ext. intros r. unfold in_group.
  destruct (strategy_alpha_label full r) as [l |] eqn:Hl.
  - destruct (strategy_alpha_label_eqb full r l Hl) as [k' [-> Hk']].
    destruct (strategy_alpha_eqb k l) eqn:H1, (strategy_alpha_eqb k k') eqn:H2;
      try reflexivity.
    + rewrite <- H2. symmetry. eapply strategy_alpha_eqb_trans; eassumption.
    + rewrite <- H1. eapply strategy_alpha_eqb_trans; [exact H2 |].
      now apply strategy_alpha_eqb_sym.
  - rewrite strategy_alpha_label_key in Hl.
    destruct (strategy_alpha_key r) as [[s a] |]; [discriminate | reflexivity].
Qed.

Lemma of_pair_congr (k k' : string * float) (rows : Frame) :
  strategy_alpha_eqb k k' = true -> of_pair k rows = of_pair k' rows.
Proof.
  intros H. apply filter_ext. intros r. unfold in_group.
  destruct (strategy_alpha_key r) as [kr |] eqn:Hk; [| reflexivity].
  apply strategy_alpha_eqb_congr; [exact H |].
  eapply strategy_alpha_key_refl; eassumption.
Qed.

(** The labels two tables give to the same rows name the same pairs. *)
Lemma strategy_alpha_labels_rel (full full' rows : Frame) :
  Forall2 (fun k k' => strategy_alpha_eqb k k' = true)
    (keys (strategy_alpha_label full) rows)
    (keys (strategy_alpha_label full') rows).
Proof.
  induction rows as [| r t IH]; simpl; [constructor |].
  destruct (strategy_alpha_label full r) as [l |] eqn:Hl.
  - destruct (strategy_alpha_label_eqb full r l Hl) as [k [Hk Hlk]].
    destruct (strategy_alpha_key_label full' r k Hk) as [l' [-> Hlk']].
    constructor; [| exact IH].
    eapply strategy_alpha_eqb_trans; [exact Hlk |].
    now apply strategy_alpha_eqb_sym.
  - rewrite strategy_alpha_label_key in Hl. rewrite strategy_alpha_label_key.
    destruct (strategy_alpha_key r) as [[s a] |]; [discriminate | exact IH].
Qed.

Section ChartRows.
Variable with_metric : Vis.row -> Vis.row.

(** The common shape of lines 96-99 of both files, the labels taken from
    the table [full]. *)
Let aggregate_on (full rows : Frame) : list Vis.row :=
  map with_metric
    (map strategy_alpha_agg
       (groupby (strategy_alpha_label full) strategy_alpha_eqb
          strategy_alpha_leb rows)).

Lemma aggregate_on_dropna (full rows : Frame) :
  aggregate_on full (filter (fun r => has_strategy r && has_alpha r) rows)
  = aggregate_on full rows.
Proof.
  unfold aggregate_on.
  rewrite (filter_ext _ (has_key (strategy_alpha_label full))).
  - now rewrite groupby_dropna.
  - intros r. now rewrite has_key_strategy_alpha_label, has_key_strategy_alpha.
Qed.

Hypothesis with_metric_rel :
  forall a a', same_vis_row a a' -> same_vis_row (with_metric a) (with_metric a').

Lemma aggregate_on_levels (full full' rows : Frame) :
  Forall2 same_vis_row (aggregate_on full rows) (aggregate_on full' rows).
Proof.
  unfold aggregate_on.
  apply (map_rel same_vis_row); [exact with_metric_rel |].
  unfold groupby. rewrite !map_map.
  apply (map_rel (fun k k' => strategy_alpha_eqb k k' = true)).
  - intros k k' Hk. rewrite !of_pair_label, (of_pair_congr k k' rows Hk).
    unfold same_vis_row, strategy_alpha_agg, vis_key; simpl.
    destruct k, k'; auto.
  - apply isort_rel; [intros x y x' y'; apply strategy_alpha_leb_congr |].
    apply uniques_rel; [intros x y x' y'; apply strategy_alpha_eqb_congr |].
    apply strategy_alpha_labels_rel.
Qed.

(** Removing the rows without strategy or alpha leaves every row of the
    aggregate as it is, up to the spelling of its alpha label. *)
Lemma aggregate_excludes (df : Frame) :
  Forall2 same_vis_row
    (aggregate_on (filter (fun r => has_strategy r && has_alpha r) df)
                  (filter (fun r => has_strategy r && has_alpha r) df))
    (aggregate_on df df).
Proof.
  rewrite <- (aggregate_on_dropna df df).
  apply aggregate_on_levels.
Qed.

End ChartRows.

(** ** Rows of the efficiency summary *)

Lemma uniques_string_In (s : string) (ks : list string) :
  In s (uniques String.eqb ks) <-> In s ks.
Proof.
  split; [apply uniques_incl |]. intros Hin.
  destruct (uniques_cover String.eqb) with (k := s) (ks := ks)
    as [k' [Hk' Heq]]; auto using String.eqb_refl.
  - intros a b c Hab Hbc. apply String.eqb_eq in Hab, Hbc.
    subst; apply String.eqb_refl.
  - apply String.eqb_eq in Heq; now subst.
Qed.

Lemma strategy_index_In (s : string) (df : Frame) :
  In s (isort String.leb (uniques String.eqb (keys strategy_key df))) <->
  exists r, In r df /\ strategy r = Some s.
Proof. now rewrite isort_In, uniques_string_In, keys_In. Qed.

Lemma find_by_index (f : string -> Efficiency.row) (L : list string) (s : string) :
  (forall k, Efficiency.index (Efficiency.cols (f k)) = k) ->
  (In s L -> lookup (map f L) s = Some (f s)) /\
  (~ In s L -> lookup (map f L) s = None).
Proof.
  intros Hidx. unfold lookup.
  induction L as [| k t [IHin IHout]]; simpl.
  - split; [intros [] | reflexivity].
  - rewrite Hidx. destruct (String.eqb_spec k s) as [-> | Hne]; split.
    + reflexivity.
    + intros Hn; exfalso; apply Hn; now left.
    + intros [Hk | Hin]; [congruence | now apply IHin].
    + intros Hn; apply IHout; intros Hin; apply Hn; now right.
Qed.

Section EfficiencyRows.
Variable with_pm : Efficiency.agg -> Efficiency.row.
Hypothesis cols_with_pm : forall a, Efficiency.cols (with_pm a) = a.

(** The common shape of lines 64-71 and 59-66. *)
Let summary (df : Frame) : list Efficiency.row :=
  map with_pm (map efficiency_agg (groupby strategy_key String.eqb String.leb df)).

Let row_of (s : string) (df : Frame) : Efficiency.row :=
  with_pm (efficiency_agg (s, of_strategy s df)).

Lemma summary_rows (df : Frame) :
  summary df =
  map (fun s => row_of s df)
      (isort String.leb (uniques String.eqb (keys strategy_key df))).
Proof. unfold summary, groupby. now rewrite !map_map. Qed.

Lemma lookup_present (df : Frame) (s : string) (r : Run) :
  In r df -> strategy r = Some s ->
  lookup (summary df) s = Some (row_of s df).
Proof using cols_with_pm.
  intros Hin Hs. rewrite summary_rows.
  apply find_by_index.
  - intros k. unfold row_of. now rewrite cols_with_pm.
  - apply strategy_index_In; eauto.
Qed.

Lemma lookup_absent (df : Frame) (s : string) :
  (forall r, In r df -> strategy r <> Some s) ->
  lookup (summary df) s = None.
Proof using cols_with_pm.
  intros Hno. rewrite summary_rows.
  apply find_by_index.
  - intros k. unfold row_of. now rewrite cols_with_pm.
  - intros Hin. apply strategy_index_In in Hin.
    destruct Hin as [r [Hin Hs]]. exact (Hno r Hin Hs).
Qed.

Lemma lookup_Some (df : Frame) (s : string) (row : Efficiency.row) :
  lookup (summary df) s = Some row ->
  row = row_of s df /\ exists r, In r df /\ strategy r = Some s.
Proof using cols_with_pm.
  rewrite summary_rows. intros Hl.
  assert (Hidx : forall k, Efficiency.index (Efficiency.cols (row_of k df)) = k).
  { intros k. unfold row_of. now rewrite cols_with_pm. }
  destruct (find_by_index (fun k => row_of k df)
              (isort String.leb (uniques String.eqb (keys strategy_key df)))
              s Hidx) as [Hyes Hnot].
  destruct (in_dec string_dec s
              (isort String.leb (uniques String.eqb (keys strategy_key df))))
    as [Hin | Hn].
  - rewrite (Hyes Hin) in Hl. injection Hl as <-.
    split; [reflexivity |]. now apply strategy_index_In.
  - rewrite (Hnot Hn) in Hl. discriminate.
Qed.

Lemma summary_index_sorted (df : Frame) :
  Sorted (fun r1 r2 =>
            String.leb (Efficiency.index (Efficiency.cols r1))
                       (Efficiency.index (Efficiency.cols r2)) = true)
    (summary df).
Proof using cols_with_pm.
  rewrite summary_rows.
  eapply Sorted_map; [| apply (isort_Sorted String.leb), String.leb_total].
  intros x y Hxy. unfold row_of. now rewrite !cols_with_pm.
Qed.

Lemma summary_strategy_dropna (df : Frame) :
  summary (filter has_strategy df) = summary df.
Proof using Type.
  unfold summary.
  rewrite (filter_ext _ (has_key strategy_key)); [| reflexivity].
  now rewrite groupby_dropna.
Qed.

End EfficiencyRows.

(** ** The "first versus best" narrative *)

Lemma loc_Some (t : list Efficiency.row) (label : string)
    (col : Efficiency.row -> float) (r : Efficiency.row) :
  lookup t label = Some r -> loc t label col = ret (col r).
Proof. unfold loc; now intros ->. Qed.

Lemma loc_None (t : list Efficiency.row) (label : string)
    (col : Efficiency.row -> float) :
  lookup t label = None -> loc t label col = raise (KeyError label).
Proof. unfold loc; now intros ->. Qed.

Lemma interpretation_v1_no_first (t : list Efficiency.row) :
  lookup t "first" = None ->
  Evaluator.interpretation t = ([], inl (KeyError "first")).
Proof.
  intros H. unfold Evaluator.interpretation.
  now rewrite (loc_None _ _ _ H).
Qed.

Lemma interpretation_v1_no_best (t : list Efficiency.row) (f : Efficiency.row) :
  lookup t "first" = Some f -> lookup t "best" = None ->
  Evaluator.interpretation t = ([], inl (KeyError "best")).
Proof.
  intros Hf Hb. unfold Evaluator.interpretation.
  now rewrite (loc_Some _ _ _ _ Hf), (loc_None _ _ _ Hb).
Qed.

Lemma interpretation_v1_both (t : list Efficiency.row) (f b : Efficiency.row) :
  lookup t "first" = Some f -> lookup t "best" = Some b ->
  Evaluator.interpretation t =
  if F64.ltb (e_mean_time f) (e_mean_time b) then
    ([ SayFaster (F64.div (e_mean_time b) (e_mean_time f));
       SaySacrifices
         (F64.mul (F64.sub (F64.div (e_mean_obj f) (e_mean_obj b)) one) hundred);
       Say "Decide if the speed gain is worth the small loss in quality." ],
     inr tt)
  else ([], inr tt).
Proof.
  intros Hf Hb. unfold Evaluator.interpretation.
  rewrite !(loc_Some _ _ _ _ Hf), !(loc_Some _ _ _ _ Hb). simpl.
  destruct (F64.ltb (e_mean_time f) (e_mean_time b)); reflexivity.
Qed.

Lemma interpretation_v2_no_first (t : list Efficiency.row) :
  lookup t "first" = None ->
  EvaluatorV2.interpretation t = ([], inl (KeyError "first")).
Proof.
  intros H. unfold EvaluatorV2.interpretation.
  now rewrite (loc_None _ _ _ H).
Qed.

Lemma interpretation_v2_no_best (t : list Efficiency.row) (f : Efficiency.row) :
  lookup t "first" = Some f -> lookup t "best" = None ->
  EvaluatorV2.interpretation t = ([], inl (KeyError "best")).
Proof.
  intros Hf Hb. unfold EvaluatorV2.interpretation.
  now rewrite (loc_Some _ _ _ _ Hf), (loc_None _ _ _ Hb).
Qed.

Lemma interpretation_v2_both (t : list Efficiency.row) (f b : Efficiency.row) :
  lookup t "first" = Some f -> lookup t "best" = Some b ->
  EvaluatorV2.interpretation t =
  if F64.ltb (e_mean_time f) (e_mean_time b) then
    ([ SayFaster (F64.div (e_mean_time b) (e_mean_time f));
       SaySacrifices
         (F64.mul (F64.sub (F64.div (e_mean_obj b) (e_mean_obj f)) one) hundred);
       Say "Decide if the speed gain is worth the small loss in quality." ],
     inr tt)
  else ([], inr tt).
Proof.
  intros Hf Hb. unfold EvaluatorV2.interpretation.
  rewrite !(loc_Some _ _ _ _ Hf), !(loc_Some _ _ _ _ Hb). simpl.
  destruct (F64.ltb (e_mean_time f) (e_mean_time b)); reflexivity.
Qed.

(** The guarded narrative of the second variant never raises. *)
Lemma guarded_interpretation_returns (t : list Efficiency.row) :
  outcome (except_KeyError_pass (EvaluatorV2.interpretation t)) = inr tt.
Proof.
  destruct (lookup t "first") as [f |] eqn:Hf.
  - destruct (lookup t "best") as [b |] eqn:Hb.
    + rewrite (interpretation_v2_both t f b Hf Hb).
      destruct (F64.ltb (e_mean_time f) (e_mean_time b)); reflexivity.
    + now rewrite (interpretation_v2_no_best t f Hf Hb).
  - now rewrite (interpretation_v2_no_first t Hf).
Qed.

(** What the efficiency analyzer prints before the narrative. *)
Lemma analyze_efficiency_v1 (df : Frame) :
  Evaluator.analyze_efficiency_and_tradeoff df =
  ([ Say (nl ++ rule);
     Say "⚡ Step 2: Efficiency (Time) and Quality/Time Trade-off";
     Say rule;
     Say (nl ++ "--- Strategy Efficiency Summary ---");
     ShowEfficiency (Evaluator.efficiency_report df) 2;
     Say (nl ++ "--- Operator Set Efficiency ---");
     ShowOpSet (Evaluator.op_summary df) 2;
     Say (nl ++ "--- Interpretation ---") ]
     ++ trace (Evaluator.interpretation (Evaluator.efficiency_summary df)),
   outcome (Evaluator.interpretation (Evaluator.efficiency_summary df))).
Proof.
  unfold Evaluator.analyze_efficiency_and_tradeoff, bind, print, trace, outcome.
  destruct (Evaluator.interpretation (Evaluator.efficiency_summary df))
    as [t [e | []]]; reflexivity.
Qed.

Lemma analyze_efficiency_v2 (df : Frame) :
  EvaluatorV2.analyze_efficiency_and_tradeoff df =
  ([ Say (nl ++ rule);
     Say "⚡ Step 2: Efficiency (Time) and Quality/Time Trade-off";
     Say rule;
     Say (nl ++ "--- Strategy Efficiency Summary ---");
     ShowEfficiency (EvaluatorV2.efficiency_report df) 2;
     Say (nl ++ "--- Operator Set Efficiency ---");
     ShowOpSet (EvaluatorV2.op_summary df) 2;
     Say (nl ++ "--- Interpretation ---") ]
     ++ trace (except_KeyError_pass
                 (EvaluatorV2.interpretation (EvaluatorV2.efficiency_summary df))),
   outcome (except_KeyError_pass
              (EvaluatorV2.interpretation (EvaluatorV2.efficiency_summary df)))).
Proof.
  unfold EvaluatorV2.analyze_efficiency_and_tradeoff, bind, print, trace, outcome.
  destruct (except_KeyError_pass
              (EvaluatorV2.interpretation (EvaluatorV2.efficiency_summary df)))
    as [t [e | []]]; reflexivity.
Qed.

(** Both summaries are printed before the narrative is attempted. *)
Lemma shows_summaries_v1 (df : Frame) :
  In (ShowEfficiency (Evaluator.efficiency_report df) 2)
     (trace (Evaluator.analyze_efficiency_and_tradeoff df))
  /\ In (ShowOpSet (Evaluator.op_summary df) 2)
        (trace (Evaluator.analyze_efficiency_and_tradeoff df)).
Proof.
  rewrite analyze_efficiency_v1. unfold trace; cbn [fst].
  split; apply in_app_iff; left; simpl; tauto.
Qed.

Lemma shows_summaries_v2 (df : Frame) :
  In (ShowEfficiency (EvaluatorV2.efficiency_report df) 2)
     (trace (EvaluatorV2.analyze_efficiency_and_tradeoff df))
  /\ In (ShowOpSet (EvaluatorV2.op_summary df) 2)
        (trace (EvaluatorV2.analyze_efficiency_and_tradeoff df)).
Proof.
  rewrite analyze_efficiency_v2. unfold trace; cbn [fst].
  split; apply in_app_iff; left; simpl; tauto.
Qed.

(** The second variant's analyzer returns normally on every table. *)
Lemma analyze_efficiency_v2_returns (df : Frame) :
  outcome (EvaluatorV2.analyze_efficiency_and_tradeoff df) = inr tt.
Proof.
  rewrite analyze_efficiency_v2. apply guarded_interpretation_returns.
Qed.

(** * The claims *)

(** ** C1: the coefficient of variation *)

(** The second variant divides by the absolute mean, on every table. *)
Lemma cv_obj_v2 (df : Frame) (row : Quality.row) :
  In row (EvaluatorV2.quality_summary df) ->
  Quality.CV_obj row =
  F64.mul (F64.div (q_std_obj row) (F64.abs (q_mean_obj row))) hundred.
Proof.
  intros H. apply (summary_In EvaluatorV2.with_CV_obj false) in H.
  destruct H as [k [_ ->]]. reflexivity.
Qed.

(** The first variant divides by the mean itself. *)
Lemma cv_obj_v1 (df : Frame) (row : Quality.row) :
  In row (Evaluator.quality_summary df) ->
  Quality.CV_obj row =
  F64.mul (F64.div (q_std_obj row) (q_mean_obj row)) hundred.
Proof.
  intros H. apply (summary_In Evaluator.with_CV_obj true) in H.
  destruct H as [k [_ ->]]. reflexivity.
Qed.

(** C1, at the failing input.  Three runs of one configuration with
    objectives -10, -20, -30 have mean -20 and standard deviation 10.  The
    claim asks for [CV_obj = 10 / |-20| * 100 = 50] in both variants;
    [evaluator.py] yields -50, [evaluator_v2.py] yields 50. *)
Theorem C1_evaluator_cv_omits_abs :
  map (fun r => (q_mean_obj r, q_std_obj r, Quality.CV_obj r))
      (Evaluator.quality_summary negative_table)
  = [ (F64.of_Z (-20), F64.of_Z 10, F64.of_Z (-50)) ]
  /\ F64.mul (F64.div (F64.of_Z 10) (F64.abs (F64.of_Z (-20)))) hundred
     = F64.of_Z 50
  /\ F64.eqb (F64.of_Z (-50)) (F64.of_Z 50) = false
  /\ map (fun r => (q_mean_obj r, q_std_obj r, Quality.CV_obj r))
         (EvaluatorV2.quality_summary negative_table)
     = [ (F64.of_Z (-20), F64.of_Z 10, F64.of_Z 50) ].
Proof. vm_compute. repeat split. Qed.

(** ** C2: a missing baseline strategy *)

(** C2, at the failing input.  On a table without any "best" row
    (scenario C) [evaluator.py] prints both efficiency summaries and then
    raises [KeyError] from the unguarded lookup, where the claim asks for
    no error; [evaluator_v2.py] prints the same summaries, no narrative,
    and returns. *)
Theorem C2_evaluator_raises_on_missing_best :
  outcome (Evaluator.analyze_efficiency_and_tradeoff scenario_C)
  = inl (KeyError "best")
  /\ In (ShowEfficiency (Evaluator.efficiency_report scenario_C) 2)
        (trace (Evaluator.analyze_efficiency_and_tradeoff scenario_C))
  /\ In (ShowOpSet (Evaluator.op_summary scenario_C) 2)
        (trace (Evaluator.analyze_efficiency_and_tradeoff scenario_C))
  /\ outcome (EvaluatorV2.analyze_efficiency_and_tradeoff scenario_C) = inr tt
  /\ forallb (fun e => negb (is_narrative e))
       (trace (EvaluatorV2.analyze_efficiency_and_tradeoff scenario_C)) = true
  /\ In (ShowEfficiency (EvaluatorV2.efficiency_report scenario_C) 2)
        (trace (EvaluatorV2.analyze_efficiency_and_tradeoff scenario_C))
  /\ In (ShowOpSet (EvaluatorV2.op_summary scenario_C) 2)
        (trace (EvaluatorV2.analyze_efficiency_and_tradeoff scenario_C)).
Proof.
  split; [vm_compute; reflexivity |].
  split; [apply shows_summaries_v1 |].
  split; [apply shows_summaries_v1 |].
  split; [apply analyze_efficiency_v2_returns |].
  split; [vm_compute; reflexivity |].
  split; apply shows_summaries_v2.
Qed.

(** ** C4: a configuration with a single run *)



(** ** C6 and C3: the order of the summaries *)

Lemma asc_le_ascending (a b : float) : asc_le a b = true <-> ascending a b.
Proof.
  unfold asc_le, ascending.
  destruct (F64.isnan b) eqn:Hb; [split; auto |].
  destruct (F64.isnan a) eqn:Ha; split.
  - discriminate.
  - intros [H | [H _]]; discriminate.
  - auto.
  - intros [H | [_ H]]; [discriminate | exact H].
Qed.

Lemma desc_le_descending (a b : float) : desc_le a b = true <-> descending a b.
Proof.
  unfold desc_le, descending.
  destruct (F64.isnan b) eqn:Hb; [split; auto |].
  destruct (F64.isnan a) eqn:Ha; split.
  - discriminate.
  - intros [H | [H _]]; discriminate.
  - auto.
  - intros [H | [_ H]]; [discriminate | exact H].
Qed.

Lemma StronglySorted_impl {A : Type} (R S : A -> A -> Prop) (l : list A) :
  (forall x y, R x y -> S x y) -> StronglySorted R l -> StronglySorted S l.
Proof.
  intros HRS H. rewrite <- (map_id l).
  eapply StronglySorted_map; [| exact H]. exact HRS.
Qed.

Lemma sort_values_asc_sorted {R : Type} (by_ : R -> float) (t : list R) :
  StronglySorted (fun r1 r2 => ascending (by_ r1) (by_ r2))
    (sort_values by_ true t).
Proof.
  eapply StronglySorted_impl; [| apply sort_values_ascending].
  intros x y; apply asc_le_ascending.
Qed.

Lemma sort_values_desc_sorted {R : Type} (by_ : R -> float) (t : list R) :
  StronglySorted (fun r1 r2 => descending (by_ r1) (by_ r2))
    (sort_values by_ false t).
Proof.
  eapply StronglySorted_impl; [| apply sort_values_descending].
  intros x y; apply desc_le_descending.
Qed.

(** C6.  On every table the quality summary is sorted by [mean_obj],
    ascending in [evaluator.py] and descending in [evaluator_v2.py], and
    the operator-set summary is sorted by ascending [mean_time] in both;
    rows whose sort key is undefined (NaN) come last. *)
Theorem C6_summaries_are_sorted (df : Frame) :
  StronglySorted (fun r1 r2 => ascending (q_mean_obj r1) (q_mean_obj r2))
    (Evaluator.quality_summary df)
  /\ StronglySorted (fun r1 r2 => descending (q_mean_obj r1) (q_mean_obj r2))
       (EvaluatorV2.quality_summary df)
  /\ StronglySorted
       (fun r1 r2 => ascending (OpSet.mean_time r1) (OpSet.mean_time r2))
       (Evaluator.op_summary df)
  /\ StronglySorted
       (fun r1 r2 => ascending (OpSet.mean_time r1) (OpSet.mean_time r2))
       (EvaluatorV2.op_summary df).
Proof.
  repeat split.
  - unfold Evaluator.quality_summary.
    eapply StronglySorted_map; [| apply sort_values_asc_sorted].
    intros x y H; exact H.
  - unfold EvaluatorV2.quality_summary.
    eapply StronglySorted_map; [| apply sort_values_desc_sorted].
    intros x y H; exact H.
  - apply sort_values_asc_sorted.
  - apply sort_values_asc_sorted.
Qed.

(** C3 as stated fails on [evaluator.py]: with strategies "a" (metric 1)
    and "b" (metric 2) the printed summary lists "a" before "b". *)
Lemma C3_evaluator_report_not_descending :
  map Efficiency.performance_metric (Evaluator.efficiency_report two_strategies)
  = [F64.of_Z 1; F64.of_Z 2]
  /\ F64.ltb (F64.of_Z 1) (F64.of_Z 2) = true
  /\ ~ Sorted (fun r1 r2 => descending (Efficiency.performance_metric r1)
                                       (Efficiency.performance_metric r2))
         (Evaluator.efficiency_report two_strategies).
Proof.
  split; [vm_compute; reflexivity |]. split; [vm_compute; reflexivity |].
  intros H.
  assert (Hd : descending (F64.of_Z 1) (F64.of_Z 2)).
  { set (l := Evaluator.efficiency_report two_strategies) in H.
    vm_compute in l. subst l.
    inversion H as [| a l0 _ Hhd]; subst.
    inversion Hhd as [| b l1 Hab]; subst. exact Hab. }
  destruct Hd as [Hnan | [_ Hle]]; vm_compute in *; discriminate.
Qed.

(** C3, amended.  The performance metric is [mean_obj * mean_time] in
    [evaluator.py] and [mean_obj / mean_time] in [evaluator_v2.py].  The
    second variant prints its summary sorted by descending metric
    (undefined values last); the first prints the summary as grouped, in
    ascending order of the strategy label. *)
Theorem C3_performance_metric_and_report_order (df : Frame) :
  Forall (fun row => Efficiency.performance_metric row
                     = F64.mul (e_mean_obj row) (e_mean_time row))
         (Evaluator.efficiency_summary df)
  /\ Forall (fun row => Efficiency.performance_metric row
                        = F64.div (e_mean_obj row) (e_mean_time row))
            (EvaluatorV2.efficiency_summary df)
  /\ StronglySorted
       (fun r1 r2 => descending (Efficiency.performance_metric r1)
                                (Efficiency.performance_metric r2))
       (EvaluatorV2.efficiency_report df)
  /\ Permutation (EvaluatorV2.efficiency_report df)
                 (EvaluatorV2.efficiency_summary df)
  /\ Evaluator.efficiency_report df = Evaluator.efficiency_summary df
  /\ Sorted (fun r1 r2 =>
               String.leb (Efficiency.index (Efficiency.cols r1))
                          (Efficiency.index (Efficiency.cols r2)) = true)
            (Evaluator.efficiency_report df)
  /\ In (ShowEfficiency (Evaluator.efficiency_report df) 2)
        (trace (Evaluator.analyze_efficiency_and_tradeoff df))
  /\ In (ShowEfficiency (EvaluatorV2.efficiency_report df) 2)
        (trace (EvaluatorV2.analyze_efficiency_and_tradeoff df)).
Proof.
  split; [| split; [| split; [| split; [| split; [| split; [| split]]]]]].
  - apply Forall_forall. intros row Hin.
    apply in_map_iff in Hin. destruct Hin as [a [<- _]]. reflexivity.
  - apply Forall_forall. intros row Hin.
    apply in_map_iff in Hin. destruct Hin as [a [<- _]]. reflexivity.
  - apply sort_values_desc_sorted.
  - apply sort_values_perm.
  - reflexivity.
  - apply (summary_index_sorted Evaluator.with_performance_metric).
    intros a; reflexivity.
  - apply shows_summaries_v1.
  - apply shows_summaries_v2.
Qed.

(** ** C5: the loader and the missing file *)

Lemma load_missing (fs : FileSystem) (path : string) :
  fs path = None ->
  Evaluator.load_and_prepare_data fs path =
  ([ Say ("Loading results from " ++ path ++ "...");
     Say ("Error: File not found at " ++ path) ],
   inr None).
Proof.
  intros H. unfold Evaluator.load_and_prepare_data. rewrite H. reflexivity.
Qed.

Lemma load_present (fs : FileSystem) (path : string) (csv : list Csv.row) :
  fs path = Some csv ->
  Evaluator.load_and_prepare_data fs path =
  ([ Say ("Loading results from " ++ path ++ "...");
     SayLoaded (List.length csv) ],
   inr (Some (map with_op_set_str csv))).
Proof.
  intros H. unfold Evaluator.load_and_prepare_data. rewrite H.
  unfold bind, print, ret. simpl. now rewrite length_map.
Qed.

Lemma to_csv_with_op_set_str (csv : list Csv.row) :
  map to_csv (map with_op_set_str csv) = csv.
Proof.
  rewrite map_map. rewrite <- (map_id csv) at 2.
  apply map_ext. intros []; reflexivity.
Qed.

(** C5.  When no file exists at the path, the loader prints its
    diagnostic and returns [None] without raising; [main_analysis] then
    returns having printed nothing else, so none of the three stages (each
    of which begins by printing its banner) has run.  When the file
    exists, the loader returns the file's rows, each extended with
    [op_set_str], the string rendering of its [op_set]. *)
Theorem C5_loader_contract (fs : FileSystem) (path : string) :
  (fs path = None ->
   Evaluator.load_and_prepare_data fs path =
   ([ Say ("Loading results from " ++ path ++ "...");
      Say ("Error: File not found at " ++ path) ],
    inr None))
  /\ (fs RESULTS_FILE = None ->
      outcome (Evaluator.main_analysis fs) = inr tt
      /\ trace (Evaluator.main_analysis fs)
         = trace (Evaluator.load_and_prepare_data fs RESULTS_FILE)
      /\ ~ In (Say (nl ++ rule)) (trace (Evaluator.main_analysis fs)))
  /\ (forall df,
        hd_error (trace (Evaluator.analyze_quality_and_robustness df))
        = Some (Say (nl ++ rule))
        /\ hd_error (trace (Evaluator.analyze_efficiency_and_tradeoff df))
           = Some (Say (nl ++ rule))
        /\ hd_error (trace (Evaluator.visualize_results df))
           = Some (Say (nl ++ rule)))
  /\ (forall csv, fs path = Some csv ->
      exists df,
        outcome (Evaluator.load_and_prepare_data fs path) = inr (Some df)
        /\ map to_csv df = csv
        /\ Forall (fun r => op_set_str r = astype_str (op_set r)) df).
Proof.
  split; [apply load_missing |]. split; [| split].
  - intros H. unfold Evaluator.main_analysis.
    rewrite (load_missing fs RESULTS_FILE H). cbn.
    repeat split. intros [Habs | [Habs | []]]; discriminate Habs.
  - intros df. split; [| split].
    + unfold Evaluator.analyze_quality_and_robustness, bind, print, trace.
      destruct (index0 (Evaluator.quality_summary df)) as [t [e | c]];
        [reflexivity |].
      cbn. destruct (iloc0 (Evaluator.quality_summary df)) as [t' [e | c']];
        reflexivity.
    + rewrite analyze_efficiency_v1. reflexivity.
    + reflexivity.
  - intros csv H. exists (map with_op_set_str csv).
    rewrite (load_present fs path csv H). split; [reflexivity |].
    split; [apply to_csv_with_op_set_str |].
    apply Forall_forall. intros r Hin.
    apply in_map_iff in Hin. destruct Hin as [c [<- _]]. reflexivity.
Qed.

(** C5 on a file system without the results file and on one with it. *)
Lemma C5_loader_witness :
  (outcome (Evaluator.main_analysis no_file) = inr tt
   /\ trace (Evaluator.main_analysis no_file)
      = trace (Evaluator.load_and_prepare_data no_file RESULTS_FILE)
   /\ ~ In (Say (nl ++ rule)) (trace (Evaluator.main_analysis no_file)))
  /\ exists df,
       outcome (Evaluator.load_and_prepare_data one_file RESULTS_FILE)
       = inr (Some df)
       /\ map to_csv df = [csv_run (Some "X") one None (Some 1%Z) 10 1]
       /\ Forall (fun r => op_set_str r = astype_str (op_set r)) df.
Proof.
  split.
  - exact (proj1 (proj2 (C5_loader_contract no_file RESULTS_FILE)) eq_refl).
  - exact (proj2 (proj2 (proj2 (C5_loader_contract one_file RESULTS_FILE)))
             _ eq_refl).
Defined.

(** ** C7 and C9: when the narrative fires *)

(** The summary row of a strategy that occurs in the table holds the
    means of that strategy's rows, in either variant. *)
Lemma lookup_strategy_v1 (df : Frame) (s : string) (r : Run) :
  In r df -> strategy r = Some s ->
  exists row, lookup (Evaluator.efficiency_summary df) s = Some row
              /\ e_mean_time row = strategy_mean_time s df
              /\ e_mean_obj row = strategy_mean_obj s df.
Proof.
  intros Hin Hs. eexists. split.
  - apply (lookup_present Evaluator.with_performance_metric) with (r := r);
      auto.
  - split; reflexivity.
Qed.

Lemma lookup_strategy_v2 (df : Frame) (s : string) (r : Run) :
  In r df -> strategy r = Some s ->
  exists row, lookup (EvaluatorV2.efficiency_summary df) s = Some row
              /\ e_mean_time row = strategy_mean_time s df
              /\ e_mean_obj row = strategy_mean_obj s df.
Proof.
  intros Hin Hs. eexists. split.
  - apply (lookup_present EvaluatorV2.with_performance_metric) with (r := r);
      auto.
  - split; reflexivity.
Qed.

(** C7 (scenario B).  In [evaluator.py], on a table whose "first"
    strategy has mean time 1.0 and mean objective 100 and whose "best"
    strategy has mean time 5.0 and mean objective 90, the comparison
    [1.0 < 5.0] holds, the narrative is printed with
    [time_ratio = 5.0 / 1.0 = 5.0] and
    [quality_diff = (100 / 90 - 1) * 100], which lies within 0.005 of
    11.11, and the analyzer returns. *)
Theorem C7_scenario_B_narrative (df : Frame) (rf rb : Run) :
  In rf df -> strategy rf = Some "first" ->
  In rb df -> strategy rb = Some "best" ->
  strategy_mean_time "first" df = F64.of_Z 1 ->
  strategy_mean_obj "first" df = F64.of_Z 100 ->
  strategy_mean_time "best" df = F64.of_Z 5 ->
  strategy_mean_obj "best" df = F64.of_Z 90 ->
  F64.ltb (strategy_mean_time "first" df) (strategy_mean_time "best" df) = true
  /\ Evaluator.interpretation (Evaluator.efficiency_summary df)
     = ([ SayFaster (F64.of_Z 5);
          SaySacrifices quality_diff_B;
          Say "Decide if the speed gain is worth the small loss in quality." ],
        inr tt)
  /\ In (SayFaster (F64.of_Z 5))
        (trace (Evaluator.analyze_efficiency_and_tradeoff df))
  /\ In (SaySacrifices quality_diff_B)
        (trace (Evaluator.analyze_efficiency_and_tradeoff df))
  /\ outcome (Evaluator.analyze_efficiency_and_tradeoff df) = inr tt
  /\ F64.div (F64.of_Z 5) (F64.of_Z 1) = F64.of_Z 5
  /\ F64.ltb (F64.abs (F64.sub quality_diff_B dec_11_11)) half_cent = true.
Proof.
  intros Hf Hsf Hb Hsb Hft Hfo Hbt Hbo.
  destruct (lookup_strategy_v1 df "first" rf Hf Hsf) as [f [Hlf [Hf1 Hf2]]].
  destruct (lookup_strategy_v1 df "best" rb Hb Hsb) as [b [Hlb [Hb1 Hb2]]].
  assert (Hint : Evaluator.interpretation (Evaluator.efficiency_summary df)
                 = ([ SayFaster (F64.of_Z 5);
                      SaySacrifices quality_diff_B;
                      Say "Decide if the speed gain is worth the small loss in quality." ],
                    inr tt)).
  { rewrite (interpretation_v1_both _ f b Hlf Hlb).
    rewrite Hf1, Hf2, Hb1, Hb2, Hft, Hfo, Hbt, Hbo. reflexivity. }
  split; [rewrite Hft, Hbt; reflexivity |].
  split; [exact Hint |].
  rewrite analyze_efficiency_v1, Hint. unfold trace, outcome; cbn [fst snd].
  split; [apply in_app_iff; right; simpl; tauto |].
  split; [apply in_app_iff; right; simpl; tauto |].
  split; [reflexivity |].
  split; vm_compute; reflexivity.
Qed.

(** C7 on the two-row table of scenario B. *)
Lemma C7_scenario_B_witness :
  Evaluator.interpretation (Evaluator.efficiency_summary scenario_B)
  = ([ SayFaster (F64.of_Z 5);
       SaySacrifices quality_diff_B;
       Say "Decide if the speed gain is worth the small loss in quality." ],
     inr tt).
Proof.
  refine (proj1 (proj2
    (C7_scenario_B_narrative scenario_B
       (run (Some "first") one (Some "[a]") (Some 1%Z) 100 1)
       (run (Some "best") one (Some "[a]") (Some 1%Z) 90 5)
       _ eq_refl _ eq_refl _ _ _ _))).
  - left; reflexivity.
  - right; left; reflexivity.
  - vm_compute; reflexivity.
  - vm_compute; reflexivity.
  - vm_compute; reflexivity.
  - vm_compute; reflexivity.
Defined.

(** C9.  When both "first" and "best" occur in the table and the mean
    time of "first" is greater than or equal to that of "best", the
    analyzer of either variant prints both efficiency summaries, prints
    none of the narrative's lines, and returns without error. *)
Theorem C9_no_narrative_when_first_is_not_faster (df : Frame) (rf rb : Run) :
  In rf df -> strategy rf = Some "first" ->
  In rb df -> strategy rb = Some "best" ->
  F64.leb (strategy_mean_time "best" df) (strategy_mean_time "first" df) = true ->
  (outcome (Evaluator.analyze_efficiency_and_tradeoff df) = inr tt
   /\ forallb (fun e => negb (is_narrative e))
        (trace (Evaluator.analyze_efficiency_and_tradeoff df)) = true
   /\ In (ShowEfficiency (Evaluator.efficiency_report df) 2)
         (trace (Evaluator.analyze_efficiency_and_tradeoff df))
   /\ In (ShowOpSet (Evaluator.op_summary df) 2)
         (trace (Evaluator.analyze_efficiency_and_tradeoff df)))
  /\ (outcome (EvaluatorV2.analyze_efficiency_and_tradeoff df) = inr tt
      /\ forallb (fun e => negb (is_narrative e))
           (trace (EvaluatorV2.analyze_efficiency_and_tradeoff df)) = true
      /\ In (ShowEfficiency (EvaluatorV2.efficiency_report df) 2)
            (trace (EvaluatorV2.analyze_efficiency_and_tradeoff df))
      /\ In (ShowOpSet (EvaluatorV2.op_summary df) 2)
            (trace (EvaluatorV2.analyze_efficiency_and_tradeoff df))).
Proof.
  intros Hf Hsf Hb Hsb Hle. apply leb_not_ltb in Hle. split.
  - destruct (lookup_strategy_v1 df "first" rf Hf Hsf) as [f [Hlf [Hf1 _]]].
    destruct (lookup_strategy_v1 df "best" rb Hb Hsb) as [b [Hlb [Hb1 _]]].
    assert (Hint : Evaluator.interpretation (Evaluator.efficiency_summary df)
                   = ([], inr tt)).
    { rewrite (interpretation_v1_both _ f b Hlf Hlb), Hf1, Hb1, Hle.
      reflexivity. }
    split; [| split; [| apply shows_summaries_v1]].
    + rewrite analyze_efficiency_v1, Hint. reflexivity.
    + rewrite analyze_efficiency_v1, Hint. reflexivity.
  - destruct (lookup_strategy_v2 df "first" rf Hf Hsf) as [f [Hlf [Hf1 _]]].
    destruct (lookup_strategy_v2 df "best" rb Hb Hsb) as [b [Hlb [Hb1 _]]].
    assert (Hint : EvaluatorV2.interpretation (EvaluatorV2.efficiency_summary df)
                   = ([], inr tt)).
    { rewrite (interpretation_v2_both _ f b Hlf Hlb), Hf1, Hb1, Hle.
      reflexivity. }
    split; [| split; [| apply shows_summaries_v2]].
    + apply analyze_efficiency_v2_returns.
    + rewrite analyze_efficiency_v2, Hint. reflexivity.
Qed.

(** C9 on a table where "first" takes 5 s and "best" 1 s. *)
Lemma C9_slow_first_witness :
  outcome (Evaluator.analyze_efficiency_and_tradeoff slow_first) = inr tt
  /\ outcome (EvaluatorV2.analyze_efficiency_and_tradeoff slow_first) = inr tt.
Proof.
  pose proof
    (C9_no_narrative_when_first_is_not_faster slow_first
       (run (Some "first") one (Some "[a]") (Some 1%Z) 100 5)
       (run (Some "best") one (Some "[a]") (Some 1%Z) 90 1)) as H.
  destruct H as [[H1 _] [H2 _]].
  - left; reflexivity.
  - reflexivity.
  - right; left; reflexivity.
  - reflexivity.
  - vm_compute; reflexivity.
  - split; assumption.
Defined.

(** ** C8: group keys and run counts *)

Lemma filter_length_le {A : Type} (f p : A -> bool) (l : list A) :
  List.length (filter f (filter p l)) <= List.length (filter f l).
Proof.
  induction l as [| x t IH]; simpl; [lia |].
  destruct (p x); simpl; destruct (f x); simpl; lia.
Qed.

Lemma filter_none {A : Type} (f : A -> bool) (l : list A) :
  (forall x, In x l -> f x = false) -> filter f l = [].
Proof.
  induction l as [| x t IH]; simpl; intros H; [reflexivity |].
  rewrite (H x (or_introl eq_refl)). apply IH. intros y Hy. apply H. now right.
Qed.

Lemma filter_length_perm {A : Type} (f : A -> bool) (l l' : list A) :
  Permutation l l' -> List.length (filter f l) = List.length (filter f l').
Proof.
  induction 1 as [| x l l' _ IH | x y l | l l' l'' _ IH1 _ IH2]; simpl.
  - reflexivity.
  - destruct (f x); simpl; lia.
  - destruct (f x), (f y); reflexivity.
  - lia.
Qed.

Lemma filter_map_compose {A B : Type} (g : A -> B) (f : B -> bool) (l : list A) :
  filter f (map g l) = map g (filter (fun x => f (g x)) l).
Proof.
  induction l as [| x t IH]; simpl; [reflexivity |].
  destruct (f (g x)); simpl; now rewrite IH.
Qed.

Section UniquesCount.
Context {K : Type}.
Variable keq : K -> K -> bool.
Hypothesis keq_sym : forall a b, keq a b = true -> keq b a = true.
Hypothesis keq_trans :
  forall a b c, keq a b = true -> keq b c = true -> keq a c = true.

(** At most one representative is equal to a given key. *)
Lemma uniques_count (k : K) (ks : list K) :
  List.length (filter (keq k) (uniques keq ks)) <= 1.
Proof.
  induction ks as [| k0 t IH]; simpl; [lia |].
  destruct (keq k k0) eqn:Hk0; simpl.
  - rewrite filter_none; [simpl; lia |].
    intros x Hx. apply filter_In in Hx. destruct Hx as [_ Hx].
    destruct (keq k x) eqn:Hkx; [| reflexivity].
    apply keq_sym in Hk0. rewrite (keq_trans _ _ _ Hk0 Hkx) in Hx.
    discriminate.
  - etransitivity; [apply filter_length_le | exact IH].
Qed.

End UniquesCount.



(** The index spells an alpha as the column first spells it: in the
    table of signed zeros the group of "B", whose own row reads [-0.0],
    is labelled [0.0], a triple that no source row carries cell for
    cell. *)
Example signed_zero_labels :
  map (fun row => Quality.index (Quality.cols row))
      (Evaluator.quality_summary signed_zeros)
  = [ ("A", F64.zero, "[a]"); ("B", F64.zero, "[a]") ]
  /\ ~ In (Some "B", F64.zero, "[a]") (map source_triple signed_zeros).
Proof.
  split; [vm_compute; reflexivity |].
  intros [H | [H | []]]; discriminate H.
Qed.



(** ** C10: rows with missing cells *)

Lemma op_summary_In (df : Frame) (row : OpSet.row) :
  In row (sort_values OpSet.mean_time true
            (map op_set_agg (groupby op_set_key String.eqb String.leb df))) <->
  exists o, (exists r, In r df /\ op_set_str r = o)
            /\ row = op_set_agg (o, of_op_set o df).
Proof.
  rewrite sort_values_In, in_map_iff. split.
  - intros [g [<- Hg]]. apply groupby_In in Hg. destruct Hg as [o [Ho ->]].
    exists o. split; [| reflexivity].
    apply uniques_string_In, keys_In in Ho.
    destruct Ho as [r [Hr Hk]]. exists r. split; [exact Hr |].
    unfold op_set_key in Hk. now injection Hk.
  - intros [o [[r [Hr Ho]] ->]]. eexists; split; [reflexivity |].
    apply groupby_In. exists o. split; [| reflexivity].
    apply uniques_string_In, keys_In. exists r. split; [exact Hr |].
    unfold op_set_key. now rewrite Ho.
Qed.

Lemma of_op_set_In (o : string) (df : Frame) (r : Run) :
  In r (of_op_set o df) <-> In r df /\ op_set_str r = o.
Proof.
  unfold of_op_set. rewrite filter_In. unfold in_group, op_set_key.
  rewrite String.eqb_eq. intuition congruence.
Qed.

Lemma with_CV_obj_rel_v1 (a a' : Quality.agg) :
  same_agg a a' ->
  same_quality_row (Evaluator.with_CV_obj a) (Evaluator.with_CV_obj a').
Proof.
  intros H. split; [exact H |]. destruct H as [_ [Hm [Hs _]]].
  unfold Evaluator.with_CV_obj; simpl. now rewrite Hm, Hs.
Qed.

Lemma with_CV_obj_rel_v2 (a a' : Quality.agg) :
  same_agg a a' ->
  same_quality_row (EvaluatorV2.with_CV_obj a) (EvaluatorV2.with_CV_obj a').
Proof.
  intros H. split; [exact H |]. destruct H as [_ [Hm [Hs _]]].
  unfold EvaluatorV2.with_CV_obj; simpl. now rewrite Hm, Hs.
Qed.

Lemma with_vis_metric_rel (a a' : Vis.row) :
  same_vis_row a a' ->
  same_vis_row (EvaluatorV2.with_vis_metric a) (EvaluatorV2.with_vis_metric a').
Proof.
  intros [Hk [Hm [Ht _]]]. unfold same_vis_row, EvaluatorV2.with_vis_metric.
  simpl. now rewrite Hm, Ht.
Qed.

Lemma df_agg_excludes_v1 (df : Frame) :
  Forall2 same_vis_row
    (Evaluator.df_agg (filter (fun r => has_strategy r && has_alpha r) df))
    (Evaluator.df_agg df).
Proof.
  unfold Evaluator.df_agg.
  pose proof (aggregate_excludes (fun r => r) (fun a a' H => H) df) as H.
  simpl in H. now rewrite !map_id in H.
Qed.

Lemma df_agg_excludes_v2 (df : Frame) :
  Forall2 same_vis_row
    (EvaluatorV2.df_agg (filter (fun r => has_strategy r && has_alpha r) df))
    (EvaluatorV2.df_agg df).
Proof.
  exact (aggregate_excludes EvaluatorV2.with_vis_metric with_vis_metric_rel df).
Qed.

(** C10 as stated fails for two of the four summaries: a row whose alpha
    is missing still enters the strategy-level efficiency summary, and a
    row whose strategy is missing still enters the operator-set summary. *)
Lemma C10_missing_rows_still_summarised :
  (filter (fun r => has_strategy r && has_alpha r) missing_alpha = []
   /\ map (fun row => Efficiency.index (Efficiency.cols row))
          (Evaluator.efficiency_summary missing_alpha) = ["X"]
   /\ map (fun row => Efficiency.index (Efficiency.cols row))
          (EvaluatorV2.efficiency_summary missing_alpha) = ["X"])
  /\ (filter (fun r => has_strategy r && has_alpha r) missing_strategy = []
      /\ map OpSet.index (Evaluator.op_summary missing_strategy) = ["[a]"]
      /\ map OpSet.index (EvaluatorV2.op_summary missing_strategy) = ["[a]"]).
Proof. repeat split; vm_compute; reflexivity. Qed.

Lemma of_strategy_In (s : string) (df : Frame) (r : Run) :
  In r (of_strategy s df) <-> In r df /\ strategy r = Some s.
Proof.
  unfold of_strategy. rewrite filter_In. unfold in_group, strategy_key.
  destruct (strategy r) as [s' |].
  - rewrite String.eqb_eq. intuition congruence.
  - intuition discriminate.
Qed.

(** A dropped row can still lend its spelling of alpha to the index:
    with the row that has no strategy, the group of "B" is labelled
    [0.0]; without it, [-0.0].  The rows of the two summaries are the
    same in every other respect. *)
Example dropped_row_spells_alpha :
  map (fun row => Quality.index (Quality.cols row))
      (Evaluator.quality_summary unlabelled_zero)
  = [ ("B", F64.zero, "[a]") ]
  /\ map (fun row => Quality.index (Quality.cols row))
         (Evaluator.quality_summary
            (filter (fun r => has_strategy r && has_alpha r) unlabelled_zero))
     = [ ("B", S754_zero true, "[a]") ].
Proof. split; vm_compute; reflexivity. Qed.

(** C10, amended.  In either variant: a row whose strategy or alpha is
    missing plays no part in the quality summary nor in the
    visualisation aggregate (removing those rows leaves each summary row
    by row the same, alpha compared as a number); a row whose strategy
    is missing plays no part in the strategy-level efficiency summary,
    whereas every row that has a strategy, whatever its alpha, is among
    the rows its strategy's means are taken over; the operator-set
    summary aggregates every row of the table, whatever its strategy and
    alpha; and a row whose op_set is missing is kept under the group key
    "nan". *)
Theorem C10_rows_with_missing_cells (df : Frame) :
  let keyed := fun r => has_strategy r && has_alpha r in
  (Forall2 same_quality_row
     (Evaluator.quality_summary (filter keyed df)) (Evaluator.quality_summary df)
   /\ Forall2 same_quality_row
        (EvaluatorV2.quality_summary (filter keyed df))
        (EvaluatorV2.quality_summary df)
   /\ Forall2 same_vis_row
        (Evaluator.df_agg (filter keyed df)) (Evaluator.df_agg df)
   /\ Forall2 same_vis_row
        (EvaluatorV2.df_agg (filter keyed df)) (EvaluatorV2.df_agg df))
  /\ (Evaluator.efficiency_summary (filter has_strategy df)
      = Evaluator.efficiency_summary df
      /\ EvaluatorV2.efficiency_summary (filter has_strategy df)
         = EvaluatorV2.efficiency_summary df)
  /\ (forall r s, In r df -> strategy r = Some s ->
        In r (of_strategy s df)
        /\ lookup (Evaluator.efficiency_summary df) s
           = Some (Evaluator.with_performance_metric
                     (efficiency_agg (s, of_strategy s df)))
        /\ lookup (EvaluatorV2.efficiency_summary df) s
           = Some (EvaluatorV2.with_performance_metric
                     (efficiency_agg (s, of_strategy s df))))
  /\ (forall r, In r df ->
        exists row, In row (Evaluator.op_summary df)
                    /\ In row (EvaluatorV2.op_summary df)
                    /\ OpSet.index row = op_set_str r
                    /\ In r (of_op_set (OpSet.index row) df)
                    /\ OpSet.mean_obj row
                       = Agg.mean (map final_obj (of_op_set (OpSet.index row) df))
                    /\ OpSet.mean_time row
                       = Agg.mean (map total_time (of_op_set (OpSet.index row) df)))
  /\ (forall c s, Csv.op_set c = None ->
        Csv.strategy c = Some s -> F64.isnan (Csv.alpha c) = false ->
        op_set_str (with_op_set_str c) = "nan"
        /\ config_key (with_op_set_str c) = Some (s, Csv.alpha c, "nan")
        /\ (In (with_op_set_str c) df ->
            (exists row, In row (Evaluator.quality_summary df)
                         /\ config_eqb (Quality.index (Quality.cols row))
                                       (s, Csv.alpha c, "nan") = true)
            /\ (exists row, In row (EvaluatorV2.quality_summary df)
                            /\ config_eqb (Quality.index (Quality.cols row))
                                          (s, Csv.alpha c, "nan") = true))).
Proof.
  intros keyed. split; [| split; [| split; [| split]]].
  - split; [| split; [| split]].
    + exact (summary_excludes Evaluator.with_CV_obj true with_CV_obj_rel_v1 df).
    + exact (summary_excludes EvaluatorV2.with_CV_obj false
               with_CV_obj_rel_v2 df).
    + apply df_agg_excludes_v1.
    + apply df_agg_excludes_v2.
  - split.
    + apply (summary_strategy_dropna Evaluator.with_performance_metric).
    + apply (summary_strategy_dropna EvaluatorV2.with_performance_metric).
  - intros r s Hr Hs. split; [apply of_strategy_In; auto |]. split.
    + exact (lookup_present Evaluator.with_performance_metric
               (fun a => eq_refl) df s r Hr Hs).
    + exact (lookup_present EvaluatorV2.with_performance_metric
               (fun a => eq_refl) df s r Hr Hs).
  - intros r Hr. exists (op_set_agg (op_set_str r, of_op_set (op_set_str r) df)).
    assert (Hin : In (op_set_agg (op_set_str r, of_op_set (op_set_str r) df))
                     (Evaluator.op_summary df)).
    { apply op_summary_In. exists (op_set_str r). split; [eauto | reflexivity]. }
    split; [exact Hin |]. split; [exact Hin |]. split; [reflexivity |].
    split; [apply of_op_set_In; auto |]. split; reflexivity.
  - intros c s Hop Hs Ha.
    assert (Hk : config_key (with_op_set_str c) = Some (s, Csv.alpha c, "nan")).
    { unfold config_key, with_op_set_str; simpl. now rewrite Hs, Ha, Hop. }
    split; [unfold with_op_set_str; simpl; now rewrite Hop |].
    split; [exact Hk |]. intros Hin. split.
    + exact (summary_covers_source Evaluator.with_CV_obj true
               (fun a => eq_refl) df _ _ Hin Hk).
    + exact (summary_covers_source EvaluatorV2.with_CV_obj false
               (fun a => eq_refl) df _ _ Hin Hk).
Qed.

(** C10 on a row without op_set: it is grouped under "nan". *)
Lemma C10_missing_op_set_witness :
  op_set_str (with_op_set_str (csv_run (Some "X") one None (Some 1%Z) 10 1))
  = "nan"
  /\ exists row, In row (Evaluator.quality_summary missing_op_set)
                 /\ config_eqb (Quality.index (Quality.cols row))
                               ("X", one, "nan") = true.
Proof.
  pose proof
    (proj2 (proj2 (proj2 (proj2 (C10_rows_with_missing_cells missing_op_set))))
       (csv_run (Some "X") one None (Some 1%Z) 10 1) "X"
       eq_refl eq_refl eq_refl) as [Hstr [_ Hrow]].
  split; [exact Hstr |]. apply Hrow. left; reflexivity.
Defined.

(** * Further properties *)

(** X1.  The efficiency analyzer of [evaluator_v2.py] returns without
    error on every table, after printing both efficiency summaries. *)
Theorem X1_guarded_analyzer_always_returns (df : Frame) :
  outcome (EvaluatorV2.analyze_efficiency_and_tradeoff df) = inr tt
  /\ In (ShowEfficiency (EvaluatorV2.efficiency_report df) 2)
        (trace (EvaluatorV2.analyze_efficiency_and_tradeoff df))
  /\ In (ShowOpSet (EvaluatorV2.op_summary df) 2)
        (trace (EvaluatorV2.analyze_efficiency_and_tradeoff df)).
Proof.
  split; [apply analyze_efficiency_v2_returns | apply shows_summaries_v2].
Qed.

(** X2.  The efficiency analyzer of [evaluator.py] raises [KeyError] on
    every table in which no row has strategy "first", or none has
    strategy "best". *)
Theorem X2_unguarded_analyzer_raises (df : Frame) (s : string) :
  s = "first" \/ s = "best" ->
  (forall r, In r df -> strategy r <> Some s) ->
  exists label,
    outcome (Evaluator.analyze_efficiency_and_tradeoff df) = inl (KeyError label)
    /\ (label = "first" \/ label = "best").
Proof.
  intros Hs Hno. rewrite analyze_efficiency_v1.
  assert (Habs : lookup (Evaluator.efficiency_summary df) s = None).
  { apply (lookup_absent Evaluator.with_performance_metric); auto. }
  destruct (lookup (Evaluator.efficiency_summary df) "first") as [f |] eqn:Hf.
  - destruct Hs as [-> | ->]; [congruence |].
    rewrite (interpretation_v1_no_best _ f Hf Habs).
    exists "best"; split; [reflexivity | now right].
  - rewrite (interpretation_v1_no_first _ Hf).
    exists "first"; split; [reflexivity | now left].
Qed.

(** X2 on the empty table. *)
Lemma X2_empty_table_witness :
  exists label,
    outcome (Evaluator.analyze_efficiency_and_tradeoff []) = inl (KeyError label)
    /\ (label = "first" \/ label = "best").
Proof.
  apply (X2_unguarded_analyzer_raises [] "first").
  - left; reflexivity.
  - intros r [].
Defined.

(** X3.  On every table, each row of the quality summary has
    [CV_obj = std_obj / |mean_obj| * 100] in [evaluator_v2.py] and
    [CV_obj = std_obj / mean_obj * 100] in [evaluator.py]. *)
Theorem X3_cv_formula_of_each_variant (df : Frame) :
  Forall (fun row => Quality.CV_obj row
                     = F64.mul (F64.div (q_std_obj row)
                                        (F64.abs (q_mean_obj row))) hundred)
         (EvaluatorV2.quality_summary df)
  /\ Forall (fun row => Quality.CV_obj row
                        = F64.mul (F64.div (q_std_obj row) (q_mean_obj row))
                                  hundred)
            (Evaluator.quality_summary df).
Proof.
  split; apply Forall_forall; intros row Hin.
  - exact (cv_obj_v2 df row Hin).
  - exact (cv_obj_v1 df row Hin).
Qed.

(** Scenario A as a worked example.  Three seeds of one configuration
    with objectives 10, 20, 30 give, in both variants, a quality summary
    of one row with [mean_obj = 20], [std_obj = 10], [num_runs = 3] and
    [CV_obj = 50]. *)
Example scenario_A_summary :
  map (fun r => (q_mean_obj r, q_std_obj r,
                 Quality.num_runs (Quality.cols r), Quality.CV_obj r))
      (Evaluator.quality_summary scenario_A)
  = [ (F64.of_Z 20, F64.of_Z 10, 3, F64.of_Z 50) ]
  /\ map (fun r => (q_mean_obj r, q_std_obj r,
                    Quality.num_runs (Quality.cols r), Quality.CV_obj r))
         (EvaluatorV2.quality_summary scenario_A)
     = [ (F64.of_Z 20, F64.of_Z 10, 3, F64.of_Z 50) ].
Proof. split; vm_compute; reflexivity. Qed.

(** X5.  On a table in which every row lacks its strategy or its alpha
    (the empty table included), the quality analyzer of either variant
    prints an empty ranking and raises [IndexError] when it looks up the
    best configuration. *)
Theorem X5_quality_analyzer_needs_a_group (df : Frame) :
  filter (fun r => has_strategy r && has_alpha r) df = [] ->
  outcome (Evaluator.analyze_quality_and_robustness df) = inl IndexError
  /\ outcome (EvaluatorV2.analyze_quality_and_robustness df) = inl IndexError
  /\ In (ShowQuality [] 2) (trace (Evaluator.analyze_quality_and_robustness df))
  /\ In (ShowQuality [] 2) (trace (EvaluatorV2.analyze_quality_and_robustness df)).
Proof.
  intros Hnone.
  assert (H1 : Evaluator.quality_summary df = []).
  { exact (summary_empty Evaluator.with_CV_obj true df Hnone). }
  assert (H2 : EvaluatorV2.quality_summary df = []).
  { exact (summary_empty EvaluatorV2.with_CV_obj false df Hnone). }
  unfold Evaluator.analyze_quality_and_robustness,
    EvaluatorV2.analyze_quality_and_robustness.
  rewrite H1, H2. cbn. repeat split; tauto.
Qed.

(** X5 on the table whose only row has no strategy. *)
Lemma X5_missing_strategy_witness :
  outcome (Evaluator.analyze_quality_and_robustness missing_strategy)
  = inl IndexError.
Proof.
  exact (proj1 (X5_quality_analyzer_needs_a_group missing_strategy eq_refl)).
Defined.

(** X6.  On a table with at least one row whose strategy and alpha are
    both present, the quality analyzer of either variant prints the first
    fifteen rows of the quality summary and returns the whole summary. *)
Theorem X6_quality_analyzer_returns_summary (df : Frame) (r : Run) :
  In r df -> has_strategy r = true -> has_alpha r = true ->
  (outcome (Evaluator.analyze_quality_and_robustness df)
   = inr (Evaluator.quality_summary df)
   /\ In (ShowQuality (firstn 15 (Evaluator.quality_summary df)) 2)
         (trace (Evaluator.analyze_quality_and_robustness df)))
  /\ (outcome (EvaluatorV2.analyze_quality_and_robustness df)
      = inr (EvaluatorV2.quality_summary df)
      /\ In (ShowQuality (firstn 15 (EvaluatorV2.quality_summary df)) 2)
            (trace (EvaluatorV2.analyze_quality_and_robustness df))).
Proof.
  intros Hin Hs Ha.
  assert (Hk : exists k, config_key r = Some k).
  { unfold config_key, has_strategy, has_alpha in *.
    destruct (strategy r); [| discriminate].
    destruct (F64.isnan (alpha r)); [discriminate | eauto]. }
  destruct Hk as [k Hk]. split.
  - destruct (summary_covers_source Evaluator.with_CV_obj true
                (fun a => eq_refl) df r k Hin Hk) as [row [Hrow _]].
    unfold Evaluator.analyze_quality_and_robustness.
    change (In row (Evaluator.quality_summary df)) in Hrow.
    destruct (Evaluator.quality_summary df) as [| top rest]; [destruct Hrow |].
    cbn. split; [reflexivity | tauto].
  - destruct (summary_covers_source EvaluatorV2.with_CV_obj false
                (fun a => eq_refl) df r k Hin Hk) as [row [Hrow _]].
    unfold EvaluatorV2.analyze_quality_and_robustness.
    change (In row (EvaluatorV2.quality_summary df)) in Hrow.
    destruct (EvaluatorV2.quality_summary df) as [| top rest]; [destruct Hrow |].
    cbn. split; [reflexivity | tauto].
Qed.

(** X6 on the table of scenario A. *)
Lemma X6_scenario_A_witness :
  outcome (Evaluator.analyze_quality_and_robustness scenario_A)
  = inr (Evaluator.quality_summary scenario_A).
Proof.
  exact (proj1 (proj1
    (X6_quality_analyzer_returns_summary scenario_A
       (run (Some "X") one (Some "[a]") (Some 1%Z) 10 1)
       (or_introl eq_refl) eq_refl eq_refl))).
Defined.

(** ** The stages and their composition *)

Lemma bind_returns {A B : Type} (m : M A) (f : A -> M B) (a : A) :
  outcome m = inr a -> bind m f = (trace m ++ trace (f a), outcome (f a)).
Proof.
  destruct m as [t [e | a']]; unfold outcome, trace; cbn [fst snd].
  - discriminate.
  - intros [= ->]. unfold bind. destruct (f a) as [t' r]. reflexivity.
Qed.

Lemma bind_raises {A B : Type} (m : M A) (f : A -> M B) (e : exn) :
  outcome m = inl e -> bind m f = (trace m, inl e).
Proof.
  destruct m as [t [e' | a]]; unfold outcome, trace; cbn [fst snd].
  - intros [= ->]. reflexivity.
  - discriminate.
Qed.

(** The quality analyzer, by cases on its summary. *)
Lemma analyze_quality_v1 (df : Frame) :
  Evaluator.analyze_quality_and_robustness df =
  ([ Say (nl ++ rule);
     Say "🏆 Step 1: Quality (Mean Objective) and Robustness (Std Dev)";
     Say rule;
     Say (nl ++ "--- Summary Ranked by Mean Final Objective (Lowest is Best) ---");
     ShowQuality (firstn 15 (Evaluator.quality_summary df)) 2;
     Say (nl ++ "--- Interpretation ---") ]
     ++ match Evaluator.quality_summary df with
        | [] => []
        | top :: _ =>
            [ SayBestConfig (Quality.index (Quality.cols top));
              SayBestScores (q_mean_obj top) (Quality.CV_obj top) ]
        end,
   match Evaluator.quality_summary df with
   | [] => inl IndexError
   | _ :: _ => inr (Evaluator.quality_summary df)
   end).
Proof.
  unfold Evaluator.analyze_quality_and_robustness.
  destruct (Evaluator.quality_summary df) as [| top rest]; reflexivity.
Qed.

Lemma analyze_quality_v2 (df : Frame) :
  EvaluatorV2.analyze_quality_and_robustness df =
  ([ Say (nl ++ rule);
     Say "🏆 Step 1: Quality (Mean Objective - Higher is Better) and Robustness (Std Dev)";
     Say rule;
     Say (nl ++ "--- Summary Ranked by Mean Final Objective (Highest is Best) ---");
     ShowQuality (firstn 15 (EvaluatorV2.quality_summary df)) 2;
     Say (nl ++ "--- Interpretation ---") ]
     ++ match EvaluatorV2.quality_summary df with
        | [] => []
        | top :: _ =>
            [ SayBestConfig (Quality.index (Quality.cols top));
              SayBestScores (q_mean_obj top) (Quality.CV_obj top) ]
        end,
   match EvaluatorV2.quality_summary df with
   | [] => inl IndexError
   | _ :: _ => inr (EvaluatorV2.quality_summary df)
   end).
Proof.
  unfold EvaluatorV2.analyze_quality_and_robustness.
  destruct (EvaluatorV2.quality_summary df) as [| top rest]; reflexivity.
Qed.

Lemma keyed_config_key (r : Run) :
  keyed r = true -> exists k, config_key r = Some k.
Proof.
  unfold keyed, config_key, has_strategy, has_alpha.
  destruct (strategy r); [| discriminate].
  destruct (F64.isnan (alpha r)); [discriminate | eauto].
Qed.

Lemma quality_summary_nonempty_v1 (df : Frame) (r : Run) :
  In r df -> keyed r = true -> Evaluator.quality_summary df <> [].
Proof.
  intros Hin Hk. destruct (keyed_config_key r Hk) as [k Hkey].
  destruct (summary_covers_source Evaluator.with_CV_obj true
              (fun a => eq_refl) df r k Hin Hkey) as [row [Hrow _]].
  change (In row (Evaluator.quality_summary df)) in Hrow.
  intros Hnil. rewrite Hnil in Hrow. destruct Hrow.
Qed.

Lemma quality_summary_nonempty_v2 (df : Frame) (r : Run) :
  In r df -> keyed r = true -> EvaluatorV2.quality_summary df <> [].
Proof.
  intros Hin Hk. destruct (keyed_config_key r Hk) as [k Hkey].
  destruct (summary_covers_source EvaluatorV2.with_CV_obj false
              (fun a => eq_refl) df r k Hin Hkey) as [row [Hrow _]].
  change (In row (EvaluatorV2.quality_summary df)) in Hrow.
  intros Hnil. rewrite Hnil in Hrow. destruct Hrow.
Qed.

Lemma quality_summary_empty_v1 (df : Frame) :
  filter keyed df = [] -> Evaluator.quality_summary df = [].
Proof.
  intros Hnone. exact (summary_empty Evaluator.with_CV_obj true df Hnone).
Qed.

Lemma quality_summary_empty_v2 (df : Frame) :
  filter keyed df = [] -> EvaluatorV2.quality_summary df = [].
Proof.
  intros Hnone. exact (summary_empty EvaluatorV2.with_CV_obj false df Hnone).
Qed.

Lemma quality_returns_v1 (df : Frame) (r : Run) :
  In r df -> keyed r = true ->
  outcome (Evaluator.analyze_quality_and_robustness df)
  = inr (Evaluator.quality_summary df).
Proof.
  intros Hin Hk. pose proof (quality_summary_nonempty_v1 df r Hin Hk) as Hne.
  rewrite analyze_quality_v1.
  destruct (Evaluator.quality_summary df); [congruence | reflexivity].
Qed.

Lemma quality_returns_v2 (df : Frame) (r : Run) :
  In r df -> keyed r = true ->
  outcome (EvaluatorV2.analyze_quality_and_robustness df)
  = inr (EvaluatorV2.quality_summary df).
Proof.
  intros Hin Hk. pose proof (quality_summary_nonempty_v2 df r Hin Hk) as Hne.
  rewrite analyze_quality_v2.
  destruct (EvaluatorV2.quality_summary df); [congruence | reflexivity].
Qed.

Lemma efficiency_returns_v1 (df : Frame) (rf rb : Run) :
  In rf df -> strategy rf = Some "first" ->
  In rb df -> strategy rb = Some "best" ->
  outcome (Evaluator.analyze_efficiency_and_tradeoff df) = inr tt.
Proof.
  intros Hf Hsf Hb Hsb.
  destruct (lookup_strategy_v1 df "first" rf Hf Hsf) as [f [Hlf _]].
  destruct (lookup_strategy_v1 df "best" rb Hb Hsb) as [b [Hlb _]].
  rewrite analyze_efficiency_v1, (interpretation_v1_both _ f b Hlf Hlb).
  destruct (F64.ltb (e_mean_time f) (e_mean_time b)); reflexivity.
Qed.

(** The visualisation stage is straight-line code. *)
Lemma visualize_v1 (df : Frame) :
  Evaluator.visualize_results df =
  ([ Say (nl ++ rule);
     Say "📈 Step 3: Visualization";
     Say rule;
     Barplot (Evaluator.df_agg df) "alpha" "mean_obj" "strategy";
     Barplot (Evaluator.df_agg df) "alpha" "mean_time" "strategy";
     PltShow;
     Say "Visualization plots generated." ],
   inr tt).
Proof. reflexivity. Qed.

Lemma visualize_v2 (df : Frame) :
  EvaluatorV2.visualize_results df =
  ([ Say (nl ++ rule);
     Say "📈 Step 3: Visualization";
     Say rule;
     Barplot (EvaluatorV2.df_agg df) "alpha" "mean_obj" "strategy";
     Barplot (EvaluatorV2.df_agg df) "alpha" "mean_time" "strategy";
     Barplot (sort_values EvaluatorV2.v_performance_metric false
                (EvaluatorV2.df_agg df))
             "performance_metric" "strategy" "alpha";
     PltShow;
     Say "Visualization plots generated." ],
   inr tt).
Proof. reflexivity. Qed.

Lemma load_present_v2 (fs : FileSystem) (path : string) (csv : list Csv.row) :
  fs path = Some csv ->
  EvaluatorV2.load_and_prepare_data fs path =
  ([ Say ("Loading results from " ++ path ++ "...");
     SayLoaded (List.length csv) ],
   inr (Some (map with_op_set_str csv))).
Proof.
  intros H. unfold EvaluatorV2.load_and_prepare_data. rewrite H.
  unfold bind, print, ret. simpl. now rewrite length_map.
Qed.

Lemma load_missing_v2 (fs : FileSystem) (path : string) :
  fs path = None ->
  EvaluatorV2.load_and_prepare_data fs path =
  ([ Say ("Loading results from " ++ path ++ "...");
     Say ("Error: File not found at " ++ path) ],
   inr None).
Proof.
  intros H. unfold EvaluatorV2.load_and_prepare_data. rewrite H. reflexivity.
Qed.

(** [main_analysis] on a file that exists: the stages run in order and
    the first exception ends the run. *)
Lemma main_v1_loaded (fs : FileSystem) (csv : list Csv.row) :
  fs RESULTS_FILE = Some csv ->
  Evaluator.main_analysis fs =
  let df := map with_op_set_str csv in
  let loaded := trace (Evaluator.load_and_prepare_data fs RESULTS_FILE) in
  let q := Evaluator.analyze_quality_and_robustness df in
  let e := Evaluator.analyze_efficiency_and_tradeoff df in
  let v := Evaluator.visualize_results df in
  match outcome q with
  | inl x => (loaded ++ trace q, inl x)
  | inr _ =>
      match outcome e with
      | inl x => (loaded ++ trace q ++ trace e, inl x)
      | inr _ => (loaded ++ trace q ++ trace e ++ trace v ++ closing_v1, inr tt)
      end
  end.
Proof.
  intros H. unfold Evaluator.main_analysis.
  rewrite (load_present fs RESULTS_FILE csv H). cbv zeta.
  rewrite visualize_v1.
  unfold bind at 1. cbn [trace outcome fst snd].
  destruct (Evaluator.analyze_quality_and_robustness (map with_op_set_str csv))
    as [tq [x | q]]; [reflexivity |].
  unfold bind at 1.
  destruct (Evaluator.analyze_efficiency_and_tradeoff (map with_op_set_str csv))
    as [te [x | []]]; [reflexivity |].
  cbn. rewrite <- ?app_assoc. reflexivity.
Qed.

Lemma main_v2_loaded (fs : FileSystem) (csv : list Csv.row) :
  fs RESULTS_FILE = Some csv ->
  EvaluatorV2.main_analysis fs =
  let df := map with_op_set_str csv in
  let loaded := trace (EvaluatorV2.load_and_prepare_data fs RESULTS_FILE) in
  let q := EvaluatorV2.analyze_quality_and_robustness df in
  let e := EvaluatorV2.analyze_efficiency_and_tradeoff df in
  let v := EvaluatorV2.visualize_results df in
  match outcome q with
  | inl x => (loaded ++ trace q, inl x)
  | inr _ =>
      match outcome e with
      | inl x => (loaded ++ trace q ++ trace e, inl x)
      | inr _ => (loaded ++ trace q ++ trace e ++ trace v ++ closing_v2, inr tt)
      end
  end.
Proof.
  intros H. unfold EvaluatorV2.main_analysis.
  rewrite (load_present_v2 fs RESULTS_FILE csv H). cbv zeta.
  rewrite visualize_v2.
  unfold bind at 1. cbn [trace outcome fst snd].
  destruct (EvaluatorV2.analyze_quality_and_robustness (map with_op_set_str csv))
    as [tq [x | q]]; [reflexivity |].
  unfold bind at 1.
  destruct (EvaluatorV2.analyze_efficiency_and_tradeoff (map with_op_set_str csv))
    as [te [x | []]]; [reflexivity |].
  cbn. rewrite <- ?app_assoc. reflexivity.
Qed.

Lemma quality_trace_v1_plain (df : Frame) :
  forallb (fun e => negb (is_plot e) && negb (is_completion e))
    (trace (Evaluator.analyze_quality_and_robustness df)) = true.
Proof.
  rewrite analyze_quality_v1.
  destruct (Evaluator.quality_summary df); reflexivity.
Qed.

(** X7.  In [evaluator.py], when the results file exists and its table
    has a row with strategy and alpha present, a row of strategy "first"
    and a row of strategy "best", [main_analysis] returns normally and its
    output is, in this order, that of the loader, of the quality analyzer,
    of the efficiency analyzer and of the visualisation, followed by the
    five closing lines. *)
Theorem X7_main_runs_the_stages_in_order
    (fs : FileSystem) (csv : list Csv.row) (r rf rb : Run) :
  fs RESULTS_FILE = Some csv ->
  In r (map with_op_set_str csv) -> keyed r = true ->
  In rf (map with_op_set_str csv) -> strategy rf = Some "first" ->
  In rb (map with_op_set_str csv) -> strategy rb = Some "best" ->
  outcome (Evaluator.main_analysis fs) = inr tt
  /\ trace (Evaluator.main_analysis fs)
     = trace (Evaluator.load_and_prepare_data fs RESULTS_FILE)
       ++ trace (Evaluator.analyze_quality_and_robustness
                   (map with_op_set_str csv))
       ++ trace (Evaluator.analyze_efficiency_and_tradeoff
                   (map with_op_set_str csv))
       ++ trace (Evaluator.visualize_results (map with_op_set_str csv))
       ++ closing_v1.
Proof.
  intros Hfs Hr Hk Hf Hsf Hb Hsb.
  rewrite (main_v1_loaded fs csv Hfs). cbv zeta.
  rewrite (quality_returns_v1 _ r Hr Hk),
    (efficiency_returns_v1 _ rf rb Hf Hsf Hb Hsb).
  split; reflexivity.
Qed.

(** X7 on the file of scenario B. *)
Lemma X7_scenario_B_file_witness :
  outcome (Evaluator.main_analysis (file_of csv_B)) = inr tt.
Proof.
  refine (proj1
    (X7_main_runs_the_stages_in_order (file_of csv_B) csv_B
       (run (Some "first") one (Some "[a]") (Some 1%Z) 100 1)
       (run (Some "first") one (Some "[a]") (Some 1%Z) 100 1)
       (run (Some "best") one (Some "[a]") (Some 1%Z) 90 5)
       eq_refl _ eq_refl _ eq_refl _ eq_refl)).
  - left; reflexivity.
  - left; reflexivity.
  - right; left; reflexivity.
Defined.

(** X8.  In both files, when the results file exists but no row of its
    table has both strategy and alpha (an empty table included),
    [main_analysis] ends with [IndexError] raised by the quality
    analyzer.  Its output is that of the loader followed by that of the
    quality analyzer, which prints the banner of step 1, an empty
    ranking and the header of the interpretation, and nothing else:
    nothing of the efficiency or visualisation stage is printed, and the
    run is not announced as complete. *)
Theorem X8_main_stops_at_an_empty_ranking
    (fs : FileSystem) (csv : list Csv.row) :
  fs RESULTS_FILE = Some csv ->
  filter keyed (map with_op_set_str csv) = [] ->
  (outcome (Evaluator.main_analysis fs) = inl IndexError
   /\ trace (Evaluator.main_analysis fs)
      = trace (Evaluator.load_and_prepare_data fs RESULTS_FILE)
        ++ trace (Evaluator.analyze_quality_and_robustness
                    (map with_op_set_str csv))
   /\ trace (Evaluator.analyze_quality_and_robustness (map with_op_set_str csv))
      = [ Say (nl ++ rule);
          Say "🏆 Step 1: Quality (Mean Objective) and Robustness (Std Dev)";
          Say rule;
          Say (nl ++ "--- Summary Ranked by Mean Final Objective (Lowest is Best) ---");
          ShowQuality [] 2;
          Say (nl ++ "--- Interpretation ---") ])
  /\ (outcome (EvaluatorV2.main_analysis fs) = inl IndexError
      /\ trace (EvaluatorV2.main_analysis fs)
         = trace (EvaluatorV2.load_and_prepare_data fs RESULTS_FILE)
           ++ trace (EvaluatorV2.analyze_quality_and_robustness
                       (map with_op_set_str csv))
      /\ trace (EvaluatorV2.analyze_quality_and_robustness
                  (map with_op_set_str csv))
         = [ Say (nl ++ rule);
             Say "🏆 Step 1: Quality (Mean Objective - Higher is Better) and Robustness (Std Dev)";
             Say rule;
             Say (nl ++ "--- Summary Ranked by Mean Final Objective (Highest is Best) ---");
             ShowQuality [] 2;
             Say (nl ++ "--- Interpretation ---") ]).
Proof.
  intros Hfs Hnone. split.
  - assert (Hq : Evaluator.analyze_quality_and_robustness
                   (map with_op_set_str csv)
                 = ([ Say (nl ++ rule);
                      Say "🏆 Step 1: Quality (Mean Objective) and Robustness (Std Dev)";
                      Say rule;
                      Say (nl ++ "--- Summary Ranked by Mean Final Objective (Lowest is Best) ---");
                      ShowQuality [] 2;
                      Say (nl ++ "--- Interpretation ---") ],
                    inl IndexError)).
    { rewrite analyze_quality_v1, (quality_summary_empty_v1 _ Hnone).
      reflexivity. }
    rewrite (main_v1_loaded fs csv Hfs). cbv zeta. rewrite Hq.
    repeat split.
  - assert (Hq : EvaluatorV2.analyze_quality_and_robustness
                   (map with_op_set_str csv)
                 = ([ Say (nl ++ rule);
                      Say "🏆 Step 1: Quality (Mean Objective - Higher is Better) and Robustness (Std Dev)";
                      Say rule;
                      Say (nl ++ "--- Summary Ranked by Mean Final Objective (Highest is Best) ---");
                      ShowQuality [] 2;
                      Say (nl ++ "--- Interpretation ---") ],
                    inl IndexError)).
    { rewrite analyze_quality_v2, (quality_summary_empty_v2 _ Hnone).
      reflexivity. }
    rewrite (main_v2_loaded fs csv Hfs). cbv zeta. rewrite Hq.
    repeat split.
Qed.

(** X8 on a file whose only row has no strategy. *)
Lemma X8_keyless_file_witness :
  outcome (Evaluator.main_analysis (file_of csv_keyless)) = inl IndexError
  /\ outcome (EvaluatorV2.main_analysis (file_of csv_keyless)) = inl IndexError.
Proof.
  destruct (X8_main_stops_at_an_empty_ranking (file_of csv_keyless) csv_keyless
              eq_refl eq_refl) as [[H1 _] [H2 _]].
  split; assumption.
Defined.

(** X9.  In [evaluator.py], when the table has a row with strategy and
    alpha but no row of strategy "first", or none of strategy "best",
    [main_analysis] ends with [KeyError] for one of the two labels after
    the quality and efficiency summaries are printed: no chart is drawn
    and the run is not announced as complete. *)
Theorem X9_main_stops_at_a_missing_baseline
    (fs : FileSystem) (csv : list Csv.row) (r : Run) (s : string) :
  fs RESULTS_FILE = Some csv ->
  In r (map with_op_set_str csv) -> keyed r = true ->
  s = "first" \/ s = "best" ->
  (forall r', In r' (map with_op_set_str csv) -> strategy r' <> Some s) ->
  exists label,
    (label = "first" \/ label = "best")
    /\ outcome (Evaluator.main_analysis fs) = inl (KeyError label)
    /\ trace (Evaluator.main_analysis fs)
       = trace (Evaluator.load_and_prepare_data fs RESULTS_FILE)
         ++ trace (Evaluator.analyze_quality_and_robustness
                     (map with_op_set_str csv))
         ++ trace (Evaluator.analyze_efficiency_and_tradeoff
                     (map with_op_set_str csv))
    /\ forallb (fun e => negb (is_plot e) && negb (is_completion e))
         (trace (Evaluator.main_analysis fs)) = true.
Proof.
  intros Hfs Hr Hk Hs Hno.
  set (df := map with_op_set_str csv) in *.
  assert (Habs : lookup (Evaluator.efficiency_summary df) s = None).
  { apply (lookup_absent Evaluator.with_performance_metric); auto. }
  assert (Hint : exists label, (label = "first" \/ label = "best")
            /\ Evaluator.interpretation (Evaluator.efficiency_summary df)
               = ([], inl (KeyError label))).
  { destruct (lookup (Evaluator.efficiency_summary df) "first") as [f |] eqn:Hf.
    - destruct Hs as [-> | ->]; [congruence |].
      exists "best". split; [now right |].
      exact (interpretation_v1_no_best _ f Hf Habs).
    - exists "first". split; [now left |].
      exact (interpretation_v1_no_first _ Hf). }
  destruct Hint as [label [Hlabel Hint]]. exists label.
  split; [exact Hlabel |].
  assert (He : outcome (Evaluator.analyze_efficiency_and_tradeoff df)
               = inl (KeyError label)).
  { rewrite analyze_efficiency_v1, Hint. reflexivity. }
  assert (Hte : forallb (fun e => negb (is_plot e) && negb (is_completion e))
                  (trace (Evaluator.analyze_efficiency_and_tradeoff df)) = true).
  { rewrite analyze_efficiency_v1, Hint. reflexivity. }
  assert (Htq : forallb (fun e => negb (is_plot e) && negb (is_completion e))
                  (trace (Evaluator.analyze_quality_and_robustness df)) = true).
  { exact (quality_trace_v1_plain df). }
  assert (Htl : forallb (fun e => negb (is_plot e) && negb (is_completion e))
                  (trace (Evaluator.load_and_prepare_data fs RESULTS_FILE))
                = true).
  { rewrite (load_present fs RESULTS_FILE csv Hfs). reflexivity. }
  rewrite (main_v1_loaded fs csv Hfs). cbv zeta. fold df.
  rewrite (quality_returns_v1 df r Hr Hk), He.
  split; [reflexivity |]. split; [reflexivity |].
  change (forallb (fun e => negb (is_plot e) && negb (is_completion e))
            (trace (Evaluator.load_and_prepare_data fs RESULTS_FILE)
             ++ trace (Evaluator.analyze_quality_and_robustness df)
             ++ trace (Evaluator.analyze_efficiency_and_tradeoff df)) = true).
  now rewrite !forallb_app, Htl, Htq, Hte.
Qed.

(** X9 on the file of scenario C. *)
Lemma X9_scenario_C_file_witness :
  exists label,
    (label = "first" \/ label = "best")
    /\ outcome (Evaluator.main_analysis (file_of csv_C)) = inl (KeyError label).
Proof.
  destruct (X9_main_stops_at_a_missing_baseline (file_of csv_C) csv_C
              (run (Some "first") one (Some "[a]") (Some 1%Z) 100 1) "best"
              eq_refl (or_introl eq_refl) eq_refl (or_intror eq_refl))
    as [label [Hl [Hout _]]].
  - intros r' [<- | []]. discriminate.
  - exists label. split; assumption.
Defined.

(** X10.  In [evaluator_v2.py], when the results file exists and its
    table has a row with strategy and alpha present, [main_analysis]
    returns normally whatever strategies the table holds: all three
    stages run in order, the charts are shown and the closing lines are
    printed. *)
Theorem X10_guarded_main_completes
    (fs : FileSystem) (csv : list Csv.row) (r : Run) :
  fs RESULTS_FILE = Some csv ->
  In r (map with_op_set_str csv) -> keyed r = true ->
  outcome (EvaluatorV2.main_analysis fs) = inr tt
  /\ trace (EvaluatorV2.main_analysis fs)
     = trace (EvaluatorV2.load_and_prepare_data fs RESULTS_FILE)
       ++ trace (EvaluatorV2.analyze_quality_and_robustness
                   (map with_op_set_str csv))
       ++ trace (EvaluatorV2.analyze_efficiency_and_tradeoff
                   (map with_op_set_str csv))
       ++ trace (EvaluatorV2.visualize_results (map with_op_set_str csv))
       ++ closing_v2
  /\ In PltShow (trace (EvaluatorV2.main_analysis fs)).
Proof.
  intros Hfs Hr Hk.
  rewrite (main_v2_loaded fs csv Hfs). cbv zeta.
  rewrite (quality_returns_v2 _ r Hr Hk), analyze_efficiency_v2_returns.
  split; [reflexivity |]. split; [reflexivity |].
  unfold trace at 1; cbn [fst].
  rewrite !in_app_iff. right; right; right; left.
  rewrite visualize_v2. unfold trace; cbn [fst]. simpl. tauto.
Qed.

(** X10 on the file of scenario C, which has no "best" row. *)
Lemma X10_scenario_C_file_witness :
  outcome (EvaluatorV2.main_analysis (file_of csv_C)) = inr tt.
Proof.
  refine (proj1
    (X10_guarded_main_completes (file_of csv_C) csv_C
       (run (Some "first") one (Some "[a]") (Some 1%Z) 100 1)
       eq_refl _ eq_refl)).
  left; reflexivity.
Defined.

(** X11.  The loader and the missing-file exit of [evaluator_v2.py]
    behave as those of [evaluator.py]: a missing file yields [None] and
    a run that prints the two loader lines only; an existing file yields
    its rows in order, each with [op_set_str] rendered from [op_set],
    after announcing their number. *)
Theorem X11_second_loader_contract (fs : FileSystem) (path : string) :
  EvaluatorV2.load_and_prepare_data fs path
  = Evaluator.load_and_prepare_data fs path
  /\ (fs path = None ->
      EvaluatorV2.load_and_prepare_data fs path =
      ([ Say ("Loading results from " ++ path ++ "...");
         Say ("Error: File not found at " ++ path) ],
       inr None))
  /\ (fs RESULTS_FILE = None ->
      EvaluatorV2.main_analysis fs
      = (trace (EvaluatorV2.load_and_prepare_data fs RESULTS_FILE), inr tt))
  /\ (forall csv, fs path = Some csv ->
      EvaluatorV2.load_and_prepare_data fs path
      = ([ Say ("Loading results from " ++ path ++ "...");
           SayLoaded (List.length csv) ],
         inr (Some (map with_op_set_str csv)))
      /\ map to_csv (map with_op_set_str csv) = csv
      /\ Forall (fun r => op_set_str r = astype_str (op_set r))
                (map with_op_set_str csv)).
Proof.
  split; [reflexivity |]. split; [apply load_missing_v2 |]. split.
  - intros H. unfold EvaluatorV2.main_analysis.
    rewrite (load_missing_v2 fs RESULTS_FILE H). reflexivity.
  - intros csv H. split; [apply load_present_v2, H |].
    split; [apply to_csv_with_op_set_str |].
    apply Forall_forall. intros r Hin.
    apply in_map_iff in Hin. destruct Hin as [c [<- _]]. reflexivity.
Qed.

(** X11 without the file and with it. *)
Lemma X11_second_loader_witness :
  EvaluatorV2.main_analysis no_file
  = (trace (EvaluatorV2.load_and_prepare_data no_file RESULTS_FILE), inr tt)
  /\ map to_csv (map with_op_set_str csv_B) = csv_B.
Proof.
  split.
  - exact (proj1 (proj2 (proj2 (X11_second_loader_contract no_file RESULTS_FILE)))
             eq_refl).
  - exact (proj1 (proj2
             (proj2 (proj2 (proj2
                (X11_second_loader_contract (file_of csv_B) RESULTS_FILE)))
                csv_B eq_refl))).
Defined.

(** ** The headline of the quality analyzer *)

Lemma ltb_irrefl (x : float) : F64.ltb x x = false.
Proof.
  destruct (F64.isnan x) eqn:Hx.
  - apply isnan_true in Hx; subst; reflexivity.
  - unfold F64.ltb, SFltb. rewrite (compare_rank x x Hx Hx), lexcmp_refl.
    reflexivity.
Qed.

Lemma quality_sorted_v1 (df : Frame) :
  StronglySorted (fun r1 r2 => ascending (q_mean_obj r1) (q_mean_obj r2))
    (Evaluator.quality_summary df).
Proof.
  unfold Evaluator.quality_summary.
  eapply StronglySorted_map; [| apply sort_values_asc_sorted].
  intros x y H; exact H.
Qed.

Lemma quality_sorted_v2 (df : Frame) :
  StronglySorted (fun r1 r2 => descending (q_mean_obj r1) (q_mean_obj r2))
    (EvaluatorV2.quality_summary df).
Proof.
  unfold EvaluatorV2.quality_summary.
  eapply StronglySorted_map; [| apply sort_values_desc_sorted].
  intros x y H; exact H.
Qed.

Lemma ascending_head (a b : float) :
  ascending a b ->
  F64.ltb b a = false /\ (F64.isnan b = false -> F64.isnan a = false).
Proof.
  intros [Hb | [Ha Hle]].
  - apply isnan_true in Hb; subst. split; [apply ltb_nan_l | discriminate].
  - split; [now apply leb_not_ltb | auto].
Qed.

Lemma descending_head (a b : float) :
  descending a b ->
  F64.ltb a b = false /\ (F64.isnan b = false -> F64.isnan a = false).
Proof.
  intros [Hb | [Ha Hle]].
  - apply isnan_true in Hb; subst. split; [apply ltb_nan_r | discriminate].
  - split; [now apply leb_not_ltb | auto].
Qed.

(** X12.  On a table with a row whose strategy and alpha are present,
    the configuration that the quality analyzer announces as best is the
    first row of its ranking, and it is an optimum: in [evaluator.py] no
    configuration has a smaller mean objective, in [evaluator_v2.py] none
    has a larger one; its mean is defined as soon as that of any
    configuration is. *)
Theorem X12_announced_best_is_the_optimum (df : Frame) (r : Run) :
  In r df -> keyed r = true ->
  (exists top rest,
     Evaluator.quality_summary df = top :: rest
     /\ In (SayBestConfig (Quality.index (Quality.cols top)))
           (trace (Evaluator.analyze_quality_and_robustness df))
     /\ In (SayBestScores (q_mean_obj top) (Quality.CV_obj top))
           (trace (Evaluator.analyze_quality_and_robustness df))
     /\ forall row, In row (Evaluator.quality_summary df) ->
          F64.ltb (q_mean_obj row) (q_mean_obj top) = false
          /\ (F64.isnan (q_mean_obj row) = false ->
              F64.isnan (q_mean_obj top) = false))
  /\ (exists top rest,
        EvaluatorV2.quality_summary df = top :: rest
        /\ In (SayBestConfig (Quality.index (Quality.cols top)))
              (trace (EvaluatorV2.analyze_quality_and_robustness df))
        /\ In (SayBestScores (q_mean_obj top) (Quality.CV_obj top))
              (trace (EvaluatorV2.analyze_quality_and_robustness df))
        /\ forall row, In row (EvaluatorV2.quality_summary df) ->
             F64.ltb (q_mean_obj top) (q_mean_obj row) = false
             /\ (F64.isnan (q_mean_obj row) = false ->
                 F64.isnan (q_mean_obj top) = false)).
Proof.
  intros Hin Hk. split.
  - pose proof (quality_summary_nonempty_v1 df r Hin Hk) as Hne.
    pose proof (quality_sorted_v1 df) as Hs.
    rewrite analyze_quality_v1.
    destruct (Evaluator.quality_summary df) as [| top rest]; [congruence |].
    exists top, rest. split; [reflexivity |].
    unfold trace; cbn [fst].
    split; [simpl; tauto |]. split; [simpl; tauto |].
    intros row [<- | Hrow].
    + split; [apply ltb_irrefl | auto].
    + inversion Hs as [| x l _ Hall]; subst.
      rewrite Forall_forall in Hall. apply ascending_head, Hall, Hrow.
  - pose proof (quality_summary_nonempty_v2 df r Hin Hk) as Hne.
    pose proof (quality_sorted_v2 df) as Hs.
    rewrite analyze_quality_v2.
    destruct (EvaluatorV2.quality_summary df) as [| top rest]; [congruence |].
    exists top, rest. split; [reflexivity |].
    unfold trace; cbn [fst].
    split; [simpl; tauto |]. split; [simpl; tauto |].
    intros row [<- | Hrow].
    + split; [apply ltb_irrefl | auto].
    + inversion Hs as [| x l _ Hall]; subst.
      rewrite Forall_forall in Hall. apply descending_head, Hall, Hrow.
Qed.

(** X12 on scenario B: the two configurations have means 100 and 90. *)
Lemma X12_scenario_B_witness :
  exists top rest,
    Evaluator.quality_summary scenario_B = top :: rest
    /\ forall row, In row (Evaluator.quality_summary scenario_B) ->
         F64.ltb (q_mean_obj row) (q_mean_obj top) = false.
Proof.
  destruct (proj1 (X12_announced_best_is_the_optimum scenario_B
                     (run (Some "first") one (Some "[a]") (Some 1%Z) 100 1)
                     (or_introl eq_refl) eq_refl))
    as [top [rest [Heq [_ [_ Hopt]]]]].
  exists top, rest. split; [exact Heq |].
  intros row Hrow. exact (proj1 (Hopt row Hrow)).
Defined.

(** ** Groups partition the rows *)

Lemma list_sum_map_add {A : Type} (a b : A -> nat) (l : list A) :
  list_sum (map (fun x => a x + b x) l)
  = list_sum (map a l) + list_sum (map b l).
Proof. induction l as [| x t IH]; simpl; lia. Qed.

Lemma list_sum_indicator {A : Type} (f : A -> bool) (l : list A) :
  list_sum (map (fun x => if f x then 1 else 0) l) = List.length (filter f l).
Proof.
  induction l as [| x t IH]; simpl; [reflexivity |].
  destruct (f x); simpl; lia.
Qed.

Lemma list_sum_perm (l l' : list nat) :
  Permutation l l' -> list_sum l = list_sum l'.
Proof. induction 1; simpl; lia. Qed.

Section Partition.
Context {R K : Type}.
Variable key : R -> option K.
Variable keq : K -> K -> bool.
Variable P : R -> bool.

(** When every key of the frame has exactly one representative in [U],
    the groups of [U] split the keyed rows. *)
Lemma group_sizes_add_up (U : list K) (df : list R) :
  (forall r k', In r df -> key r = Some k' ->
     List.length (filter (fun k => keq k k') U) = 1) ->
  list_sum (map (fun k => List.length
                            (filter P (filter (in_group key keq k) df))) U)
  = List.length (filter P (filter (has_key key) df)).
Proof.
  induction df as [| r t IH]; intros Hone.
  - clear Hone. simpl. induction U as [| k U' IHU]; simpl; auto.
  - rewrite (map_ext _
      (fun k => (if in_group key keq k r && P r then 1 else 0)
                + List.length (filter P (filter (in_group key keq k) t)))).
    + rewrite list_sum_map_add, list_sum_indicator, IH.
      * simpl. unfold has_key at 2, in_group.
        destruct (key r) as [k' |] eqn:Hk; simpl.
        -- destruct (P r); simpl.
           ++ rewrite (filter_ext _ (fun k => keq k k'))
                by (intros k; apply andb_true_r).
              rewrite (Hone r k' (or_introl eq_refl) Hk). reflexivity.
           ++ rewrite filter_none by (intros k _; apply andb_false_r).
              reflexivity.
        -- rewrite filter_none by reflexivity. reflexivity.
      * intros r' k' Hr'. apply Hone. now right.
    + intros k. simpl. destruct (in_group key keq k r); simpl;
        [destruct (P r) |]; reflexivity.
Qed.

End Partition.

Section ExactlyOne.
Context {K : Type}.
Variable keq : K -> K -> bool.
Hypothesis keq_sym : forall a b, keq a b = true -> keq b a = true.
Hypothesis keq_trans :
  forall a b c, keq a b = true -> keq b c = true -> keq a c = true.

Lemma keq_comm (a b : K) : keq a b = keq b a.
Proof.
  destruct (keq a b) eqn:Hab, (keq b a) eqn:Hba; try reflexivity.
  - apply keq_sym in Hab. congruence.
  - apply keq_sym in Hba. congruence.
Qed.

Lemma uniques_exactly_one (k' : K) (ks : list K) :
  In k' ks -> keq k' k' = true ->
  List.length (filter (fun k => keq k k') (uniques keq ks)) = 1.
Proof.
  intros Hin Hrefl.
  rewrite (filter_ext _ (keq k')) by (intros k; apply keq_comm).
  pose proof (uniques_count keq keq_sym keq_trans k' ks) as Hle.
  destruct (uniques_cover keq keq_trans k' ks Hin Hrefl) as [k0 [Hk0 Heq]].
  assert (Hin0 : In k0 (filter (keq k') (uniques keq ks))).
  { apply filter_In. split; [exact Hk0 | now apply keq_sym]. }
  destruct (filter (keq k') (uniques keq ks)) as [| x l]; [destruct Hin0 |].
  simpl in *. lia.
Qed.

End ExactlyOne.

Lemma summary_run_counts (with_cv : Quality.agg -> Quality.row)
    (asc : bool) (df : Frame) :
  (forall a, Quality.cols (with_cv a) = a) ->
  list_sum
    (map (fun row => Quality.num_runs (Quality.cols row))
       (map with_cv
          (sort_values Quality.mean_obj asc
             (map quality_agg
                (groupby (config_label df) config_eqb config_leb df)))))
  = List.length (filter (fun r => keyed r && has_seed r) df).
Proof.
  intros Hcols. rewrite map_map.
  rewrite (map_ext _ Quality.num_runs) by (intros a; now rewrite Hcols).
  rewrite (list_sum_perm _ _
             (Permutation_map Quality.num_runs (sort_values_perm _ _ _))).
  unfold groupby. rewrite !map_map. cbn [quality_agg fst snd Quality.num_runs].
  rewrite (list_sum_perm _ _
             (Permutation_map _ (isort_perm config_leb _))).
  rewrite (map_ext _
             (fun k => List.length
                         (filter has_seed
                            (filter (in_group (config_label df) config_eqb k)
                                    df))))
    by (intros k; apply count_seed).
  rewrite (group_sizes_add_up (config_label df) config_eqb has_seed).
  - rewrite filter_filter. f_equal. apply filter_ext.
    intros r. unfold keyed. now rewrite has_key_label, has_key_config.
  - intros r k' Hr Hk.
    apply (uniques_exactly_one config_eqb config_eqb_symm config_eqb_trans).
    + apply keys_In; eauto.
    + eapply config_label_refl; eassumption.
Qed.

(** X13.  In either variant the [num_runs] column of the quality summary
    adds up to the number of source rows that have strategy, alpha and
    seed: every such run is counted in exactly one configuration. *)
Theorem X13_run_counts_add_up (df : Frame) :
  list_sum (map (fun row => Quality.num_runs (Quality.cols row))
              (Evaluator.quality_summary df))
  = List.length (filter (fun r => keyed r && has_seed r) df)
  /\ list_sum (map (fun row => Quality.num_runs (Quality.cols row))
                 (EvaluatorV2.quality_summary df))
     = List.length (filter (fun r => keyed r && has_seed r) df).
Proof.
  split.
  - apply (summary_run_counts Evaluator.with_CV_obj true). reflexivity.
  - apply (summary_run_counts EvaluatorV2.with_CV_obj false). reflexivity.
Qed.

(** ** The index of the strategy and operator-set summaries *)

Lemma uniques_string_NoDup (ks : list string) : NoDup (uniques String.eqb ks).
Proof.
  induction ks as [| k t IH]; simpl; constructor.
  - intros Hin. apply filter_In in Hin. destruct Hin as [_ Hin].
    now rewrite String.eqb_refl in Hin.
  - now apply NoDup_filter.
Qed.

Lemma string_index_NoDup (ks : list string) :
  NoDup (isort String.leb (uniques String.eqb ks)).
Proof.
  eapply Permutation_NoDup; [| apply uniques_string_NoDup].
  apply Permutation_sym, isort_perm.
Qed.

Lemma string_index_Sorted (ks : list string) :
  Sorted (fun a b => String.leb a b = true)
    (isort String.leb (uniques String.eqb ks)).
Proof. apply (isort_Sorted String.leb), String.leb_total. Qed.

Lemma efficiency_index (with_pm : Efficiency.agg -> Efficiency.row) (df : Frame) :
  (forall a, Efficiency.cols (with_pm a) = a) ->
  map (fun row => Efficiency.index (Efficiency.cols row))
      (map with_pm
         (map efficiency_agg (groupby strategy_key String.eqb String.leb df)))
  = isort String.leb (uniques String.eqb (keys strategy_key df)).
Proof.
  intros Hcols. unfold groupby. rewrite !map_map.
  rewrite (map_ext _ (fun k => k)) by (intros k; now rewrite Hcols).
  apply map_id.
Qed.

Lemma efficiency_cols (with_pm : Efficiency.agg -> Efficiency.row) (df : Frame) :
  (forall a, Efficiency.cols (with_pm a) = a) ->
  map Efficiency.cols
      (map with_pm
         (map efficiency_agg (groupby strategy_key String.eqb String.leb df)))
  = map efficiency_agg (groupby strategy_key String.eqb String.leb df).
Proof.
  intros Hcols. rewrite map_map.
  rewrite (map_ext _ (fun a => a)) by exact Hcols. apply map_id.
Qed.

(** X14.  In either variant the strategy-level efficiency summary has
    exactly one row for each strategy that occurs in the table, in
    ascending order of the label, and that row holds the means of
    [final_obj], [total_time] and [iterations] over all rows of the
    strategy; the two variants differ in the performance metric only. *)
Theorem X14_one_row_per_strategy (df : Frame) :
  let labels := map (fun row => Efficiency.index (Efficiency.cols row)) in
  map Efficiency.cols (EvaluatorV2.efficiency_summary df)
  = map Efficiency.cols (Evaluator.efficiency_summary df)
  /\ NoDup (labels (Evaluator.efficiency_summary df))
  /\ Sorted (fun a b => String.leb a b = true)
            (labels (Evaluator.efficiency_summary df))
  /\ (forall s, In s (labels (Evaluator.efficiency_summary df)) <->
                exists r, In r df /\ strategy r = Some s)
  /\ (forall row,
        In row (Evaluator.efficiency_summary df)
        \/ In row (EvaluatorV2.efficiency_summary df) ->
        e_mean_obj row
        = strategy_mean_obj (Efficiency.index (Efficiency.cols row)) df
        /\ e_mean_time row
           = strategy_mean_time (Efficiency.index (Efficiency.cols row)) df
        /\ Efficiency.mean_iterations (Efficiency.cols row)
           = Agg.mean (map iterations
                         (of_strategy (Efficiency.index (Efficiency.cols row)) df))).
Proof.
  intros labels.
  assert (Hl : labels (Evaluator.efficiency_summary df)
               = isort String.leb (uniques String.eqb (keys strategy_key df))).
  { apply (efficiency_index Evaluator.with_performance_metric). reflexivity. }
  split; [| split; [| split; [| split]]].
  - unfold EvaluatorV2.efficiency_summary, Evaluator.efficiency_summary.
    rewrite (efficiency_cols EvaluatorV2.with_performance_metric),
      (efficiency_cols Evaluator.with_performance_metric); reflexivity.
  - rewrite Hl. apply string_index_NoDup.
  - rewrite Hl. apply string_index_Sorted.
  - intros s. rewrite Hl. apply strategy_index_In.
  - intros row [Hrow | Hrow].
    + unfold Evaluator.efficiency_summary in Hrow.
      rewrite (summary_rows Evaluator.with_performance_metric) in Hrow.
      apply in_map_iff in Hrow. destruct Hrow as [s [<- _]].
      repeat split.
    + unfold EvaluatorV2.efficiency_summary in Hrow.
      rewrite (summary_rows EvaluatorV2.with_performance_metric) in Hrow.
      apply in_map_iff in Hrow. destruct Hrow as [s [<- _]].
      repeat split.
Qed.

(** X14 on scenario B. *)
Lemma X14_scenario_B_witness :
  In "best" (map (fun row => Efficiency.index (Efficiency.cols row))
               (Evaluator.efficiency_summary scenario_B)).
Proof.
  apply (proj2 ((proj1 (proj2 (proj2 (proj2
           (X14_one_row_per_strategy scenario_B))))) "best")).
  exists (run (Some "best") one (Some "[a]") (Some 1%Z) 90 5).
  split; [right; left; reflexivity | reflexivity].
Defined.

Lemma string_eqb_sym (a b : string) : String.eqb a b = true -> String.eqb b a = true.
Proof. now rewrite String.eqb_sym. Qed.

Lemma string_eqb_trans (a b c : string) :
  String.eqb a b = true -> String.eqb b c = true -> String.eqb a c = true.
Proof. rewrite !String.eqb_eq. congruence. Qed.

Lemma filter_all {A : Type} (l : list A) : filter (fun _ => true) l = l.
Proof. induction l as [| x t IH]; simpl; congruence. Qed.

Lemma op_summary_index (df : Frame) :
  Permutation (map OpSet.index (Evaluator.op_summary df))
              (uniques String.eqb (keys op_set_key df)).
Proof.
  unfold Evaluator.op_summary.
  eapply perm_trans; [apply Permutation_map, sort_values_perm |].
  unfold groupby. rewrite !map_map. cbn [op_set_agg fst OpSet.index].
  rewrite map_id. apply isort_perm.
Qed.

(** X15.  The operator-set summary is the same in both variants; it has
    exactly one row for each [op_set_str] value of the table, and the
    groups behind its rows split the table: every row of the table,
    whatever else it lacks, lies in exactly one of them. *)
Theorem X15_operator_sets_split_the_table (df : Frame) :
  EvaluatorV2.op_summary df = Evaluator.op_summary df
  /\ NoDup (map OpSet.index (Evaluator.op_summary df))
  /\ (forall o, In o (map OpSet.index (Evaluator.op_summary df)) <->
                exists r, In r df /\ op_set_str r = o)
  /\ list_sum (map (fun row => List.length (of_op_set (OpSet.index row) df))
                 (Evaluator.op_summary df))
     = List.length df.
Proof.
  split; [reflexivity |]. split; [| split].
  - eapply Permutation_NoDup;
      [apply Permutation_sym, op_summary_index | apply uniques_string_NoDup].
  - intros o. split.
    + intros Hin. apply (Permutation_in _ (op_summary_index df)) in Hin.
      apply uniques_string_In, keys_In in Hin.
      destruct Hin as [r [Hr Hk]]. exists r. split; [exact Hr |].
      unfold op_set_key in Hk. now injection Hk.
    + intros [r [Hr Ho]].
      apply (Permutation_in _ (Permutation_sym (op_summary_index df))).
      apply uniques_string_In, keys_In. exists r. split; [exact Hr |].
      unfold op_set_key. now rewrite Ho.
  - rewrite <- (map_map OpSet.index (fun o => List.length (of_op_set o df))).
    rewrite (list_sum_perm _ _ (Permutation_map _ (op_summary_index df))).
    unfold of_op_set.
    rewrite (map_ext _
               (fun k => List.length
                           (filter (fun _ => true)
                              (filter (in_group op_set_key String.eqb k) df))))
      by (intros k; now rewrite filter_all).
    rewrite (group_sizes_add_up op_set_key String.eqb (fun _ => true)).
    + rewrite filter_all. f_equal.
      rewrite <- (filter_all df) at 2. apply filter_ext. reflexivity.
    + intros r k' Hr Hk.
      apply (uniques_exactly_one String.eqb string_eqb_sym string_eqb_trans).
      * apply keys_In; eauto.
      * apply String.eqb_refl.
Qed.

(** X15 on a configuration measured under two operator sets. *)
Lemma X15_two_op_sets_witness :
  In "[b]" (map OpSet.index (Evaluator.op_summary two_op_sets)).
Proof.
  apply (proj2 ((proj1 (proj2 (proj2
           (X15_operator_sets_split_the_table two_op_sets)))) "[b]")).
  exists (run (Some "X") one (Some "[b]") (Some 1%Z) 30 3).
  split; [right; left; reflexivity | reflexivity].
Defined.

(** ** The aggregate behind the charts *)

Lemma string_compare_Eq (a b : string) : String.compare a b = Eq -> a = b.
Proof. apply String.compare_eq_iff. Qed.

Lemma strategy_alpha_leb_total (a b : string * float) :
  F64.isnan (snd a) = false -> F64.isnan (snd b) = false ->
  strategy_alpha_leb a b = true \/ strategy_alpha_leb b a = true.
Proof.
  intros Ha Hb. unfold strategy_alpha_leb.
  rewrite (String.compare_antisym (fst a) (fst b)).
  destruct (String.compare (fst b) (fst a)); simpl; auto.
  apply leb_total; assumption.
Qed.

Section SortOn.
Context {A : Type}.
Variable le : A -> A -> bool.
Variable P : A -> Prop.
Hypothesis le_total_on :
  forall x y, P x -> P y -> le x y = true \/ le y x = true.

Lemma insert_Sorted_on (x : A) (l : list A) :
  P x -> Forall P l ->
  Sorted (fun u v => le u v = true) l ->
  Sorted (fun u v => le u v = true) (insert le x l).
Proof.
  intros Hx Hl Hs. induction Hs as [| y t Ht IH Hd]; simpl.
  - repeat constructor.
  - inversion Hl as [| y' t' Hy Hall]; subst.
    destruct (le x y) eqn:Hxy.
    + constructor; [constructor; assumption | constructor; exact Hxy].
    + constructor; [apply IH; assumption |].
      apply insert_HdRel; [| exact Hd].
      destruct (le_total_on x y Hx Hy) as [H | H]; [congruence | exact H].
Qed.

Lemma isort_Sorted_on (l : list A) :
  Forall P l -> Sorted (fun u v => le u v = true) (isort le l).
Proof.
  induction l as [| x t IH]; simpl; intros Hl.
  - constructor.
  - inversion Hl as [| x' t' Hx Hall]; subst.
    apply insert_Sorted_on; auto.
    rewrite Forall_forall in *. intros y Hy.
    apply Hall. exact (proj1 (isort_In le y t) Hy).
Qed.

End SortOn.

Lemma df_agg_rows (df : Frame) :
  Evaluator.df_agg df =
  map (fun k => strategy_alpha_agg (k, of_pair k df))
      (isort strategy_alpha_leb
         (uniques strategy_alpha_eqb (keys (strategy_alpha_label df) df))).
Proof.
  unfold Evaluator.df_agg, groupby. rewrite map_map. apply map_ext.
  intros k. now rewrite of_pair_label.
Qed.

Lemma vis_key_agg (k : string * float) (g : Frame) :
  vis_key (strategy_alpha_agg (k, g)) = k.
Proof. destruct k; reflexivity. Qed.

Lemma of_pair_In (s : string) (a : float) (df : Frame) (r : Run) :
  In r (of_pair (s, a) df) <->
  In r df /\ strategy r = Some s /\ F64.eqb a (alpha r) = true.
Proof.
  unfold of_pair. rewrite filter_In. unfold in_group, strategy_alpha_key.
  destruct (strategy r) as [s' |].
  - destruct (F64.isnan (alpha r)) eqn:Ha.
    + split; [intros [_ H]; discriminate |].
      intros [_ [_ H]]. apply eqb_notnan in H. destruct H; congruence.
    + unfold strategy_alpha_eqb; simpl.
      rewrite andb_true_iff, String.eqb_eq. split.
      * intros [Hin [-> He]]. auto.
      * intros [Hin [[= ->] He]]. auto.
  - split; [intros [_ H]; discriminate | intros [_ [H _]]; discriminate].
Qed.

(** X16.  The aggregate that the charts are drawn from has one row for
    each (strategy, alpha) pair of the rows that have both (alpha
    compared as a number), in ascending order of the pair; a row holds
    the means over all rows of its pair, every operator set pooled.
    [evaluator_v2.py] adds to the same aggregate the column
    [mean_obj / mean_time]. *)
Theorem X16_chart_aggregate (df : Frame) :
  EvaluatorV2.df_agg df = map EvaluatorV2.with_vis_metric (Evaluator.df_agg df)
  /\ (forall row, In row (Evaluator.df_agg df) ->
        Vis.performance_metric row = None
        /\ Vis.mean_obj row = Agg.mean (map final_obj (of_pair (vis_key row) df))
        /\ Vis.mean_time row
           = Agg.mean (map total_time (of_pair (vis_key row) df))
        /\ exists r, In r df /\ keyed r = true
                     /\ strategy r = Some (Vis.strategy row)
                     /\ F64.eqb (Vis.alpha row) (alpha r) = true)
  /\ (forall row, In row (EvaluatorV2.df_agg df) ->
        Vis.performance_metric row
        = Some (F64.div (Vis.mean_obj row) (Vis.mean_time row)))
  /\ (forall r s, In r df -> strategy r = Some s -> has_alpha r = true ->
        exists row, In row (Evaluator.df_agg df)
                    /\ strategy_alpha_eqb (vis_key row) (s, alpha r) = true)
  /\ (forall k,
        List.length
          (filter (fun row => strategy_alpha_eqb k (vis_key row))
                  (Evaluator.df_agg df)) <= 1)
  /\ (forall r s a,
        In r (of_pair (s, a) df) <->
        In r df /\ strategy r = Some s /\ F64.eqb a (alpha r) = true)
  /\ Sorted (fun r1 r2 => strategy_alpha_leb (vis_key r1) (vis_key r2) = true)
            (Evaluator.df_agg df).
Proof.
  split; [reflexivity |].
  split; [| split; [| split; [| split; [| split]]]].
  - intros row Hrow. rewrite df_agg_rows in Hrow.
    apply in_map_iff in Hrow. destruct Hrow as [k [<- Hk]].
    rewrite vis_key_agg. split; [reflexivity |].
    split; [reflexivity |]. split; [reflexivity |].
    apply isort_In, uniques_incl, keys_In in Hk.
    destruct Hk as [r [Hr Hlab]]. exists r. split; [exact Hr |].
    destruct (strategy_alpha_label_eqb df r k Hlab) as [k' [Hkey Heq]].
    apply strategy_alpha_key_Some in Hkey. destruct Hkey as [Hs [Ha Hn]].
    unfold strategy_alpha_eqb in Heq.
    apply andb_true_iff in Heq. destruct Heq as [Hfst Hsnd].
    apply String.eqb_eq in Hfst.
    split; [| split].
    + unfold keyed, has_strategy, has_alpha. now rewrite Hs, Ha, Hn.
    + destruct k as [s a]; simpl in *. now rewrite Hs, Hfst.
    + destruct k as [s a]; simpl in *. now rewrite Ha.
  - intros row Hrow. unfold EvaluatorV2.df_agg in Hrow.
    apply in_map_iff in Hrow. destruct Hrow as [a [<- _]]. reflexivity.
  - intros r s Hr Hs Ha.
    assert (Hkey : strategy_alpha_key r = Some (s, alpha r)).
    { apply strategy_alpha_key_Some. simpl. repeat split; auto.
      unfold has_alpha in Ha. now destruct (F64.isnan (alpha r)). }
    destruct (strategy_alpha_key_label df r _ Hkey) as [l [Hl Hlk]].
    destruct (uniques_cover strategy_alpha_eqb strategy_alpha_eqb_trans
                l (keys (strategy_alpha_label df) df))
      as [k' [Hk' Heq]].
    + apply keys_In; eauto.
    + eapply strategy_alpha_label_refl; eassumption.
    + exists (strategy_alpha_agg (k', of_pair k' df)). split.
      * rewrite df_agg_rows. apply in_map_iff. exists k'.
        split; [reflexivity | now apply isort_In].
      * rewrite vis_key_agg.
        eapply strategy_alpha_eqb_trans; eassumption.
  - intros k. rewrite df_agg_rows, filter_map_compose, length_map.
    rewrite (filter_length_perm _ _ _ (isort_perm _ _)).
    rewrite (filter_ext _ (strategy_alpha_eqb k))
      by (intros k'; now rewrite vis_key_agg).
    apply uniques_count;
      [apply strategy_alpha_eqb_sym | apply strategy_alpha_eqb_trans].
  - intros r s a. apply of_pair_In.
  - rewrite df_agg_rows.
    eapply Sorted_map;
      [| apply (isort_Sorted_on strategy_alpha_leb
                  (fun k => F64.isnan (snd k) = false))].
    + intros x y H. now rewrite !vis_key_agg.
    + intros x y. apply strategy_alpha_leb_total.
    + apply Forall_forall. intros k Hk.
      apply uniques_incl, keys_In in Hk. destruct Hk as [r [_ Hlab]].
      apply strategy_alpha_label_refl in Hlab.
      unfold strategy_alpha_eqb in Hlab.
      apply andb_true_iff in Hlab. destruct Hlab as [_ Hlab].
      now apply eqb_notnan in Hlab.
Qed.

(** X16 on a configuration measured under two operator sets: one pooled
    row. *)
Lemma X16_two_op_sets_witness :
  exists row, In row (Evaluator.df_agg two_op_sets)
              /\ strategy_alpha_eqb (vis_key row) ("X", one) = true.
Proof.
  exact (proj1 (proj2 (proj2 (proj2 (X16_chart_aggregate two_op_sets))))
           (run (Some "X") one (Some "[a]") (Some 1%Z) 10 1) "X"
           (or_introl eq_refl) eq_refl eq_refl).
Defined.

(** X17.  The third chart of [evaluator_v2.py] is drawn from the chart
    aggregate reordered by descending performance metric (undefined
    values last): the ranked frame holds the same rows, the first two
    charts still receive the aggregate in its grouped order, and the
    stage returns without error. *)
Theorem X17_ranked_chart (df : Frame) :
  let df_ranked :=
    sort_values EvaluatorV2.v_performance_metric false (EvaluatorV2.df_agg df) in
  Permutation df_ranked (EvaluatorV2.df_agg df)
  /\ StronglySorted
       (fun r1 r2 => descending (EvaluatorV2.v_performance_metric r1)
                                (EvaluatorV2.v_performance_metric r2))
       df_ranked
  /\ (forall row, In row df_ranked ->
        EvaluatorV2.v_performance_metric row
        = F64.div (Vis.mean_obj row) (Vis.mean_time row))
  /\ filter is_plot (trace (EvaluatorV2.visualize_results df))
     = [ Barplot (EvaluatorV2.df_agg df) "alpha" "mean_obj" "strategy";
         Barplot (EvaluatorV2.df_agg df) "alpha" "mean_time" "strategy";
         Barplot df_ranked "performance_metric" "strategy" "alpha";
         PltShow ]
  /\ filter is_plot (trace (Evaluator.visualize_results df))
     = [ Barplot (Evaluator.df_agg df) "alpha" "mean_obj" "strategy";
         Barplot (Evaluator.df_agg df) "alpha" "mean_time" "strategy";
         PltShow ]
  /\ outcome (EvaluatorV2.visualize_results df) = inr tt
  /\ outcome (Evaluator.visualize_results df) = inr tt.
Proof.
  intros df_ranked.
  split; [apply sort_values_perm |].
  split; [apply sort_values_desc_sorted |].
  split; [| repeat split].
  intros row Hrow. apply sort_values_In in Hrow.
  unfold EvaluatorV2.df_agg in Hrow.
  apply in_map_iff in Hrow. destruct Hrow as [a [<- _]]. reflexivity.
Qed.

(** ** The narrative in general *)

(** X18.  When both "first" and "best" occur in the table, the
    efficiency analyzer of either variant returns, and the narrative
    lines it prints are determined by the strategies' means: none unless
    the mean time of "first" is strictly below that of "best"; otherwise
    the time ratio [best / first] in both variants, and the quality gap
    [(first / best - 1) * 100] in [evaluator.py] but
    [(best / first - 1) * 100] in [evaluator_v2.py]. *)
Theorem X18_narrative_of_each_variant (df : Frame) (rf rb : Run) :
  In rf df -> strategy rf = Some "first" ->
  In rb df -> strategy rb = Some "best" ->
  let ft := strategy_mean_time "first" df in
  let bt := strategy_mean_time "best" df in
  let fo := strategy_mean_obj "first" df in
  let bo := strategy_mean_obj "best" df in
  (outcome (Evaluator.analyze_efficiency_and_tradeoff df) = inr tt
   /\ filter is_narrative (trace (Evaluator.analyze_efficiency_and_tradeoff df))
      = if F64.ltb ft bt then
          [ SayFaster (F64.div bt ft);
            SaySacrifices (F64.mul (F64.sub (F64.div fo bo) one) hundred);
            Say "Decide if the speed gain is worth the small loss in quality." ]
        else [])
  /\ (outcome (EvaluatorV2.analyze_efficiency_and_tradeoff df) = inr tt
      /\ filter is_narrative
           (trace (EvaluatorV2.analyze_efficiency_and_tradeoff df))
         = if F64.ltb ft bt then
             [ SayFaster (F64.div bt ft);
               SaySacrifices (F64.mul (F64.sub (F64.div bo fo) one) hundred);
               Say "Decide if the speed gain is worth the small loss in quality." ]
           else []).
Proof.
  intros Hf Hsf Hb Hsb ft bt fo bo. split.
  - destruct (lookup_strategy_v1 df "first" rf Hf Hsf) as [f [Hlf [Hf1 Hf2]]].
    destruct (lookup_strategy_v1 df "best" rb Hb Hsb) as [b [Hlb [Hb1 Hb2]]].
    rewrite analyze_efficiency_v1, (interpretation_v1_both _ f b Hlf Hlb).
    rewrite Hf1, Hf2, Hb1, Hb2. fold ft bt fo bo.
    destruct (F64.ltb ft bt); split; reflexivity.
  - destruct (lookup_strategy_v2 df "first" rf Hf Hsf) as [f [Hlf [Hf1 Hf2]]].
    destruct (lookup_strategy_v2 df "best" rb Hb Hsb) as [b [Hlb [Hb1 Hb2]]].
    rewrite analyze_efficiency_v2, (interpretation_v2_both _ f b Hlf Hlb).
    rewrite Hf1, Hf2, Hb1, Hb2. fold ft bt fo bo.
    destruct (F64.ltb ft bt); split; reflexivity.
Qed.

(** X18 on scenario B, where the narrative is printed. *)
Lemma X18_scenario_B_witness :
  List.length
    (filter is_narrative
       (trace (EvaluatorV2.analyze_efficiency_and_tradeoff scenario_B))) = 3.
Proof.
  pose proof
    (proj2 (proj2
       (X18_narrative_of_each_variant scenario_B
          (run (Some "first") one (Some "[a]") (Some 1%Z) 100 1)
          (run (Some "best") one (Some "[a]") (Some 1%Z) 90 5)
          (or_introl eq_refl) eq_refl
          (or_intror (or_introl eq_refl)) eq_refl))) as H.
  cbv zeta in H. rewrite H. vm_compute. reflexivity.
Defined.

(** A baseline whose times are all missing has no mean time. *)
Lemma mean_all_missing (xs : list float) :
  Forall (fun x => F64.isnan x = true) xs -> Agg.mean xs = F64.nan.
Proof.
  intros H. unfold Agg.mean, Agg.notna.
  rewrite filter_none; [reflexivity |].
  rewrite Forall_forall in H. intros x Hx. now rewrite (H x Hx).
Qed.

Lemma strategy_mean_time_missing (s : string) (df : Frame) :
  (forall r, In r df -> strategy r = Some s -> F64.isnan (total_time r) = true) ->
  strategy_mean_time s df = F64.nan.
Proof.
  intros H. unfold strategy_mean_time. apply mean_all_missing.
  apply Forall_forall. intros x Hx. apply in_map_iff in Hx.
  destruct Hx as [r [<- Hr]]. unfold of_strategy in Hr.
  apply filter_In in Hr. destruct Hr as [Hr Hg]. apply (H r Hr).
  unfold in_group, strategy_key in Hg.
  destruct (strategy r) as [s' |]; [| discriminate].
  apply String.eqb_eq in Hg. now subst.
Qed.

(** X19.  When both "first" and "best" occur in the table but every row
    of one of them lacks its [total_time], that strategy's mean time is
    undefined and the analyzer of either variant prints no narrative and
    returns without error. *)
Theorem X19_no_narrative_without_times (df : Frame) (rf rb : Run) (s : string) :
  In rf df -> strategy rf = Some "first" ->
  In rb df -> strategy rb = Some "best" ->
  s = "first" \/ s = "best" ->
  (forall r, In r df -> strategy r = Some s -> F64.isnan (total_time r) = true) ->
  strategy_mean_time s df = F64.nan
  /\ outcome (Evaluator.analyze_efficiency_and_tradeoff df) = inr tt
  /\ forallb (fun e => negb (is_narrative e))
       (trace (Evaluator.analyze_efficiency_and_tradeoff df)) = true
  /\ outcome (EvaluatorV2.analyze_efficiency_and_tradeoff df) = inr tt
  /\ forallb (fun e => negb (is_narrative e))
       (trace (EvaluatorV2.analyze_efficiency_and_tradeoff df)) = true.
Proof.
  intros Hf Hsf Hb Hsb Hs Hmiss.
  pose proof (strategy_mean_time_missing s df Hmiss) as Hnan.
  assert (Hlt : F64.ltb (strategy_mean_time "first" df)
                        (strategy_mean_time "best" df) = false).
  { destruct Hs as [-> | ->]; rewrite Hnan;
      [apply ltb_nan_l | apply ltb_nan_r]. }
  split; [exact Hnan |].
  destruct (lookup_strategy_v1 df "first" rf Hf Hsf) as [f [Hlf [Hf1 _]]].
  destruct (lookup_strategy_v1 df "best" rb Hb Hsb) as [b [Hlb [Hb1 _]]].
  destruct (lookup_strategy_v2 df "first" rf Hf Hsf) as [f' [Hlf' [Hf1' _]]].
  destruct (lookup_strategy_v2 df "best" rb Hb Hsb) as [b' [Hlb' [Hb1' _]]].
  rewrite analyze_efficiency_v1, analyze_efficiency_v2,
    (interpretation_v1_both _ f b Hlf Hlb),
    (interpretation_v2_both _ f' b' Hlf' Hlb'),
    Hf1, Hb1, Hf1', Hb1', Hlt.
  repeat split.
Qed.

(** X19 on a table where "first" has no recorded time. *)
Lemma X19_untimed_first_witness :
  strategy_mean_time "first" untimed_first = F64.nan
  /\ outcome (Evaluator.analyze_efficiency_and_tradeoff untimed_first) = inr tt.
Proof.
  destruct (X19_no_narrative_without_times untimed_first
              (with_op_set_str
                 (Csv.mk (Some "first") one (Some "[a]") (Some 1%Z)
                    (F64.of_Z 100) F64.nan (F64.of_Z 10)))
              (run (Some "best") one (Some "[a]") (Some 1%Z) 90 5)
              "first"
              (or_introl eq_refl) eq_refl
              (or_intror (or_introl eq_refl)) eq_refl
              (or_introl eq_refl))
    as [H1 [H2 _]].
  - intros r [<- | [<- | []]] Hs; [reflexivity | discriminate Hs].
  - split; assumption.
Defined.

(** ** The two coefficients of variation *)

Lemma binary_round_aux_opp (s : bool) (m e : Z) (l : location) :
  fopp (binary_round_aux F64.prec F64.emax s m e l)
  = binary_round_aux F64.prec F64.emax (negb s) m e l.
Proof.
  unfold binary_round_aux.
  destruct (shr_fexp F64.prec F64.emax m e l) as [mrs' e'].
  destruct (shr_fexp F64.prec F64.emax
              (round_nearest_even (shr_m mrs') (loc_of_shr_record mrs')) e'
              loc_Exact) as [mrs'' e''].
  destruct (shr_m mrs''); try reflexivity.
  destruct (Z.leb e'' (F64.emax - F64.prec)); reflexivity.
Qed.

Lemma div_opp_r (x y : float) : F64.div x (fopp y) = fopp (F64.div x y).
Proof.
  destruct x as [sx | sx | | sx mx ex], y as [sy | sy | | sy my ey];
    try reflexivity;
    try (destruct sx, sy; reflexivity).
  unfold F64.div, SFdiv, fopp at 1, SFopp.
  destruct (SFdiv_core_binary F64.prec F64.emax (Z.pos mx) ex (Z.pos my) ey)
    as [[mz ez] lz].
  rewrite binary_round_aux_opp. destruct sx, sy; reflexivity.
Qed.

Lemma mul_opp_l (x y : float) : F64.mul (fopp x) y = fopp (F64.mul x y).
Proof.
  destruct x as [sx | sx | | sx mx ex], y as [sy | sy | | sy my ey];
    try reflexivity;
    try (destruct sx, sy; reflexivity).
  unfold F64.mul, SFmul, fopp at 1, SFopp.
  rewrite binary_round_aux_opp. destruct sx, sy; reflexivity.
Qed.

Lemma abs_of_positive (x : float) : F64.ltb F64.zero x = true -> F64.abs x = x.
Proof. destruct x as [s | s | | s m e]; try destruct s; try discriminate; reflexivity. Qed.

Lemma abs_of_negative (x : float) :
  F64.ltb x F64.zero = true -> F64.abs x = fopp x.
Proof. destruct x as [s | s | | s m e]; try destruct s; try discriminate; reflexivity. Qed.

Lemma cv_of_positive_mean (a : Quality.agg) :
  F64.ltb F64.zero (Quality.mean_obj a) = true ->
  Quality.CV_obj (EvaluatorV2.with_CV_obj a)
  = Quality.CV_obj (Evaluator.with_CV_obj a).
Proof.
  intros H. unfold EvaluatorV2.with_CV_obj, Evaluator.with_CV_obj; simpl.
  now rewrite (abs_of_positive _ H).
Qed.

Lemma cv_of_negative_mean (a : Quality.agg) :
  F64.ltb (Quality.mean_obj a) F64.zero = true ->
  Quality.CV_obj (Evaluator.with_CV_obj a)
  = fopp (Quality.CV_obj (EvaluatorV2.with_CV_obj a)).
Proof.
  intros H. unfold EvaluatorV2.with_CV_obj, Evaluator.with_CV_obj; simpl.
  rewrite (abs_of_negative _ H), div_opp_r, mul_opp_l.
  destruct (F64.mul (F64.div (Quality.std_obj a) (Quality.mean_obj a)) hundred)
    as [s | s | | s m e]; try destruct s; reflexivity.
Qed.

Lemma map_cols_with_cv (with_cv : Quality.agg -> Quality.row)
    (l : list Quality.agg) :
  (forall a, Quality.cols (with_cv a) = a) ->
  map Quality.cols (map with_cv l) = l.
Proof.
  intros H. induction l as [| a t IH]; simpl; [reflexivity |].
  now rewrite H, IH.
Qed.

(** X20.  The quality summaries of the two variants hold the same
    configurations with the same means, deviations and counts, in
    different order.  On a configuration whose mean objective is positive
    they report the same [CV_obj]; on one whose mean objective is
    negative [evaluator.py] reports the negative of the value that
    [evaluator_v2.py] reports. *)
Theorem X20_the_variants_differ_by_a_sign (df : Frame) :
  Permutation (map Quality.cols (Evaluator.quality_summary df))
              (map Quality.cols (EvaluatorV2.quality_summary df))
  /\ forall row, In row (Evaluator.quality_summary df) ->
       exists row', In row' (EvaluatorV2.quality_summary df)
         /\ Quality.cols row' = Quality.cols row
         /\ (F64.ltb F64.zero (q_mean_obj row) = true ->
             Quality.CV_obj row = Quality.CV_obj row')
         /\ (F64.ltb (q_mean_obj row) F64.zero = true ->
             Quality.CV_obj row = fopp (Quality.CV_obj row')).
Proof.
  split.
  - unfold Evaluator.quality_summary, EvaluatorV2.quality_summary; cbv zeta.
    rewrite (map_cols_with_cv Evaluator.with_CV_obj) by reflexivity.
    rewrite (map_cols_with_cv EvaluatorV2.with_CV_obj) by reflexivity.
    eapply perm_trans; [apply sort_values_perm |].
    apply Permutation_sym, sort_values_perm.
  - intros row Hrow.
    apply (summary_In Evaluator.with_CV_obj true) in Hrow.
    destruct Hrow as [k [Hk ->]].
    exists (EvaluatorV2.with_CV_obj (quality_agg (k, carrying k df))).
    split; [apply (summary_In EvaluatorV2.with_CV_obj false); eauto |].
    split; [reflexivity |]. split.
    + intros H. symmetry. now apply cv_of_positive_mean.
    + intros H. now apply cv_of_negative_mean.
Qed.

(** X20 on the table of negative objectives. *)
Lemma X20_negative_table_witness :
  exists row row',
    In row (Evaluator.quality_summary negative_table)
    /\ In row' (EvaluatorV2.quality_summary negative_table)
    /\ F64.ltb (q_mean_obj row) F64.zero = true
    /\ Quality.CV_obj row = fopp (Quality.CV_obj row').
Proof.
  assert (Hin : In (Evaluator.with_CV_obj
                      (quality_agg (("X", one, "[a]"), negative_table)))
                   (Evaluator.quality_summary negative_table)).
  { left. vm_compute. reflexivity. }
  destruct (proj2 (X20_the_variants_differ_by_a_sign negative_table) _ Hin)
    as [row' [Hrow' [_ [_ Hneg]]]].
  exists (Evaluator.with_CV_obj
            (quality_agg (("X", one, "[a]"), negative_table))), row'.
  assert (Hlt : F64.ltb
                  (q_mean_obj
                     (Evaluator.with_CV_obj
                        (quality_agg (("X", one, "[a]"), negative_table))))
                  F64.zero = true).
  { vm_compute. reflexivity. }
  split; [exact Hin |]. split; [exact Hrow' |].
  split; [exact Hlt | exact (Hneg Hlt)].
Defined.

(** ** Missing objectives *)

(** X4.  In either variant, a configuration with fewer than two
    recorded objective values has an undefined [std_obj] and [CV_obj],
    however many runs its [num_runs] counts (the count reads the seed
    column), and a configuration with no recorded objective value has an
    undefined [mean_obj] as well. *)
Theorem X4_deviation_needs_two_objectives (df : Frame) (row : Quality.row) :
  In row (Evaluator.quality_summary df) \/
  In row (EvaluatorV2.quality_summary df) ->
  List.length (objectives (carrying (Quality.index (Quality.cols row)) df)) <= 1 ->
  q_std_obj row = F64.nan
  /\ Quality.CV_obj row = F64.nan
  /\ (objectives (carrying (Quality.index (Quality.cols row)) df) = [] ->
      q_mean_obj row = F64.nan)
  /\ Quality.num_runs (Quality.cols row)
     = List.length
         (filter has_seed (carrying (Quality.index (Quality.cols row)) df)).
Proof.
  intros Hin Hlen.
  assert (Hshape : exists k,
            (row = Evaluator.with_CV_obj (quality_agg (k, carrying k df))
             \/ row = EvaluatorV2.with_CV_obj (quality_agg (k, carrying k df)))).
  { destruct Hin as [H | H].
    - apply (summary_In Evaluator.with_CV_obj true) in H.
      destruct H as [k [_ ->]]. eauto.
    - apply (summary_In EvaluatorV2.with_CV_obj false) in H.
      destruct H as [k [_ ->]]. eauto. }
  destruct Hshape as [k Hrow].
  assert (Hk : Quality.index (Quality.cols row) = k).
  { destruct Hrow as [-> | ->]; reflexivity. }
  rewrite Hk in *.
  assert (Hstd : q_std_obj row = F64.nan).
  { assert (H : q_std_obj row = Agg.std (map final_obj (carrying k df))).
    { destruct Hrow as [-> | ->]; reflexivity. }
    rewrite H. unfold Agg.std. fold (objectives (carrying k df)).
    destruct (Nat.leb_spec (List.length (objectives (carrying k df))) 1);
      [reflexivity | lia]. }
  split; [exact Hstd |]. split; [| split].
  - unfold q_std_obj in Hstd.
    destruct Hrow as [-> | ->]; simpl in *; rewrite Hstd, div_nan_l;
      apply mul_nan_l.
  - intros Hnone.
    assert (H : q_mean_obj row = Agg.mean (map final_obj (carrying k df))).
    { destruct Hrow as [-> | ->]; reflexivity. }
    rewrite H. unfold Agg.mean. fold (objectives (carrying k df)).
    now rewrite Hnone.
  - destruct Hrow as [-> | ->]; simpl; apply count_seed.
Qed.

(** X4 on two runs of which one has no objective: [num_runs] is 2. *)
Lemma X4_half_missing_witness :
  exists row,
    In row (Evaluator.quality_summary half_missing)
    /\ Quality.num_runs (Quality.cols row) = 2
    /\ q_std_obj row = F64.nan
    /\ Quality.CV_obj row = F64.nan.
Proof.
  assert (Hin : In (Evaluator.with_CV_obj
                      (quality_agg (("X", one, "[a]"), half_missing)))
                   (Evaluator.quality_summary half_missing)).
  { left. vm_compute. reflexivity. }
  assert (Hlen : List.length
                   (objectives
                      (carrying
                         (Quality.index
                            (Quality.cols
                               (Evaluator.with_CV_obj
                                  (quality_agg (("X", one, "[a]"), half_missing)))))
                         half_missing)) <= 1).
  { vm_compute. apply le_n. }
  destruct (X4_deviation_needs_two_objectives half_missing _
              (or_introl Hin) Hlen) as [Hstd [Hcv _]].
  exists (Evaluator.with_CV_obj
            (quality_agg (("X", one, "[a]"), half_missing))).
  split; [exact Hin |]. split; [vm_compute; reflexivity |].
  split; assumption.
Defined.
